(** * Sample-metadata retrieval and normalisation (microsetta_admin.metadata_util)

    A shallow embedding of [metadata_util.py] and the properties of its
    pipeline: duplicate detection, per-sample fetch, survey-template fetch,
    the multiselect column map, flattening of one sample into a series,
    assembly and back-filling of the table, and redaction of private columns.

    Conventions of the embedding.
    - Python [str] is [string] (a sequence of bytes, UTF-8 for text outside
      ASCII).  Every character the code singles out (space, hyphen, the
      regular-expression class, the strip set, the letters of the private
      names) is ASCII, so the byte-wise functions below agree with the
      code-point-wise ones of Python.
    - Python [set] is [gset]: its iteration order is left open by Python and
      is the (fixed but unspecified) order of [elements] here.
    - Python [dict] is [gmap] where only lookups and the key set matter, and
      an association list where the order of the items is observable.
    - An exception is a value of [exn]; fallible functions return [result]. *)

From Stdlib Require Import ZArith String Ascii List Lia.
From stdpp Require Import base option list strings gmap sets fin_maps pretty.

Set Warnings "-clear-no-such-hyp".

Local Open Scope string_scope.
Local Open Scope list_scope.
Local Open Scope Z_scope.

(** ** Exceptions *)

Inductive exn : Type :=
  | AssertionError
  | KeyError
  | AttributeError
  | InvalidIndexError.

Inductive result (A : Type) : Type :=
  | Ok (a : A)
  | Raise (e : exn).
Arguments Ok {A} a.
Arguments Raise {A} e.

#[global] Instance exn_eq_dec : EqDecision exn.
Proof. solve_decision. Defined.

#[global] Instance result_ret : MRet result := λ A a, Ok a.
#[global] Instance result_bind : MBind result := λ A B f m,
  match m with
  | Ok a => f a
  | Raise e => Raise e
  end.

Definition is_Ok {A} (r : result A) : Prop := ∃ a, r = Ok a.
Definition raises {A} (r : result A) : Prop := ∃ e, r = Raise e.

(** ** Strings *)

Module Str.

(** [s.replace(old, new)] for one-character [old] and [new]. *)
Fixpoint replace (old new : ascii) (s : string) : string :=
  match s with
  | EmptyString => EmptyString
  | String c s' =>
      String (if Ascii.eqb c old then new else c) (replace old new s')
  end.

Definition between (lo hi : N) (c : ascii) : bool :=
  let n := N_of_ascii c in (N.leb lo n && N.leb n hi)%bool.

(** The character class [0-9a-zA-Z_]. *)
Definition word_char (c : ascii) : bool :=
  (between 48 57 c || between 97 122 c || between 65 90 c
   || Ascii.eqb c "_")%bool.

(** [re.sub('[^0-9a-zA-Z_]+', '', s)]: every maximal run of characters
    outside the class is replaced by the empty string. *)
Fixpoint re_sub_non_word (s : string) : string :=
  match s with
  | EmptyString => EmptyString
  | String c s' =>
      if word_char c then String c (re_sub_non_word s')
      else re_sub_non_word s'
  end.

Fixpoint lstrip (p : ascii → bool) (s : string) : string :=
  match s with
  | EmptyString => EmptyString
  | String c s' => if p c then lstrip p s' else s
  end.

Fixpoint rstrip (p : ascii → bool) (s : string) : string :=
  match s with
  | EmptyString => EmptyString
  | String c s' =>
      match rstrip p s' with
      | EmptyString => if p c then EmptyString else String c EmptyString
      | r => String c r
      end
  end.

(** [s.strip(chars)] with [chars] given as a predicate. *)
Definition strip (p : ascii → bool) (s : string) : string :=
  rstrip p (lstrip p s).

Definition lower_char (c : ascii) : ascii :=
  if between 65 90 c then ascii_of_N (N_of_ascii c + 32) else c.

(** [s.lower()] on the ASCII letters. *)
Fixpoint lower (s : string) : string :=
  match s with
  | EmptyString => EmptyString
  | String c s' => String (lower_char c) (lower s')
  end.

(** [s.startswith(p)]. *)
Definition startswith (s p : string) : bool := String.prefix p s.

End Str.

(** ** Canonical column names *)

Definition _build_col_name (col_name multiselect_answer : string) : string :=
  let multiselect_answer := Str.replace " " "_" multiselect_answer in
  let multiselect_answer := Str.replace "-" "_" multiselect_answer in
  let reduced := Str.re_sub_non_word multiselect_answer in
  col_name +:+ "_" +:+ reduced.

(** ** Duplicate detection *)

(** [Counter(barcodes)]. *)
Definition Counter (barcodes : list string) : gmap string nat :=
  foldl (λ counts b, <[b := S (default 0%nat (counts !! b))]> counts)
        ∅ barcodes.

(** The entries of the error report.  [TemplateErrors] is the dictionary
    [errors] of [_fetch_observed_survey_templates], keyed by template id. *)
Record template_ids : Type := mk_ids {
  ids_account_id : string;
  ids_source_id : string;
  ids_template_id : option Z
}.

Record template_error : Type := mk_template_error {
  te_ids : template_ids;
  te_error : string
}.

Inductive report_entry : Type :=
  | BarcodesError (barcode : list string) (error : string)
  | BarcodeError (barcode : string) (error : string)
  | TemplateErrors (errors : gmap Z template_error)
  | PlainError (error : string).

(** [list(dups)] lists a set: [elements] stands for one iteration of it.
    Python fixes the members of that list, not their order, so the
    properties below speak of the members only. *)
Definition _find_duplicates (barcodes : list string)
  : gset string * option report_entry :=
  let counts := Counter barcodes in
  let dups : gset string := dom (filter (λ kv, (1 < kv.2)%nat) counts) in
  let error :=
    if decide (0 < size dups)%nat
    then Some (BarcodesError (elements dups) "Duplicated barcodes in input")
    else None in
  (dups, error).

(** ** The payloads of the private API *)

(** A raw answer: free text, or the list of the selected choices. *)
Inductive answer : Type :=
  | Text (s : string)
  | Selections (l : list string).

(** One survey submission: [survey['template']] and the items of
    [survey['response']], question id to (short name, answer). *)
Record survey : Type := mk_survey {
  template : Z;
  response : list (string * (string * answer))
}.

Record account : Type := mk_account { account_id : string }.

Record source : Type := mk_source {
  source_id : string;
  source_type : string
}.

(** [metadata['sample']]; [source_description] is
    [sample['source']['description']]. *)
Record sample : Type := mk_sample {
  datetime_collected : string;
  site : string;
  source_description : string
}.

Record metadata : Type := mk_metadata {
  sample_barcode : string;
  host_subject_id : string;
  md_account : account;
  md_source : source;
  md_sample : sample;
  survey_answers : list survey
}.

(** A question of a survey template. *)
Record field : Type := mk_field {
  field_multi : bool;
  field_shortname : string;
  field_values : list string;
  field_id : string
}.

Record group : Type := mk_group { group_fields : list field }.

(** [template['survey_template_text']['groups']]. *)
Record survey_template : Type := mk_survey_template {
  survey_template_groups : list group
}.

(** ** A model of the pandas objects the module uses *)

Module pd.

(** [pd.Series(values, index=index, name=name)]: the labels of the index
    paired with the values, in order. *)
Record Series : Type := mk_Series {
  name : string;
  items : list (string * string)
}.

Definition labels (s : Series) : list string := (items s).*1.

(** A frame: the column labels in order, the name of the index, and the
    rows in order, each a row label with its cells.  A cell that is absent
    from the map of its row is null (NaN). *)
Record DataFrame : Type := mk_DataFrame {
  columns : list string;
  index_name : option string;
  rows : list (string * gmap string string)
}.

(** [pd.DataFrame()]. *)
Definition empty : DataFrame :=
  {| columns := []; index_name := None; rows := [] |}.

Definition index (df : DataFrame) : list string := (rows df).*1.

(** The cell of a row at a column; [None] is null. *)
Definition cell (row : gmap string string) (column : string)
  : option string := row !! column.

(** The labels of a list in the order of their first occurrence. *)
Definition first_occurrences (l : list string) : list string :=
  reverse (remove_dups (reverse l)).

(** [pd.DataFrame(list_of_series)]: one row per series, named after it; the
    columns are the union of the indexes in order of first appearance; a
    row has no value, hence null, at the labels its series lacks.  pandas
    aligns each series with [index.get_indexer(columns)], which raises
    [InvalidIndexError] on an index with a repeated label. *)
Definition of_series (l : list Series) : result DataFrame :=
  if decide (Forall (λ s, NoDup (labels s)) l) then
    Ok {| columns := first_occurrences (l ≫= labels);
          index_name := None;
          rows := (λ s, (name s, list_to_map (items s))) <$> l |}
  else Raise InvalidIndexError.

Definition set_index_name (n : string) (df : DataFrame) : DataFrame :=
  {| columns := columns df; index_name := Some n; rows := rows df |}.

Definition map_rows (f : gmap string string → gmap string string)
    (df : DataFrame) : DataFrame :=
  {| columns := columns df; index_name := index_name df;
     rows := prod_map id f <$> rows df |}.

(** A null cell of a row gets a value. *)
Definition fill_cell (column value : string) (row : gmap string string)
  : gmap string string :=
  match row !! column with
  | None => <[column := value]> row
  | Some _ => row
  end.

(** [df.loc[df[column].isnull(), column] = value]. *)
Definition loc_isnull_assign (column value : string) (df : DataFrame)
  : DataFrame :=
  map_rows (fill_cell column value) df.

(** [df[column] = value]: every row gets [value] at [column]; a new
    column is appended. *)
Definition setitem (column value : string) (df : DataFrame) : DataFrame :=
  {| columns := if decide (column ∈ columns df) then columns df
                else columns df ++ [column];
     index_name := index_name df;
     rows := prod_map id (insert column value) <$> rows df |}.

Definition fill_row (cols : list string) (value : string)
    (row : gmap string string) : gmap string string :=
  foldr (λ c r, fill_cell c value r) row cols.

(** [df.fillna(value, inplace=True)]. *)
Definition fillna (value : string) (df : DataFrame) : DataFrame :=
  map_rows (fill_row (columns df) value) df.

(** [df.replace(old, new, inplace=True)]. *)
Definition replace (old new : string) (df : DataFrame) : DataFrame :=
  map_rows (fmap (λ v, if decide (v = old) then new else v)) df.

(** [df.drop(columns=to_drop, inplace=False)], for labels that are all
    columns of the frame (as they are at its one call). *)
Definition drop (to_drop : list string) (df : DataFrame) : DataFrame :=
  {| columns := filter (λ c, c ∉ to_drop) (columns df);
     index_name := index_name df;
     rows := prod_map id (filter (λ kv, kv.1 ∉ to_drop)) <$> rows df |}.

End pd.

(** ** Constants of the module *)

(** The vioscreen survey cannot be fetched from the database. *)
Definition TEMPLATES_TO_IGNORE : gset Z := {[ 10001 ]}.

Definition EBI_REMOVE : list string :=
  [ "ABOUT_YOURSELF_TEXT"; "ANTIBIOTIC_CONDITION";
    "ANTIBIOTIC_MED";
    "BIRTH_MONTH"; "CAT_CONTACT"; "CAT_LOCATION";
    "CONDITIONS_MEDICATION"; "DIET_RESTRICTIONS_LIST";
    "DOG_CONTACT";
    "DOG_LOCATION"; "GENDER"; "MEDICATION_LIST";
    "OTHER_CONDITIONS_LIST"; "PREGNANT_DUE_DATE";
    "RACE_OTHER";
    "RELATIONSHIPS_WITH_OTHERS_IN_STUDY";
    "SPECIAL_RESTRICTIONS";
    "SUPPLEMENTS"; "TRAVEL_LOCATIONS_LIST"; "ZIP_CODE";
    "WILLING_TO_BE_CONTACTED"; "pets_other_freetext" ].

(** ** Redaction *)

Definition drop_private_columns (df : pd.DataFrame) : pd.DataFrame :=
  let pm_remove : gset string :=
    list_to_set
      (Str.lower <$>
         filter (λ c, Str.startswith (Str.lower c) "pm_") (pd.columns df)) in
  let remove : gset string :=
    pm_remove ∪ list_to_set (Str.lower <$> EBI_REMOVE) in
  let to_drop := filter (λ c, Str.lower c ∈ remove) (pd.columns df) in
  pd.drop to_drop df.

(** ** Loops that may raise *)

(** [for x in l: s = body(s, x)], stopping at the first exception. *)
Fixpoint for_each {A S : Type} (body : S → A → result S) (s : S)
    (l : list A) : result S :=
  match l with
  | [] => Ok s
  | x :: l' => s' ← body s x; for_each body s' l'
  end.

(** ** The multiselect column map *)

(** The dictionary [multi_values] of one field: choice to column name. *)
Definition multi_values (base : string) (choices : list string)
  : gmap string string :=
  foldl (λ multi_values choice,
           let new_shortname := _build_col_name base choice in
           <[choice := new_shortname]> multi_values)
        ∅ choices.

Definition all_fields (t : survey_template) : list field :=
  survey_template_groups t ≫= group_fields.

(** The body of [for field in group['fields']]. *)
Definition field_step (template_id : Z)
    (result : gmap (Z * string) (gmap string string)) (field : field)
  : gmap (Z * string) (gmap string string) :=
  if negb (field_multi field) then result
  else
    let base := field_shortname field in
    let choices := field_values field in
    let qid := field_id field in
    <[(template_id, qid) := multi_values base choices]> result.

Definition _construct_multiselect_map
    (survey_templates : gmap Z survey_template)
  : gmap (Z * string) (gmap string string) :=
  foldl (λ result '(template_id, template),
     foldl (λ result group,
        foldl (field_step template_id) result (group_fields group))
       result (survey_template_groups template))
    ∅ (map_to_list survey_templates).

(** ** Flattening one sample *)

(** The double quote character. *)
Definition dquote : ascii := ascii_of_N 34.

(** The characters stripped from a free-text answer: the two square brackets
    and the double quote. *)
Definition strip_chars (c : ascii) : bool :=
  (Ascii.eqb c "[" || Ascii.eqb c "]" || Ascii.eqb c dquote)%bool.

Section Pipeline.

(** [metadata_constants.HUMAN_SITE_INVARIANTS]: for a site, the items of its
    dictionary of invariant variables. *)
Variable HUMAN_SITE_INVARIANTS : gmap string (list (string * string)).

(** The body of [for selection in answer]. *)
Definition selection_step (specific_shortnames : gmap string string)
    (items : list (string * string)) (selection : string)
  : result (list (string * string)) :=
  match specific_shortnames !! selection with
  | None => Raise KeyError
  | Some specific_shortname => Ok (items ++ [(specific_shortname, "true")])
  end.

(** The body of [for qid, (shortname, answer) in survey['response'].items()]. *)
Definition question_step
    (multiselect_map : gmap (Z * string) (gmap string string))
    (template : Z) (items : list (string * string))
    (q : string * (string * answer)) : result (list (string * string)) :=
  let '(qid, (shortname, answer)) := q in
  match multiselect_map !! (template, qid) with
  | Some specific_shortnames =>
      match answer with
      | Selections answer =>
          for_each (selection_step specific_shortnames) items answer
      | Text _ => Raise AssertionError
      end
  | None =>
      match answer with
      | Text answer => Ok (items ++ [(shortname, Str.strip strip_chars answer)])
      | Selections _ => Raise AttributeError
      end
  end.

(** The body of [for survey in metadata['survey_answers']]; the state is the
    series built so far and the set [collected]. *)
Definition survey_step
    (multiselect_map : gmap (Z * string) (gmap string string))
    (st : list (string * string) * gset Z) (survey : survey)
  : result (list (string * string) * gset Z) :=
  let '(items, collected) := st in
  let template := template survey in
  if decide (template ∈ collected) then Ok (items, collected)
  else
    let collected := collected ∪ {[ template ]} in
    items ← for_each (question_step multiselect_map template) items
                     (response survey);
    Ok (items, collected).

Definition _to_pandas_series (metadata : metadata)
    (multiselect_map : gmap (Z * string) (gmap string string))
  : result pd.Series :=
  let name := sample_barcode metadata in
  let hsi := host_subject_id metadata in
  let source_type := source_type (md_source metadata) in
  let sample_detail := md_sample metadata in
  let collection_timestamp := datetime_collected sample_detail in
  '(sample_type, sample_invariants) ←
    (if decide (source_type = "human") then
       let sample_type := site sample_detail in
       match HUMAN_SITE_INVARIANTS !! sample_type with
       | Some sample_invariants => Ok (sample_type, sample_invariants)
       | None => Raise KeyError
       end
     else if decide (source_type = "animal") then
       Ok (site sample_detail, [])
     else
       Ok (source_description sample_detail, []));
  let items := [("HOST_SUBJECT_ID", hsi);
                ("COLLECTION_TIMESTAMP", collection_timestamp)] in
  '(items, collected) ←
    for_each (survey_step multiselect_map) (items, ∅)
             (survey_answers metadata);
  let items := items ++ sample_invariants in
  Ok (pd.mk_Series name items).

(** ** Assembling the table *)

Definition all_multiselect_columns
    (multiselect_map : gmap (Z * string) (gmap string string))
  : gset string :=
  ⋃ ((λ ms : gmap string string, map_img ms) <$>
       (map_to_list multiselect_map).*2).

Definition _to_pandas_dataframe (metadatas : list metadata)
    (survey_templates : gmap Z survey_template) : result pd.DataFrame :=
  let multiselect_map := _construct_multiselect_map survey_templates in
  transformed ← mapM (λ metadata, _to_pandas_series metadata multiselect_map)
                     metadatas;
  df ← pd.of_series transformed;
  let df := pd.set_index_name "sample_name" df in
  let included_columns : gset string := list_to_set (pd.columns df) in
  let all_multiselect_columns := all_multiselect_columns multiselect_map in
  let df :=
    foldl (λ df column, pd.loc_isnull_assign column "false" df)
          df (elements (all_multiselect_columns ∩ included_columns)) in
  let df :=
    foldl (λ df column, pd.setitem column "false" df)
          df (elements (all_multiselect_columns
                          ∖ list_to_set (pd.columns df))) in
  let df := pd.fillna "Missing: not provided" df in
  let df := pd.replace "" "Missing: not provided" df in
  Ok df.

(** ** The private API and the pipeline *)

(** [APIRequest.get] on the two URLs the module requests: the surveys of a
    sample, by barcode, and a survey template, by account, source and
    template id.  Each gives the status code and the decoded body; the body
    is only read when the status is 200. *)
Variable get_sample_surveys : string → Z * metadata.
Variable get_survey_template : string → string → Z → Z * survey_template.

Definition _fetch_barcode_metadata (sample_barcode : string)
  : metadata * option report_entry :=
  let '(status, response) := get_sample_surveys sample_barcode in
  let errors :=
    if decide (status ≠ 200)
    then Some (BarcodeError sample_barcode (pretty status +:+ " from api"))
    else None in
  (response, errors).

Definition _fetch_survey_template (template_id : Z) (ids : template_ids)
  : survey_template * option template_error :=
  let ids := {| ids_account_id := ids_account_id ids;
                ids_source_id := ids_source_id ids;
                ids_template_id := Some template_id |} in
  let '(status, response) :=
    get_survey_template (ids_account_id ids) (ids_source_id ids)
                        template_id in
  let errors :=
    if decide (status ≠ 200)
    then Some {| te_ids := ids; te_error := pretty status +:+ " from api" |}
    else None in
  (response, errors).

(** The set [observed_templates] of one sample. *)
Definition observed_templates (bc_md : metadata) : gset Z :=
  list_to_set
    (filter (λ t, t ∉ TEMPLATES_TO_IGNORE) (template <$> survey_answers bc_md)).

(** The body of [for template_id in observed_templates]. *)
Definition observe_step (account_id source_id : string)
    (templates : gmap Z template_ids) (template_id : Z)
  : gmap Z template_ids :=
  match templates !! template_id with
  | Some _ => templates
  | None =>
      <[template_id := {| ids_account_id := account_id;
                          ids_source_id := source_id;
                          ids_template_id := None |}]> templates
  end.

(** The dictionary [templates]: for each observed template, the account and
    source of the first sample seen with it. *)
Definition templates_to_fetch (sample_metadata : list metadata)
  : gmap Z template_ids :=
  foldl (λ templates bc_md,
     let account_id := account_id (md_account bc_md) in
     let source_id := source_id (md_source bc_md) in
     foldl (observe_step account_id source_id)
       templates (elements (observed_templates bc_md)))
    ∅ sample_metadata.

(** The body of [for template_id, ids in templates.items()]. *)
Definition template_step
    (st : gmap Z survey_template * gmap Z template_error)
    (item : Z * template_ids)
  : gmap Z survey_template * gmap Z template_error :=
  let '(surveys, errors) := st in
  let '(template_id, ids) := item in
  let '(survey, error) := _fetch_survey_template template_id ids in
  match error with
  | Some error => (surveys, <[template_id := error]> errors)
  | None => (<[template_id := survey]> surveys, errors)
  end.

Definition _fetch_observed_survey_templates (sample_metadata : list metadata)
  : gmap Z survey_template * option (gmap Z template_error) :=
  let templates := templates_to_fetch sample_metadata in
  let '(surveys, errors) :=
    foldl template_step (∅, ∅) (map_to_list templates) in
  (surveys, if decide (errors = ∅) then None else Some errors).

(** The body of [for sample_barcode in set(sample_barcodes)]. *)
Definition fetch_step (st : list metadata * list report_entry)
    (sample_barcode : string) : list metadata * list report_entry :=
  let '(fetched, error_report) := st in
  let '(bc_md, errors) := _fetch_barcode_metadata sample_barcode in
  match errors with
  | Some errors => (fetched, error_report ++ [errors])
  | None => (fetched ++ [bc_md], error_report)
  end.

(** The loop runs over [set(sample_barcodes)]: a list without repeats that
    has the members of the batch, here [elements] of the set.  The order of
    that list is not fixed by Python; the properties of a run are stated
    for some such list, not for a particular order. *)
Definition retrieve_metadata (sample_barcodes : list string)
  : result (pd.DataFrame * list report_entry) :=
  let error_report := [] in
  let '(dups, errors) := _find_duplicates sample_barcodes in
  let error_report :=
    match errors with
    | Some errors => error_report ++ [errors]
    | None => error_report
    end in
  let '(fetched, error_report) :=
    foldl fetch_step ([], error_report)
          (elements (list_to_set sample_barcodes : gset string)) in
  let df := pd.empty in
  if decide (length fetched = 0%nat) then
    Ok (df, error_report ++ [PlainError "No metadata was obtained"])
  else
    let '(survey_templates, st_errors) :=
      _fetch_observed_survey_templates fetched in
    match st_errors with
    | Some st_errors => Ok (df, error_report ++ [TemplateErrors st_errors])
    | None =>
        df ← _to_pandas_dataframe fetched survey_templates;
        Ok (df, error_report)
    end.

End Pipeline.

(** ** Definitions used to state the properties *)

(** The naming rule in the words of the specification: the short name, an
    underscore, and the choice with every space and hyphen replaced by an
    underscore and then every character outside [0-9a-zA-Z_] stripped. *)
Definition spec_underscore (c : ascii) : ascii :=
  if decide (c = " "%char ∨ c = "-"%char) then "_"%char else c.

Definition spec_col_name (shortname choice : string) : string :=
  shortname +:+ "_" +:+
  string_of_list_ascii
    (List.filter Str.word_char
       (List.map spec_underscore (list_ascii_of_string choice))).

(** The number of occurrences of an identifier in a batch. *)
Definition multiplicity (b : string) (l : list string) : nat :=
  length (filter (λ x, x = b) l).

(** The multiselect field of a template that defines the entry of question
    [q] in the column map: the last one with that id. *)
Fixpoint defining_field (q : string) (fs : list field) : option field :=
  match fs with
  | [] => None
  | f :: fs' =>
      match defining_field q fs' with
      | Some g => Some g
      | None =>
          if decide (field_multi f = true ∧ field_id f = q) then Some f
          else None
      end
  end.

(** The entry of question [q] that a template contributes to the map. *)
Definition entry_of (q : string) (t : survey_template)
  : option (gmap string string) :=
  (λ f, multi_values (field_shortname f) (field_values f)) <$>
    defining_field q (all_fields t).

(** The submissions of a sample that are the first of their template, given
    the templates already seen. *)
Fixpoint first_submissions (seen : gset Z) (l : list survey) : list survey :=
  match l with
  | [] => []
  | s :: l' =>
      if decide (template s ∈ seen) then first_submissions seen l'
      else s :: first_submissions (seen ∪ {[ template s ]}) l'
  end.

(** The status and the body of the answer of the API for a sample. *)
Definition sample_status (get_sample_surveys : string → Z * metadata)
    (b : string) : Z := (get_sample_surveys b).1.

Definition sample_payload (get_sample_surveys : string → Z * metadata)
    (b : string) : metadata := (get_sample_surveys b).2.

(** The report entry of a failed sample fetch. *)
Definition sample_error (get_sample_surveys : string → Z * metadata)
    (b : string) : report_entry :=
  BarcodeError b (pretty (sample_status get_sample_surveys b) +:+ " from api").

(** The identifiers of a list whose fetch fails. *)
Definition failed_barcodes (get_sample_surveys : string → Z * metadata)
    (l : list string) : list string :=
  filter (λ b, sample_status get_sample_surveys b ≠ 200) l.

(** The identifiers of a list whose fetch succeeds. *)
Definition fetched_barcodes (get_sample_surveys : string → Z * metadata)
    (l : list string) : list string :=
  filter (λ b, sample_status get_sample_surveys b = 200) l.

(** The entries a report starts with: the one of the duplicate check, if
    any. *)
Definition duplicate_entries (barcodes : list string) : list report_entry :=
  match (_find_duplicates barcodes).2 with
  | Some e => [e]
  | None => []
  end.

(** What the fetch of a template gives, by case on the status. *)
Definition fetched_survey
    (get_survey_template : string → string → Z → Z * survey_template)
    (t : Z) (ids : template_ids) : option survey_template :=
  match _fetch_survey_template get_survey_template t ids with
  | (survey, None) => Some survey
  | (_, Some _) => None
  end.

Definition fetch_failure
    (get_survey_template : string → string → Z → Z * survey_template)
    (t : Z) (ids : template_ids) : option template_error :=
  (_fetch_survey_template get_survey_template t ids).2.

(** The status of the answer of the API for a template, requested with the
    account and source of [ids]. *)
Definition template_status
    (get_survey_template : string → string → Z → Z * survey_template)
    (t : Z) (ids : template_ids) : Z :=
  (get_survey_template (ids_account_id ids) (ids_source_id ids) t).1.

(** The error recorded for a template whose fetch fails. *)
Definition template_failure
    (get_survey_template : string → string → Z → Z * survey_template)
    (t : Z) (ids : template_ids) : template_error :=
  {| te_ids := {| ids_account_id := ids_account_id ids;
                  ids_source_id := ids_source_id ids;
                  ids_template_id := Some t |};
     te_error := pretty (template_status get_survey_template t ids)
                   +:+ " from api" |}.

(** A sample with its submissions replaced. *)
Definition with_survey_answers (md : metadata) (l : list survey) : metadata :=
  {| sample_barcode := sample_barcode md;
     host_subject_id := host_subject_id md;
     md_account := md_account md;
     md_source := md_source md;
     md_sample := md_sample md;
     survey_answers := l |}.

(** A sample with, for each template, only its first submission. *)
Definition keep_first (md : metadata) : metadata :=
  with_survey_answers md (first_submissions ∅ (survey_answers md)).

(** The answers to the questions of the column map are lists of choices
    that the map knows. *)
Definition multiselect_answers_ok
    (multiselect_map : gmap (Z * string) (gmap string string))
    (l : list survey) : Prop :=
  ∀ s qid shortname a specific_shortnames,
    s ∈ l → (qid, (shortname, a)) ∈ response s →
    multiselect_map !! (template s, qid) = Some specific_shortnames →
    ∃ selections,
      a = Selections selections ∧
      ∀ x, x ∈ selections → is_Some (specific_shortnames !! x).

(** The answers to the other questions are text. *)
Definition free_text_answers_ok
    (multiselect_map : gmap (Z * string) (gmap string string))
    (l : list survey) : Prop :=
  ∀ s qid shortname a,
    s ∈ l → (qid, (shortname, a)) ∈ response s →
    multiselect_map !! (template s, qid) = None →
    ∃ text, a = Text text.

(** The site of a human sample is a key of the table of invariants. *)
Definition site_known
    (HUMAN_SITE_INVARIANTS : gmap string (list (string * string)))
    (md : metadata) : Prop :=
  source_type (md_source md) = "human" →
  is_Some (HUMAN_SITE_INVARIANTS !! site (md_sample md)).

(** The cell the assembled table is to hold at a column, from the raw cell
    of the flattened record: a value stays, but the empty string; an absent
    cell of a multiselect column is "false"; any other absent cell, and the
    empty string, is the "missing" sentinel. *)
Definition expected_cell (multiselect_columns : gset string)
    (column : string) (raw : option string) : string :=
  match raw with
  | Some v => if decide (v = "") then "Missing: not provided" else v
  | None =>
      if decide (column ∈ multiselect_columns) then "false"
      else "Missing: not provided"
  end.

(** The raw cell of a flattened record at a column. *)
Definition raw_cell (s : pd.Series) (column : string) : option string :=
  (list_to_map (pd.items s) : gmap string string) !! column.

(** A column is private when its lower-cased name starts with the prefix of
    the personal microbiome survey or is the lower-cased form of a name of
    the denylist. *)
Definition private_column (c : string) : bool :=
  (Str.startswith (Str.lower c) "pm_"
   || bool_decide (Str.lower c ∈ Str.lower <$> EBI_REMOVE))%bool.

(** The entry of the duplicate check. *)
Definition is_duplicate_entry (e : report_entry) : bool :=
  match e with
  | BarcodesError _ _ => true
  | BarcodeError _ _ | TemplateErrors _ | PlainError _ => false
  end.

(** ** Example data *)

Module Ex.

Definition blood_field : field :=
  mk_field true "BLOOD_TYPE" ["A+"; "A"; "B"] "q1".

Definition age_field : field := mk_field false "AGE" [] "q2".

Definition template_1 : survey_template :=
  mk_survey_template [mk_group [blood_field; age_field]].

(** A free-text answer as the API sends it: the text between brackets and
    double quotes. *)
Definition listed (s : string) : string :=
  String "[" (String dquote s) +:+ String dquote "]".

(** The body of an answer that carries none. *)
Definition no_body : metadata :=
  mk_metadata "" "" (mk_account "") (mk_source "" "") (mk_sample "" "" "") [].

Definition no_template : survey_template := mk_survey_template [].

(** An animal sample with one submission of template 1. *)
Definition sample_1 : metadata :=
  mk_metadata "b1" "host1" (mk_account "acc1") (mk_source "src1" "animal")
    (mk_sample "2020-01-01" "Fur" "")
    [mk_survey 1 [("q1", ("BLOOD_TYPE", Selections ["A+"]));
                  ("q2", ("AGE", Text (listed "12")))]].

(** Every sample fetch fails. *)
Definition samples_404 (b : string) : Z * metadata := (404, no_body).

(** The sample b1 is served, any other fetch fails. *)
Definition samples_b1 (b : string) : Z * metadata :=
  if decide (b = "b1") then (200, sample_1) else (404, no_body).

(** Template 1 is served, any other fetch fails. *)
Definition templates_1 (a s : string) (t : Z) : Z * survey_template :=
  if decide (t = 1) then (200, template_1) else (404, no_template).

(** The column map of template 1. *)
Definition map_1 : gmap (Z * string) (gmap string string) :=
  _construct_multiselect_map {[ 1 := template_1 ]}.

(** A human sample without submissions. *)
Definition human_sample : metadata :=
  mk_metadata "b2" "host2" (mk_account "acc2") (mk_source "src2" "human")
    (mk_sample "2020-02-02" "Stool" "") [].

(** A sample with two submissions of template 1; the second answers the
    multiselect question q1 with a text. *)
Definition first_submission : survey :=
  mk_survey 1 [("q1", ("BLOOD_TYPE", Selections ["B"]))].

Definition second_submission : survey :=
  mk_survey 1 [("q1", ("BLOOD_TYPE", Text "A+"))].

Definition sample_dup : metadata :=
  mk_metadata "b3" "host3" (mk_account "acc3") (mk_source "src3" "animal")
    (mk_sample "2020-03-03" "Fur" "")
    [first_submission; second_submission].

(** The table assembled from the sample b1 and template 1. *)
Definition table_1 : pd.DataFrame :=
  Eval vm_compute in
    match _to_pandas_dataframe ∅ [sample_1] {[ 1 := template_1 ]} with
    | Ok df => df
    | Raise _ => pd.empty
    end.

(** A sample whose only answers are private. *)
Definition private_sample : metadata :=
  mk_metadata "b4" "host4" (mk_account "acc4") (mk_source "src4" "animal")
    (mk_sample "2020-04-04" "Fur" "")
    [mk_survey 2 [("q5", ("ZIP_CODE", Text (listed "92093")));
                  ("q6", ("pm_diet", Text (listed "vegan")))]].

(** The table assembled from that sample alone. *)
Definition private_table : pd.DataFrame :=
  Eval vm_compute in
    match _to_pandas_dataframe ∅ [private_sample] ∅ with
    | Ok df => df
    | Raise _ => pd.empty
    end.

(** The row of that sample in the redacted table. *)
Definition private_row : string * gmap string string :=
  Eval vm_compute in
    match pd.rows (drop_private_columns private_table) with
    | r :: _ => r
    | [] => ("", ∅)
    end.

(** A sample whose only submission is of the ignored template. *)
Definition ignored_sample : metadata :=
  mk_metadata "b5" "host5" (mk_account "acc5") (mk_source "src5" "animal")
    (mk_sample "2020-05-05" "Fur" "")
    [mk_survey 10001 [("q7", ("VIOSCREEN_FIBER", Text (listed "12")))]].

(** The sample b5 is served, any other fetch fails. *)
Definition samples_b5 (b : string) : Z * metadata :=
  if decide (b = "b5") then (200, ignored_sample) else (404, no_body).

(** Every template fetch fails. *)
Definition templates_500 (a s : string) (t : Z) : Z * survey_template :=
  (500, no_template).

End Ex.

(** ** Definitions used to state further properties *)

(** The two items every flattened record starts with. *)
Definition base_items (md : metadata) : list (string * string) :=
  [("HOST_SUBJECT_ID", host_subject_id md);
   ("COLLECTION_TIMESTAMP", datetime_collected (md_sample md))].

(** The invariant items of a sample: those of its site for a human sample
    whose site is in the table, none otherwise. *)
Definition invariants_of
    (HUMAN_SITE_INVARIANTS : gmap string (list (string * string)))
    (md : metadata) : list (string * string) :=
  if decide (source_type (md_source md) = "human")
  then default [] (HUMAN_SITE_INVARIANTS !! site (md_sample md))
  else [].

(** The items one answer contributes to a record that is produced: one
    "true" item per selection for a question of the column map, the stripped
    text under the short name otherwise. *)
Definition question_items
    (multiselect_map : gmap (Z * string) (gmap string string))
    (t : Z) (q : string * (string * answer)) : list (string * string) :=
  match multiselect_map !! (t, q.1), q.2.2 with
  | Some specific_shortnames, Selections selections =>
      omap (λ x, (λ n, (n, "true")) <$> specific_shortnames !! x) selections
  | None, Text text => [(q.2.1, Str.strip strip_chars text)]
  | _, _ => []
  end.

(** The items the submissions of a sample contribute, in order. *)
Definition answer_items
    (multiselect_map : gmap (Z * string) (gmap string string))
    (l : list survey) : list (string * string) :=
  first_submissions ∅ l ≫=
    λ s, response s ≫= question_items multiselect_map (template s).


(** Every character of a string satisfies a test. *)
Fixpoint string_forall (p : ascii → bool) (s : string) : bool :=
  match s with
  | EmptyString => true
  | String c s' => (p c && string_forall p s')%bool
  end.

(** The part of a column name that comes from the choice: the local
    [reduced] of [_build_col_name]. *)
Definition reduced (multiselect_answer : string) : string :=
  Str.re_sub_non_word
    (Str.replace "-" "_" (Str.replace " " "_" multiselect_answer)).


(** The account and source of the first sample of a list that references
    a template, as the entry of [templates] for it. *)
Fixpoint first_credentials (mds : list metadata) (t : Z)
  : option template_ids :=
  match mds with
  | [] => None
  | md :: mds' =>
      if decide (t ∈ observed_templates md)
      then Some {| ids_account_id := account_id (md_account md);
                   ids_source_id := source_id (md_source md);
                   ids_template_id := None |}
      else first_credentials mds' t
  end.


(** ** upload_util: a column of an uploaded csv file *)

(** An uploaded file of a request: the file name of its part, if it carried
    one, and its content. *)
Record FileStorage : Type := mk_FileStorage {
  filename : option string;
  stream : string
}.

(** [df[col_name].tolist()]: the cells of a column, null included; [None]
    when the label is no column and the indexing raises. *)
Definition column_tolist (df : pd.DataFrame) (col_name : string)
  : option (list (option string)) :=
  if decide (col_name ∈ pd.columns df)
  then Some ((λ r, pd.cell r.2 col_name) <$> pd.rows df)
  else None.

Section Upload.

(** [pd.read_csv(request_file, dtype=str)]: the frame read, or [None] when
    the call raises. *)
Variable read_csv : FileStorage → option pd.DataFrame.

(** [request.files] is the map from the names of the form fields to the
    uploaded files; indexing it with a name it lacks raises a key error.
    The [try] block turns every exception of the reading into the second
    error message. *)
Definition parse_request_csv_col (files : gmap string FileStorage)
    (file_name col_name : string)
  : result (option (list (option string)) * option string) :=
  invalid ←
    match files !! file_name with
    | None => Ok true
    | Some _ =>
        match files !! "file" with
        | None => Raise KeyError
        | Some f => Ok (bool_decide (filename f = Some ""))
        end
    end;
  if (invalid : bool) then Ok (None, Some "Must specify a valid file")
  else
    match files !! file_name with
    | None => Raise KeyError
    | Some request_file =>
        match df ← read_csv request_file; column_tolist df col_name with
        | Some col => Ok (Some col, None)
        | None => Ok (None, Some "Could not parse csv file")
        end
    end.

End Upload.

(** Example data of an upload. *)
Module Up.

(** The line feed. *)
Definition nl : string := String (ascii_of_N 10) "".

(** A csv file with a header and two records; the second has no well. *)
Definition barcodes_csv : FileStorage :=
  mk_FileStorage (Some "barcodes.csv")
    ("sample_name,well" +:+ nl +:+ "b1,A1" +:+ nl +:+ "b2," +:+ nl).

Definition barcodes_frame : pd.DataFrame :=
  {| pd.columns := ["sample_name"; "well"];
     pd.index_name := None;
     pd.rows := [("0", {[ "sample_name" := "b1"; "well" := "A1" ]});
                 ("1", {[ "sample_name" := "b2" ]})] |}.

Definition read_csv (f : FileStorage) : option pd.DataFrame :=
  if decide (stream f = stream barcodes_csv) then Some barcodes_frame
  else None.

End Up.


(** A column is a multiselect column of a batch of fetched templates when
    it is the column name of an enumerated value of a multi-select field of
    one of the templates, the field that defines the entry of its
    question. *)
Definition multiselect_column (survey_templates : gmap Z survey_template)
    (c : string) : Prop :=
  ∃ t tpl q f choice,
    survey_templates !! t = Some tpl ∧
    defining_field q (all_fields tpl) = Some f ∧
    choice ∈ field_values f ∧
    c = _build_col_name (field_shortname f) choice.


(** * Properties *)

(** ** Strings and column names *)

Lemma replace_as_map (old new : ascii) (s : string) :
  list_ascii_of_string (Str.replace old new s) =
  List.map (λ c, if Ascii.eqb c old then new else c) (list_ascii_of_string s).
Proof. induction s as [|c s IH]; simpl; [done | by rewrite IH]. Qed.

Lemma re_sub_as_filter (s : string) :
  list_ascii_of_string (Str.re_sub_non_word s) =
  List.filter Str.word_char (list_ascii_of_string s).
Proof.
  induction s as [|c s IH]; simpl; [done|].
  destruct (Str.word_char c); simpl; by rewrite IH.
Qed.

Lemma underscore_twice (c : ascii) :
  (λ c, if Ascii.eqb c "-" then "_"%char else c)
    ((λ c, if Ascii.eqb c " " then "_"%char else c) c) = spec_underscore c.
Proof.
  unfold spec_underscore. cbv beta.
  destruct (Ascii.eqb_spec c " ") as [->|Hs].
  - by vm_compute.
  - destruct (Ascii.eqb_spec c "-") as [->|Hh]; [by vm_compute|].
    case_decide as H; [|done]. by destruct H.
Qed.

Lemma build_col_name_spec (short choice : string) :
  _build_col_name short choice = spec_col_name short choice.
Proof.
  unfold _build_col_name, spec_col_name. do 2 f_equal.
  rewrite <- (string_of_list_ascii_of_string (Str.re_sub_non_word _)).
  f_equal. rewrite re_sub_as_filter, !replace_as_map, List.map_map.
  f_equal. apply List.map_ext, underscore_twice.
Qed.

Lemma re_sub_word_chars (s : string) :
  List.Forall (λ c, Str.word_char c = true)
    (list_ascii_of_string (Str.re_sub_non_word s)).
Proof.
  rewrite re_sub_as_filter. apply List.Forall_forall.
  intros c Hc. by apply List.filter_In in Hc as [_ ?].
Qed.

(** ** The multiselect column map *)

Lemma multi_values_fold base choices (m : gmap string string) c :
  foldl (λ multi_values choice,
           <[choice := _build_col_name base choice]> multi_values) m choices
    !! c
  = if decide (c ∈ choices) then Some (_build_col_name base c) else m !! c.
Proof.
  revert m. induction choices as [|x xs IH]; intros m; cbn [foldl].
  - case_decide as H; [by apply elem_of_nil in H | done].
  - rewrite IH. destruct (decide (c ∈ xs)) as [Hin|Hnin].
    + rewrite decide_True; [done | by right].
    + destruct (decide (c = x)) as [->|Hne].
      * rewrite decide_True by (by left). by rewrite lookup_insert_eq.
      * rewrite decide_False by (by rewrite elem_of_cons; intros [?|?]).
        by rewrite lookup_insert_ne.
Qed.

Lemma multi_values_lookup base choices c :
  multi_values base choices !! c
  = if decide (c ∈ choices) then Some (_build_col_name base c) else None.
Proof. unfold multi_values. by rewrite multi_values_fold, lookup_empty. Qed.

Lemma defining_field_Some q fs f :
  defining_field q fs = Some f →
  f ∈ fs ∧ field_multi f = true ∧ field_id f = q.
Proof.
  induction fs as [|g fs IH]; simpl; [done|].
  destruct (defining_field q fs) as [h|].
  - intros [= ->]. destruct IH as (? & ? & ?); [done|].
    split; [by right | done].
  - case_decide as Hg; [|done]. intros [= ->].
    split; [by left | done].
Qed.

Lemma foldl_bind_list {A B C} (f : A → C → A) (g : B → list C) a (l : list B) :
  foldl (λ a x, foldl f a (g x)) a l = foldl f a (l ≫= g).
Proof.
  revert a. induction l as [|x l IH]; intros a; simpl; [done|].
  by rewrite foldl_app, IH.
Qed.

Lemma field_steps_lookup tid fs res t q :
  foldl (field_step tid) res fs !! (t, q)
  = match (if decide (t = tid) then defining_field q fs else None) with
    | Some f => Some (multi_values (field_shortname f) (field_values f))
    | None => res !! (t, q)
    end.
Proof.
  revert res. induction fs as [|f fs IH]; intros res;
    cbn [foldl defining_field].
  - by case_decide.
  - rewrite IH. destruct (decide (t = tid)) as [->|Hne].
    + destruct (defining_field q fs) as [g|]; [done|].
      unfold field_step. destruct (field_multi f); cbn [negb]; cbv zeta.
      * case_decide as Hd.
        -- destruct Hd as [_ <-]. by rewrite lookup_insert_eq.
        -- rewrite lookup_insert_ne; [done|]. intros [= Heq]. by apply Hd.
      * case_decide as Hd; [by destruct Hd | done].
    + unfold field_step. destruct (field_multi f); cbn [negb]; cbv zeta;
        [|done].
      rewrite lookup_insert_ne; [done | congruence].
Qed.

Lemma construct_fold_lookup (l : list (Z * survey_template)) res t q :
  NoDup l.*1 →
  foldl (λ result '(template_id, template),
     foldl (λ result group,
        foldl (field_step template_id) result (group_fields group))
       result (survey_template_groups template)) res l !! (t, q)
  = match (list_to_map l : gmap Z survey_template) !! t ≫= entry_of q with
    | Some mv => Some mv
    | None => res !! (t, q)
    end.
Proof.
  revert res. induction l as [|[k tpl] l IH]; intros res Hnd; simpl.
  - by rewrite lookup_empty.
  - rewrite fmap_cons in Hnd. cbn [fst] in Hnd.
    apply NoDup_cons in Hnd as [Hk Hnd]. rewrite IH by done.
    rewrite (foldl_bind_list (field_step k) group_fields).
    fold (all_fields tpl). rewrite field_steps_lookup.
    destruct (decide (t = k)) as [->|Hne].
    + rewrite lookup_insert_eq.
      rewrite (not_elem_of_list_to_map_1 l k) by done. simpl.
      unfold entry_of. by destruct (defining_field q (all_fields tpl)).
    + by rewrite lookup_insert_ne by done.
Qed.

Lemma construct_lookup (survey_templates : gmap Z survey_template) t q :
  _construct_multiselect_map survey_templates !! (t, q)
  = survey_templates !! t ≫= entry_of q.
Proof.
  unfold _construct_multiselect_map.
  pose proof (construct_fold_lookup (map_to_list survey_templates) ∅ t q
                (NoDup_fst_map_to_list _)) as H.
  rewrite list_to_map_to_list, lookup_empty in H.
  etrans; [|etrans; [exact H|]].
  - done.
  - by destruct (survey_templates !! t ≫= entry_of q).
Qed.

(** C5: the canonical column name is a pure function of the short name and
    the choice: the short name, an underscore, and the choice with spaces and
    hyphens turned into underscores and every other character outside
    [0-9a-zA-Z_] removed; every name found in a column map, whatever the batch
    of templates, is that function of the short name of its field and of the
    choice. *)
Theorem canonical_column_name :
  (∀ short choice, _build_col_name short choice = spec_col_name short choice) ∧
  (∀ (survey_templates : gmap Z survey_template) t q mv choice name,
     _construct_multiselect_map survey_templates !! (t, q) = Some mv →
     mv !! choice = Some name →
     ∃ tpl f,
       survey_templates !! t = Some tpl ∧ f ∈ all_fields tpl ∧
       field_multi f = true ∧ field_id f = q ∧ choice ∈ field_values f ∧
       name = spec_col_name (field_shortname f) choice).
Proof.
  split; [apply build_col_name_spec|].
  intros st t q mv choice name Hmap Hname.
  rewrite construct_lookup in Hmap.
  destruct (st !! t) as [tpl|] eqn:Htpl; [|done]. simpl in Hmap.
  unfold entry_of in Hmap.
  destruct (defining_field q (all_fields tpl)) as [f|] eqn:Hf; [|done].
  injection Hmap as <-.
  apply defining_field_Some in Hf as (Hin & Hmulti & Hid).
  rewrite multi_values_lookup in Hname.
  case_decide as Hc; [|done]. injection Hname as <-.
  exists tpl, f. by rewrite build_col_name_spec.
Qed.

Lemma canonical_column_name_witness :
  ∃ tpl f,
    ({[ 1 := Ex.template_1 ]} : gmap Z survey_template) !! 1 = Some tpl ∧
    f ∈ all_fields tpl ∧ field_multi f = true ∧ field_id f = "q1" ∧
    "A+" ∈ field_values f ∧
    "BLOOD_TYPE_A" = spec_col_name (field_shortname f) "A+".
Proof.
  apply (proj2 canonical_column_name {[ 1 := Ex.template_1 ]} 1 "q1"
           (multi_values "BLOOD_TYPE" ["A+"; "A"; "B"]) "A+" "BLOOD_TYPE_A").
  - vm_compute. reflexivity.
  - vm_compute. reflexivity.
Defined.

(** C1: on a field whose choices "A+" and "A" reduce to the same name, the
    mapper returns a column map, and the map sends both choices to the one
    column BLOOD_TYPE_A: no naming error is raised. *)
Theorem colliding_choices_share_a_column :
  "A+" ≠ "A" ∧
  ∃ mv,
    _construct_multiselect_map {[ 1 := Ex.template_1 ]} !! (1, "q1") = Some mv ∧
    mv !! "A+" = Some "BLOOD_TYPE_A" ∧
    mv !! "A" = Some "BLOOD_TYPE_A".
Proof.
  split; [done|].
  exists (multi_values "BLOOD_TYPE" ["A+"; "A"; "B"]).
  split; [|split]; vm_compute; reflexivity.
Qed.

(** The hyphen is replaced, not removed: "A-" keeps a trailing underscore. *)
Example hyphen_is_kept_as_underscore :
  _build_col_name "BLOOD_TYPE" "A-" = "BLOOD_TYPE_A_" ∧
  _build_col_name "BLOOD_TYPE" "A+" = "BLOOD_TYPE_A".
Proof. split; reflexivity. Qed.

(** ** Duplicate detection *)

Lemma multiplicity_cons b x l :
  multiplicity b (x :: l)
  = ((if decide (x = b) then 1 else 0) + multiplicity b l)%nat.
Proof.
  unfold multiplicity. rewrite filter_cons.
  by destruct (decide (x = b)).
Qed.

Lemma multiplicity_0 b l : multiplicity b l = 0%nat ↔ b ∉ l.
Proof.
  induction l as [|x l IH]; [by split; [intros _; apply not_elem_of_nil|]|].
  rewrite multiplicity_cons, not_elem_of_cons.
  destruct (decide (x = b)) as [->|Hne]; [split; [lia | by intros [? _]]|].
  simpl. rewrite IH. split; [by intros ?; split | by intros [_ ?]].
Qed.

Lemma NoDup_multiplicity l :
  NoDup l ↔ ∀ b, (multiplicity b l ≤ 1)%nat.
Proof.
  induction l as [|x l IH].
  - split; [intros _ b; unfold multiplicity; simpl; lia | constructor].
  - rewrite NoDup_cons, IH. split.
    + intros [Hx Hl] b. rewrite multiplicity_cons.
      destruct (decide (x = b)) as [<-|Hne]; [|apply Hl].
      apply multiplicity_0 in Hx. lia.
    + intros H. split.
      * apply multiplicity_0. specialize (H x).
        rewrite multiplicity_cons, decide_True in H by done. lia.
      * intros b. specialize (H b). rewrite multiplicity_cons in H. lia.
Qed.

Lemma Counter_fold (l : list string) (m : gmap string nat) b :
  foldl (λ counts b, <[b := S (default 0%nat (counts !! b))]> counts) m l !! b
  = match multiplicity b l with
    | O => m !! b
    | S k => Some (S k + default 0%nat (m !! b))%nat
    end.
Proof.
  revert m. induction l as [|x l IH]; intros m; [done|].
  cbn [foldl]. rewrite IH, multiplicity_cons.
  destruct (decide (x = b)) as [->|Hne].
  - rewrite lookup_insert_eq. simpl.
    destruct (multiplicity b l); simpl; f_equal; lia.
  - by rewrite lookup_insert_ne.
Qed.

Lemma Counter_lookup l b :
  Counter l !! b
  = match multiplicity b l with O => None | S k => Some (S k) end.
Proof.
  unfold Counter. rewrite Counter_fold, lookup_empty.
  destruct (multiplicity b l); simpl; [done | f_equal; lia].
Qed.

Lemma elem_of_duplicates barcodes b :
  b ∈ (_find_duplicates barcodes).1 ↔ (1 < multiplicity b barcodes)%nat.
Proof.
  unfold _find_duplicates. cbn [fst].
  rewrite elem_of_dom. unfold is_Some.
  setoid_rewrite map_lookup_filter_Some. setoid_rewrite Counter_lookup.
  destruct (multiplicity b barcodes) as [|k]; simpl.
  - split; [by intros (? & ? & ?) | lia].
  - split; [intros (n & [= <-] & ?); done | intros ?; eauto].
Qed.

Lemma duplicates_empty barcodes :
  (_find_duplicates barcodes).1 = ∅ ↔ NoDup barcodes.
Proof.
  rewrite NoDup_multiplicity. split.
  - intros He b. destruct (decide (1 < multiplicity b barcodes)%nat) as [H|H];
      [|lia].
    apply elem_of_duplicates in H. rewrite He in H. by apply not_elem_of_empty in H.
  - intros H. apply set_eq. intros b. rewrite elem_of_duplicates.
    specialize (H b). split; [lia | by intros ?%not_elem_of_empty].
Qed.

Lemma find_duplicates_error barcodes :
  (_find_duplicates barcodes).2
  = if decide (NoDup barcodes) then None
    else Some (BarcodesError (elements (_find_duplicates barcodes).1)
                             "Duplicated barcodes in input").
Proof.
  pose proof (duplicates_empty barcodes) as He.
  unfold _find_duplicates in *. cbn [fst snd] in *.
  set (dups := dom _) in *.
  destruct (decide (NoDup barcodes)) as [Hnd|Hnd].
  - apply He in Hnd. rewrite Hnd, size_empty. by rewrite decide_False by lia.
  - rewrite decide_True; [done|].
    destruct (decide (size dups = 0)%nat) as [H0|H0]; [|lia].
    apply size_empty_inv in H0. apply leibniz_equiv in H0. by apply He in H0.
Qed.

(** ** Fetching the samples *)

Section Fetch_facts.

Variable get_sample_surveys : string → Z * metadata.

Lemma fetch_barcode_metadata_200 b :
  sample_status get_sample_surveys b = 200 →
  _fetch_barcode_metadata get_sample_surveys b
  = (sample_payload get_sample_surveys b, None).
Proof.
  unfold _fetch_barcode_metadata, sample_status, sample_payload.
  destruct (get_sample_surveys b) as [st resp]. simpl. intros ->.
  by rewrite decide_False by (by intros ?).
Qed.

Lemma fetch_barcode_metadata_error b :
  sample_status get_sample_surveys b ≠ 200 →
  _fetch_barcode_metadata get_sample_surveys b
  = (sample_payload get_sample_surveys b,
     Some (sample_error get_sample_surveys b)).
Proof.
  unfold _fetch_barcode_metadata, sample_error, sample_status, sample_payload.
  destruct (get_sample_surveys b) as [st resp]. simpl. intros H.
  by rewrite decide_True.
Qed.

Lemma fetch_steps l fetched report :
  foldl (fetch_step get_sample_surveys) (fetched, report) l
  = (fetched ++
       (sample_payload get_sample_surveys <$>
          fetched_barcodes get_sample_surveys l),
     report ++
       (sample_error get_sample_surveys <$>
          failed_barcodes get_sample_surveys l)).
Proof.
  revert fetched report. unfold fetched_barcodes, failed_barcodes.
  induction l as [|b l IH]; intros fetched report; cbn [foldl].
  - by rewrite !filter_nil, !fmap_nil, !app_nil_r.
  - rewrite !filter_cons. unfold fetch_step at 2.
    destruct (decide (sample_status get_sample_surveys b = 200)) as [H|H].
    + rewrite fetch_barcode_metadata_200 by done.
      rewrite decide_False by (by intros ?). rewrite IH.
      by rewrite fmap_cons, <- app_assoc.
    + rewrite fetch_barcode_metadata_error by done.
      rewrite decide_True by done. rewrite IH.
      by rewrite fmap_cons, <- app_assoc.
Qed.

Lemma fetched_or_failed l b :
  b ∈ l ↔
  b ∈ fetched_barcodes get_sample_surveys l ∨
  b ∈ failed_barcodes get_sample_surveys l.
Proof.
  unfold fetched_barcodes, failed_barcodes. rewrite !list_elem_of_filter.
  destruct (decide (sample_status get_sample_surveys b = 200)); tauto.
Qed.

Lemma no_sample_fetched l :
  fetched_barcodes get_sample_surveys l = [] ↔
  ∀ b, b ∈ l → sample_status get_sample_surveys b ≠ 200.
Proof.
  unfold fetched_barcodes. split.
  - intros He b Hb Hs.
    assert (b ∈ filter (λ b, sample_status get_sample_surveys b = 200) l) as Hin
      by (by apply list_elem_of_filter).
    rewrite He in Hin. by apply elem_of_nil in Hin.
  - intros H. induction l as [|x l IH]; [done|].
    rewrite filter_cons, decide_False by (apply H; by left).
    apply IH. intros b Hb. apply H. by right.
Qed.

Lemma all_failed l :
  (∀ b, b ∈ l → sample_status get_sample_surveys b ≠ 200) →
  failed_barcodes get_sample_surveys l = l.
Proof.
  unfold failed_barcodes. induction l as [|x l IH]; intros H; [done|].
  rewrite filter_cons, decide_True by (apply H; by left).
  f_equal. apply IH. intros b Hb. apply H. by right.
Qed.

End Fetch_facts.

(** ** Fetching the survey templates *)

Lemma observe_steps_dom a src (l : list Z) (templates : gmap Z template_ids) :
  dom (foldl (observe_step a src) templates l) = dom templates ∪ list_to_set l.
Proof.
  revert templates. induction l as [|t l IH]; intros templates; cbn [foldl].
  - set_solver.
  - rewrite IH. unfold observe_step.
    destruct (templates !! t) as [ids|] eqn:Ht.
    + apply (elem_of_dom_2 (D := gset Z)) in Ht. set_solver.
    + rewrite dom_insert_L. set_solver.
Qed.

Lemma templates_fold_dom (mds : list metadata) (templates : gmap Z template_ids) :
  dom (foldl (λ templates bc_md,
         let account_id := account_id (md_account bc_md) in
         let source_id := source_id (md_source bc_md) in
         foldl (observe_step account_id source_id)
           templates (elements (observed_templates bc_md)))
        templates mds)
  = dom templates ∪ ⋃ (observed_templates <$> mds).
Proof.
  revert templates. induction mds as [|md mds IH]; intros templates;
    cbn [foldl].
  - rewrite fmap_nil, union_list_nil. set_solver.
  - rewrite IH. cbv zeta. rewrite observe_steps_dom.
    rewrite list_to_set_elements_L, fmap_cons, union_list_cons. set_solver.
Qed.

Lemma templates_to_fetch_dom (mds : list metadata) :
  dom (templates_to_fetch mds) = ⋃ (observed_templates <$> mds).
Proof.
  unfold templates_to_fetch. rewrite templates_fold_dom, dom_empty_L.
  set_solver.
Qed.

Lemma elem_of_observed_templates md t :
  t ∈ observed_templates md ↔
  (t ∉ TEMPLATES_TO_IGNORE) ∧ (∃ s, s ∈ survey_answers md ∧ template s = t).
Proof.
  unfold observed_templates.
  rewrite elem_of_list_to_set, list_elem_of_filter, list_elem_of_fmap.
  naive_solver.
Qed.

Lemma ignored_not_to_fetch (mds : list metadata) t :
  t ∈ TEMPLATES_TO_IGNORE → templates_to_fetch mds !! t = None.
Proof.
  intros Hign. apply (not_elem_of_dom (D := gset Z)).
  rewrite templates_to_fetch_dom, elem_of_union_list.
  intros (X & HX & Ht). apply list_elem_of_fmap in HX as (md & -> & _).
  apply elem_of_observed_templates in Ht as [Hn _]. done.
Qed.

Section Template_facts.

Variable get_survey_template : string → string → Z → Z * survey_template.

Lemma template_steps (l : list (Z * template_ids)) surveys errors t :
  NoDup l.*1 →
  ((foldl (template_step get_survey_template) (surveys, errors) l).1 !! t
   = match (list_to_map l : gmap Z template_ids) !! t with
     | Some ids =>
         match fetched_survey get_survey_template t ids with
         | Some s => Some s
         | None => surveys !! t
         end
     | None => surveys !! t
     end) ∧
  ((foldl (template_step get_survey_template) (surveys, errors) l).2 !! t
   = match (list_to_map l : gmap Z template_ids) !! t with
     | Some ids =>
         match fetch_failure get_survey_template t ids with
         | Some e => Some e
         | None => errors !! t
         end
     | None => errors !! t
     end).
Proof.
  revert surveys errors. induction l as [|[k ids] l IH];
    intros surveys errors Hnd; cbn [foldl].
  - cbn. by rewrite lookup_empty.
  - rewrite fmap_cons in Hnd. cbn [fst] in Hnd.
    apply NoDup_cons in Hnd as [Hk Hnd]. rewrite list_to_map_cons.
    unfold template_step at 2 4. unfold fetched_survey, fetch_failure.
    destruct (_fetch_survey_template get_survey_template k ids)
      as [survey [error|]] eqn:Hf; cbv beta iota zeta.
    + destruct (IH surveys (<[k:=error]> errors) Hnd) as [IH1 IH2].
      rewrite IH1, IH2.
      destruct (decide (t = k)) as [->|Hne].
      * rewrite (not_elem_of_list_to_map_1 l k) by done.
        by rewrite !lookup_insert_eq, Hf.
      * by rewrite !lookup_insert_ne by done.
    + destruct (IH (<[k:=survey]> surveys) errors Hnd) as [IH1 IH2].
      rewrite IH1, IH2.
      destruct (decide (t = k)) as [->|Hne].
      * rewrite (not_elem_of_list_to_map_1 l k) by done.
        by rewrite !lookup_insert_eq, Hf.
      * by rewrite !lookup_insert_ne by done.
Qed.

End Template_facts.

(** ** The shape of a run *)

Section Run_facts.

Variable HUMAN_SITE_INVARIANTS : gmap string (list (string * string)).
Variable get_sample_surveys : string → Z * metadata.
Variable get_survey_template : string → string → Z → Z * survey_template.

Lemma fetch_observed_spec (mds : list metadata) surveys st_errors :
  _fetch_observed_survey_templates get_survey_template mds
  = (surveys, st_errors) →
  ∃ errors : gmap Z template_error,
    st_errors = (if decide (errors = ∅) then None else Some errors) ∧
    (∀ t, surveys !! t
          = templates_to_fetch mds !! t
              ≫= fetched_survey get_survey_template t) ∧
    (∀ t, errors !! t
          = templates_to_fetch mds !! t
              ≫= fetch_failure get_survey_template t).
Proof.
  unfold _fetch_observed_survey_templates. cbv zeta.
  destruct (foldl (template_step get_survey_template) (∅, ∅)
              (map_to_list (templates_to_fetch mds)))
    as [surveys' errors] eqn:Hfold.
  intros [= <- <-]. exists errors. split; [done|].
  split; intros t;
    pose proof (template_steps get_survey_template
                  (map_to_list (templates_to_fetch mds)) ∅ ∅ t
                  (NoDup_fst_map_to_list _)) as [H1 H2];
    rewrite Hfold, list_to_map_to_list in H1, H2;
    cbn [fst snd] in H1, H2.
  - rewrite H1. destruct (templates_to_fetch mds !! t) as [ids|]; [|done].
    simpl. by destruct (fetched_survey get_survey_template t ids).
  - rewrite H2. destruct (templates_to_fetch mds !! t) as [ids|]; [|done].
    simpl. by destruct (fetch_failure get_survey_template t ids).
Qed.

Lemma duplicate_entries_eq barcodes :
  duplicate_entries barcodes
  = match (_find_duplicates barcodes).2 with
    | Some errors => [] ++ [errors]
    | None => []
    end.
Proof. unfold duplicate_entries. by destruct (_find_duplicates barcodes).2. Qed.

Lemma retrieve_metadata_unfold (barcodes : list string) :
  let l := elements (list_to_set barcodes : gset string) in
  let fetched :=
    sample_payload get_sample_surveys <$>
      fetched_barcodes get_sample_surveys l in
  let report :=
    duplicate_entries barcodes ++
    (sample_error get_sample_surveys <$> failed_barcodes get_sample_surveys l)
  in
  retrieve_metadata HUMAN_SITE_INVARIANTS get_sample_surveys
    get_survey_template barcodes
  = if decide (fetched_barcodes get_sample_surveys l = []) then
      Ok (pd.empty, report ++ [PlainError "No metadata was obtained"])
    else
      match _fetch_observed_survey_templates get_survey_template fetched with
      | (_, Some st_errors) =>
          Ok (pd.empty, report ++ [TemplateErrors st_errors])
      | (survey_templates, None) =>
          df ← _to_pandas_dataframe HUMAN_SITE_INVARIANTS fetched
                 survey_templates;
          Ok (df, report)
      end.
Proof.
  intros l fetched report. unfold retrieve_metadata.
  pose proof (duplicate_entries_eq barcodes) as Hd.
  destruct (_find_duplicates barcodes) as [dups errors]. cbn [snd] in Hd.
  rewrite <- Hd. rewrite fetch_steps. fold l. rewrite app_nil_l.
  fold fetched. fold report.
  destruct (decide (fetched_barcodes get_sample_surveys l = [])) as [He|Hne].
  - subst fetched. rewrite He, fmap_nil. by rewrite decide_True by done.
  - rewrite decide_False.
    + by destruct (_fetch_observed_survey_templates get_survey_template fetched)
        as [st [e|]].
    + subst fetched. rewrite length_fmap.
      destruct (fetched_barcodes get_sample_surveys l); [done | simpl; lia].
Qed.

End Run_facts.

(** ** Runs in which fetches fail *)

Section Failure_facts.

Variable HUMAN_SITE_INVARIANTS : gmap string (list (string * string)).
Variable get_sample_surveys : string → Z * metadata.
Variable get_survey_template : string → string → Z → Z * survey_template.

Lemma elem_of_distinct (barcodes : list string) b :
  b ∈ elements (list_to_set barcodes : gset string) ↔ b ∈ barcodes.
Proof. by rewrite elem_of_elements, elem_of_list_to_set. Qed.

Lemma not_elem_of_front (barcodes l : list string) e :
  e ∈ duplicate_entries barcodes ++ (sample_error get_sample_surveys <$> l) →
  match e with
  | BarcodesError _ _ | BarcodeError _ _ => True
  | TemplateErrors _ | PlainError _ => False
  end.
Proof.
  rewrite elem_of_app, list_elem_of_fmap. intros [H|(b & -> & _)]; [|done].
  unfold duplicate_entries in H. rewrite find_duplicates_error in H.
  case_decide; [by apply elem_of_nil in H|].
  by apply list_elem_of_singleton in H as ->.
Qed.

(** C9: when every fetch fails the run returns the empty table and a report
    made of the entry of the duplicate check (if any), one entry per failed
    fetch and the terminal entry; and the terminal entry is in the report of
    a run exactly when no sample was fetched. *)
Theorem no_metadata_obtained :
  (∀ barcodes,
     (∀ b, b ∈ barcodes → sample_status get_sample_surveys b ≠ 200) →
     retrieve_metadata HUMAN_SITE_INVARIANTS get_sample_surveys
       get_survey_template barcodes
     = Ok (pd.empty,
           duplicate_entries barcodes ++
           (sample_error get_sample_surveys <$>
              elements (list_to_set barcodes : gset string)) ++
           [PlainError "No metadata was obtained"])) ∧
  (∀ barcodes df report,
     retrieve_metadata HUMAN_SITE_INVARIANTS get_sample_surveys
       get_survey_template barcodes = Ok (df, report) →
     (PlainError "No metadata was obtained" ∈ report ↔
      ∀ b, b ∈ barcodes → sample_status get_sample_surveys b ≠ 200)).
Proof.
  split.
  - intros barcodes Hfail. rewrite retrieve_metadata_unfold.
    assert (∀ b, b ∈ elements (list_to_set barcodes : gset string) →
                 sample_status get_sample_surveys b ≠ 200) as Hfail'
      by (intros b Hb; apply Hfail; by apply elem_of_distinct).
    rewrite decide_True by (by apply no_sample_fetched).
    rewrite all_failed by done. by rewrite <- app_assoc.
  - intros barcodes df report. rewrite retrieve_metadata_unfold.
    set (l := elements (list_to_set barcodes : gset string)).
    assert ((∀ b, b ∈ barcodes → sample_status get_sample_surveys b ≠ 200) ↔
            (∀ b, b ∈ l → sample_status get_sample_surveys b ≠ 200)) as ->
      by (split; intros H b Hb; apply H; by apply elem_of_distinct).
    rewrite <- no_sample_fetched.
    destruct (decide (fetched_barcodes get_sample_surveys l = [])) as [He|Hne].
    + intros [= <- <-]. split; [done|]. intros _.
      apply elem_of_app. right. by apply list_elem_of_singleton.
    + destruct (_fetch_observed_survey_templates _ _) as [st [e|]].
      * intros [= <- <-]. split; [|done]. intros Hin.
        apply elem_of_app in Hin as [Hin|Hin].
        -- by apply not_elem_of_front in Hin.
        -- by apply list_elem_of_singleton in Hin.
      * destruct (_to_pandas_dataframe _ _ _) as [df'|]; [|done].
        intros [= <- <-]. split; [|done]. intros Hin.
        by apply not_elem_of_front in Hin.
Qed.

Lemma fetch_failure_spec t ids :
  fetch_failure get_survey_template t ids
  = if decide (template_status get_survey_template t ids ≠ 200)
    then Some (template_failure get_survey_template t ids) else None.
Proof.
  unfold fetch_failure, _fetch_survey_template, template_failure,
    template_status. cbn [ids_account_id ids_source_id].
  destruct (get_survey_template _ _ t) as [status response]. cbn [fst snd].
  by case_decide.
Qed.

Lemma fetched_survey_spec t ids :
  fetched_survey get_survey_template t ids
  = if decide (template_status get_survey_template t ids = 200)
    then Some (get_survey_template (ids_account_id ids)
                 (ids_source_id ids) t).2
    else None.
Proof.
  unfold fetched_survey, _fetch_survey_template, template_status.
  cbn [ids_account_id ids_source_id].
  destruct (get_survey_template _ _ t) as [status response]. cbn [fst snd].
  destruct (decide (status = 200)) as [->|Hne].
  - by rewrite decide_False by (by intros ?).
  - by rewrite decide_True.
Qed.

(** C2: a failed template fetch is recorded under the id of the template in
    the template entry of the report and the template is left out of the
    fetched templates; the run then returns the empty table with the report
    accumulated so far: the table is not built when a template fetch
    fails. *)
Theorem template_fetch_failure (barcodes : list string) t ids :
  let l := elements (list_to_set barcodes : gset string) in
  let fetched :=
    sample_payload get_sample_surveys <$>
      fetched_barcodes get_sample_surveys l in
  templates_to_fetch fetched !! t = Some ids →
  template_status get_survey_template t ids ≠ 200 →
  ∃ surveys errors,
    _fetch_observed_survey_templates get_survey_template fetched
    = (surveys, Some errors) ∧
    errors !! t = Some (template_failure get_survey_template t ids) ∧
    surveys !! t = None ∧
    (∀ t', is_Some (errors !! t') ↔
           ∃ ids', templates_to_fetch fetched !! t' = Some ids' ∧
                   template_status get_survey_template t' ids' ≠ 200) ∧
    (∀ t', is_Some (surveys !! t') ↔
           ∃ ids', templates_to_fetch fetched !! t' = Some ids' ∧
                   template_status get_survey_template t' ids' = 200) ∧
    retrieve_metadata HUMAN_SITE_INVARIANTS get_sample_surveys
      get_survey_template barcodes
    = Ok (pd.empty,
          duplicate_entries barcodes ++
          (sample_error get_sample_surveys <$>
             failed_barcodes get_sample_surveys l) ++
          [TemplateErrors errors]).
Proof.
  intros l fetched Ht Hfail.
  destruct (_fetch_observed_survey_templates get_survey_template fetched)
    as [surveys st_errors] eqn:Hobs.
  pose proof Hobs as (errors & Hst & Hs & He)%fetch_observed_spec.
  assert (errors !! t = Some (template_failure get_survey_template t ids))
    as Het.
  { rewrite He, Ht. simpl. rewrite fetch_failure_spec.
    by rewrite decide_True. }
  assert (errors ≠ ∅) as Hne.
  { intros ->. by rewrite lookup_empty in Het. }
  rewrite decide_False in Hst by done. subst st_errors.
  exists surveys, errors. split; [done|]. split; [done|].
  split; [|split; [|split]].
  - rewrite Hs, Ht. simpl. rewrite fetched_survey_spec.
    by rewrite decide_False.
  - intros t'. rewrite He.
    destruct (templates_to_fetch fetched !! t') as [ids'|]; simpl.
    + rewrite fetch_failure_spec. case_decide as Hd.
      * split; [intros _; eauto | by eauto].
      * split; [by intros [? ?] | intros (? & [= <-] & ?); done].
    + split; [by intros [? ?] | by intros (? & ? & ?)].
  - intros t'. rewrite Hs.
    destruct (templates_to_fetch fetched !! t') as [ids'|]; simpl.
    + rewrite fetched_survey_spec. case_decide as Hd.
      * split; [intros _; eauto | by eauto].
      * split; [by intros [? ?] | intros (? & [= <-] & ?); done].
    + split; [by intros [? ?] | by intros (? & ? & ?)].
  - rewrite retrieve_metadata_unfold. fold l. fold fetched.
    rewrite decide_False.
    + rewrite Hobs. by rewrite <- app_assoc.
    + intros Hnil. subst fetched. rewrite Hnil in Ht.
      by rewrite fmap_nil in Ht.
Qed.

End Failure_facts.

Lemma no_metadata_obtained_witness :
  retrieve_metadata ∅ Ex.samples_404 Ex.templates_1 ["b1"; "b2"]
  = Ok (pd.empty,
        duplicate_entries ["b1"; "b2"] ++
        (sample_error Ex.samples_404 <$>
           elements (list_to_set ["b1"; "b2"] : gset string)) ++
        [PlainError "No metadata was obtained"]).
Proof.
  apply (proj1 (no_metadata_obtained ∅ Ex.samples_404 Ex.templates_1)).
  intros b _. vm_compute. discriminate.
Defined.

Lemma template_fetch_failure_witness :
  ∃ surveys errors,
    _fetch_observed_survey_templates Ex.templates_500 [Ex.sample_1]
    = (surveys, Some errors) ∧
    errors !! 1
    = Some (template_failure Ex.templates_500 1 (mk_ids "acc1" "src1" None)) ∧
    surveys !! 1 = None ∧
    (∀ t', is_Some (errors !! t') ↔
           ∃ ids', templates_to_fetch [Ex.sample_1] !! t' = Some ids' ∧
                   template_status Ex.templates_500 t' ids' ≠ 200) ∧
    (∀ t', is_Some (surveys !! t') ↔
           ∃ ids', templates_to_fetch [Ex.sample_1] !! t' = Some ids' ∧
                   template_status Ex.templates_500 t' ids' = 200) ∧
    retrieve_metadata ∅ Ex.samples_b1 Ex.templates_500 ["b1"]
    = Ok (pd.empty,
          duplicate_entries ["b1"] ++
          (sample_error Ex.samples_b1 <$>
             failed_barcodes Ex.samples_b1
               (elements (list_to_set ["b1"] : gset string))) ++
          [TemplateErrors errors]).
Proof.
  apply (template_fetch_failure ∅ Ex.samples_b1 Ex.templates_500 ["b1"] 1
           (mk_ids "acc1" "src1" None)).
  - vm_compute. reflexivity.
  - vm_compute. discriminate.
Defined.

(** C2, the statement of the specification fails: the sample b1 is fetched,
    the fetch of its template fails, and the table has no row for b1. *)
Lemma template_failure_leaves_no_row :
  sample_status Ex.samples_b1 "b1" = 200 ∧
  ∃ errors,
    retrieve_metadata ∅ Ex.samples_b1 Ex.templates_500 ["b1"]
    = Ok (pd.empty, [TemplateErrors errors]) ∧
    pd.index pd.empty = [].
Proof.
  split; [reflexivity|].
  exists {[ 1 := template_failure Ex.templates_500 1
                    (mk_ids "acc1" "src1" None) ]}.
  split; [|reflexivity]. vm_compute. reflexivity.
Qed.

(** ** Loops *)

Lemma for_each_Ok_inv {A S} (body : S → A → result S) l s s' :
  for_each body s l = Ok s' →
  ∀ x, x ∈ l → ∃ s1 s2, body s1 x = Ok s2.
Proof.
  revert s. induction l as [|y l IH]; intros s H x Hx;
    [by apply elem_of_nil in Hx|].
  cbn in H. destruct (body s y) as [s1|e] eqn:Hb; [|done]. cbn in H.
  apply elem_of_cons in Hx as [->|Hx]; [eauto | by eapply IH].
Qed.

Lemma for_each_Raise_inv {A S} (body : S → A → result S) l s e :
  for_each body s l = Raise e →
  ∃ x s1, x ∈ l ∧ body s1 x = Raise e.
Proof.
  revert s. induction l as [|y l IH]; intros s H; [done|].
  cbn in H. destruct (body s y) as [s1|e'] eqn:Hb; cbn in H.
  - destruct (IH _ H) as (x & s2 & Hx & Hr). exists x, s2.
    split; [by right | done].
  - injection H as ->. exists y, s. split; [by left | done].
Qed.

Lemma for_each_is_Ok {A S} (body : S → A → result S) l s :
  (∀ s x, x ∈ l → is_Ok (body s x)) → is_Ok (for_each body s l).
Proof.
  revert s. induction l as [|y l IH]; intros s H; [by eexists|].
  cbn. destruct (H s y) as [s1 ->]; [by left|]. cbn.
  apply IH. intros s2 x Hx. apply H. by right.
Qed.

Lemma result_cases {A} (r : result A) : is_Ok r ∨ raises r.
Proof. destruct r; [left | right]; by eexists. Qed.

Lemma not_Ok_raises {A} (r : result A) : ¬ is_Ok r ↔ raises r.
Proof.
  split.
  - intros H. by destruct (result_cases r).
  - intros [e ->] [a ?]. done.
Qed.

(** ** Flattening *)

Lemma survey_step_seen mm items (collected : gset Z) s :
  template s ∈ collected →
  survey_step mm (items, collected) s = Ok (items, collected).
Proof. intros H. unfold survey_step. by rewrite decide_True. Qed.

Lemma survey_step_new mm items (collected : gset Z) s :
  template s ∉ collected →
  survey_step mm (items, collected) s
  = items' ← for_each (question_step mm (template s)) items (response s);
    Ok (items', collected ∪ {[ template s ]}).
Proof. intros H. unfold survey_step. by rewrite decide_False. Qed.

Lemma survey_steps_first mm l items (collected : gset Z) :
  for_each (survey_step mm) (items, collected) l
  = for_each (survey_step mm) (items, collected)
      (first_submissions collected l).
Proof.
  revert items collected. induction l as [|s l IH]; intros items collected;
    [done|].
  cbn [for_each first_submissions].
  destruct (decide (template s ∈ collected)) as [Hin|Hnin].
  - rewrite survey_step_seen by done. cbn. apply IH.
  - cbn [for_each]. rewrite survey_step_new by done.
    destruct (for_each (question_step mm (template s)) items (response s));
      cbn; [apply IH | done].
Qed.

Lemma survey_steps_Ok_inv mm l items (collected : gset Z) st :
  for_each (survey_step mm) (items, collected) l = Ok st →
  ∀ s, s ∈ first_submissions collected l →
    ∃ i1 i2, for_each (question_step mm (template s)) i1 (response s) = Ok i2.
Proof.
  revert items collected. induction l as [|s l IH]; intros items collected H x Hx;
    [by apply elem_of_nil in Hx|].
  cbn [for_each first_submissions] in H, Hx.
  destruct (decide (template s ∈ collected)) as [Hin|Hnin].
  - rewrite survey_step_seen in H by done. cbn in H. by eapply IH.
  - rewrite survey_step_new in H by done.
    destruct (for_each (question_step mm (template s)) items (response s))
      as [items'|e] eqn:Hq; cbn in H; [|done].
    apply elem_of_cons in Hx as [->|Hx]; [eauto | by eapply IH].
Qed.

Lemma survey_steps_Raise_inv mm l items (collected : gset Z) e :
  for_each (survey_step mm) (items, collected) l = Raise e →
  ∃ s i1, s ∈ first_submissions collected l ∧
          for_each (question_step mm (template s)) i1 (response s) = Raise e.
Proof.
  revert items collected. induction l as [|s l IH]; intros items collected H;
    [done|].
  cbn [for_each first_submissions] in *.
  destruct (decide (template s ∈ collected)) as [Hin|Hnin].
  - rewrite survey_step_seen in H by done. cbn in H. by eapply IH.
  - rewrite survey_step_new in H by done.
    destruct (for_each (question_step mm (template s)) items (response s))
      as [items'|e'] eqn:Hq; cbn in H.
    + destruct (IH _ _ H) as (x & i1 & Hx & Hr). exists x, i1.
      split; [by right | done].
    + injection H as ->. exists s, items. split; [by left | done].
Qed.

Lemma survey_steps_is_Ok mm l items (collected : gset Z) :
  (∀ s i, s ∈ first_submissions collected l →
          is_Ok (for_each (question_step mm (template s)) i (response s))) →
  is_Ok (for_each (survey_step mm) (items, collected) l).
Proof.
  revert items collected. induction l as [|s l IH]; intros items collected H;
    [by eexists|].
  cbn [for_each first_submissions] in *.
  destruct (decide (template s ∈ collected)) as [Hin|Hnin].
  - rewrite survey_step_seen by done. cbn. by apply IH.
  - rewrite survey_step_new by done.
    destruct (H s items) as [items' ->]; [by left|]. cbn.
    apply IH. intros x i Hx. apply H. by right.
Qed.

Lemma selection_step_Ok_inv mv items x items' :
  selection_step mv items x = Ok items' → is_Some (mv !! x).
Proof. unfold selection_step. destruct (mv !! x); [eauto | done]. Qed.

Lemma selection_step_Raise_inv mv items x e :
  selection_step mv items x = Raise e → e = KeyError ∧ mv !! x = None.
Proof.
  unfold selection_step. destruct (mv !! x); [done|]. by intros [= <-].
Qed.

Lemma question_step_Ok_inv mm t items qid shortname a items' :
  question_step mm t items (qid, (shortname, a)) = Ok items' →
  match mm !! (t, qid) with
  | Some mv =>
      ∃ selections, a = Selections selections ∧
                    ∀ x, x ∈ selections → is_Some (mv !! x)
  | None => ∃ text, a = Text text
  end.
Proof.
  unfold question_step. destruct (mm !! (t, qid)) as [mv|].
  - destruct a as [text|selections]; [done|]. intros H.
    exists selections. split; [done|]. intros x Hx.
    destruct (for_each_Ok_inv _ _ _ _ H x Hx) as (s1 & s2 & Hs).
    by eapply selection_step_Ok_inv.
  - destruct a as [text|selections]; [eauto | done].
Qed.

Lemma question_step_Raise_inv mm t items qid shortname a e :
  question_step mm t items (qid, (shortname, a)) = Raise e →
  match mm !! (t, qid) with
  | Some mv =>
      (e = AssertionError ∧ ∃ text, a = Text text) ∨
      (e = KeyError ∧
       ∃ selections x, a = Selections selections ∧ x ∈ selections ∧
                       mv !! x = None)
  | None => e = AttributeError ∧ ∃ selections, a = Selections selections
  end.
Proof.
  unfold question_step. destruct (mm !! (t, qid)) as [mv|].
  - destruct a as [text|selections].
    + intros [= <-]. left. eauto.
    + intros H. right.
      destruct (for_each_Raise_inv _ _ _ _ H) as (x & s1 & Hx & Hr).
      apply selection_step_Raise_inv in Hr as [-> Hr].
      split; [done|]. by exists selections, x.
  - destruct a as [text|selections]; [done|]. intros [= <-]. eauto.
Qed.

Section Flatten_facts.

Variable HUMAN_SITE_INVARIANTS : gmap string (list (string * string)).

Lemma to_pandas_series_cases md mm :
  (source_type (md_source md) = "human" ∧
   HUMAN_SITE_INVARIANTS !! site (md_sample md) = None ∧
   _to_pandas_series HUMAN_SITE_INVARIANTS md mm = Raise KeyError) ∨
  (site_known HUMAN_SITE_INVARIANTS md ∧
   ∃ sample_invariants,
     _to_pandas_series HUMAN_SITE_INVARIANTS md mm
     = st ← for_each (survey_step mm)
               ([("HOST_SUBJECT_ID", host_subject_id md);
                 ("COLLECTION_TIMESTAMP", datetime_collected (md_sample md))],
                ∅)
               (survey_answers md);
       Ok (pd.mk_Series (sample_barcode md) (st.1 ++ sample_invariants))).
Proof.
  unfold _to_pandas_series, site_known. cbv zeta.
  destruct (decide (source_type (md_source md) = "human")) as [Hh|Hh].
  - destruct (HUMAN_SITE_INVARIANTS !! site (md_sample md)) as [inv|] eqn:Hs.
    + right. split; [eauto|]. exists inv. cbn.
      by destruct (for_each _ _ _) as [[items c]|].
    + by left.
  - right. split; [done|]. exists [].
    destruct (decide (source_type (md_source md) = "animal")); cbn;
      by destruct (for_each _ _ _) as [[items c]|].
Qed.

Lemma to_pandas_series_Ok_inv md mm s :
  _to_pandas_series HUMAN_SITE_INVARIANTS md mm = Ok s →
  site_known HUMAN_SITE_INVARIANTS md ∧
  ∀ sv qid shortname a,
    sv ∈ first_submissions ∅ (survey_answers md) →
    (qid, (shortname, a)) ∈ response sv →
    match mm !! (template sv, qid) with
    | Some mv =>
        ∃ selections, a = Selections selections ∧
                      ∀ x, x ∈ selections → is_Some (mv !! x)
    | None => ∃ text, a = Text text
    end.
Proof.
  intros H.
  destruct (to_pandas_series_cases md mm) as [(_ & _ & Hr)|(Hk & inv & Hr)];
    rewrite Hr in H; [done|].
  split; [done|]. intros sv qid shortname a Hsv Hq.
  destruct (for_each (survey_step mm) _ (survey_answers md))
    as [st|e] eqn:Hloop; [|done].
  destruct (survey_steps_Ok_inv _ _ _ _ _ Hloop sv Hsv) as (i1 & i2 & Hi).
  destruct (for_each_Ok_inv _ _ _ _ Hi _ Hq) as (s1 & s2 & Hs).
  by eapply question_step_Ok_inv.
Qed.

Lemma to_pandas_series_Raise_inv md mm e :
  _to_pandas_series HUMAN_SITE_INVARIANTS md mm = Raise e →
  (e = KeyError ∧ ¬ site_known HUMAN_SITE_INVARIANTS md) ∨
  ∃ sv qid shortname a,
    sv ∈ first_submissions ∅ (survey_answers md) ∧
    (qid, (shortname, a)) ∈ response sv ∧
    match mm !! (template sv, qid) with
    | Some mv =>
        (e = AssertionError ∧ ∃ text, a = Text text) ∨
        (e = KeyError ∧
         ∃ selections x, a = Selections selections ∧ x ∈ selections ∧
                         mv !! x = None)
    | None => e = AttributeError ∧ ∃ selections, a = Selections selections
    end.
Proof.
  intros H.
  destruct (to_pandas_series_cases md mm) as [(Hh & Hs & Hr)|(Hk & inv & Hr)];
    rewrite Hr in H.
  - injection H as <-. left. split; [done|]. intros Hk.
    destruct (Hk Hh) as [? ?]. congruence.
  - right.
    destruct (for_each (survey_step mm) _ (survey_answers md))
      as [st|e'] eqn:Hloop; [done|]. cbn in H. injection H as ->.
    destruct (survey_steps_Raise_inv _ _ _ _ _ Hloop) as (sv & i1 & Hsv & Hi).
    destruct (for_each_Raise_inv _ _ _ _ Hi) as ([qid [sn a]] & s1 & Hq & Hs).
    exists sv, qid, sn, a. split; [done|]. split; [done|].
    by eapply question_step_Raise_inv.
Qed.

Lemma to_pandas_series_is_Ok md mm :
  site_known HUMAN_SITE_INVARIANTS md →
  multiselect_answers_ok mm (first_submissions ∅ (survey_answers md)) →
  free_text_answers_ok mm (first_submissions ∅ (survey_answers md)) →
  is_Ok (_to_pandas_series HUMAN_SITE_INVARIANTS md mm).
Proof.
  intros Hk Hms Hft.
  destruct (to_pandas_series_cases md mm) as [(Hh & Hs & _)|(_ & inv & Hr)].
  - destruct (Hk Hh) as [? ?]. congruence.
  - rewrite Hr.
    destruct (survey_steps_is_Ok mm (survey_answers md)
                [("HOST_SUBJECT_ID", host_subject_id md);
                 ("COLLECTION_TIMESTAMP", datetime_collected (md_sample md))]
                ∅) as [st ->]; [|by eexists].
    intros sv i Hsv. apply for_each_is_Ok.
    intros items [qid [sn a]] Hq. unfold question_step.
    destruct (mm !! (template sv, qid)) as [mv|] eqn:Hm.
    + destruct (Hms _ _ _ _ _ Hsv Hq Hm) as (sel & -> & Hsel).
      apply for_each_is_Ok. intros items' x Hx. unfold selection_step.
      destruct (Hsel x Hx) as [n ->]. by eexists.
    + destruct (Hft _ _ _ _ Hsv Hq Hm) as (text & ->). by eexists.
Qed.

(** C10: flattening returns a series only if, in the first submission of
    each template of the sample, every answer to a question of the column
    map is a list of choices known to the map, and the site of a human sample
    is a key of the table of invariants; when that fails flattening raises;
    when it holds flattening raises neither an assertion nor a key error, and
    it returns a series if moreover the other answers are text. *)
Theorem flattener_precondition md mm :
  let firsts := first_submissions ∅ (survey_answers md) in
  let pre :=
    multiselect_answers_ok mm firsts ∧ site_known HUMAN_SITE_INVARIANTS md in
  (¬ pre → raises (_to_pandas_series HUMAN_SITE_INVARIANTS md mm)) ∧
  (pre →
   _to_pandas_series HUMAN_SITE_INVARIANTS md mm ≠ Raise AssertionError ∧
   _to_pandas_series HUMAN_SITE_INVARIANTS md mm ≠ Raise KeyError) ∧
  (pre → free_text_answers_ok mm firsts →
   is_Ok (_to_pandas_series HUMAN_SITE_INVARIANTS md mm)).
Proof.
  intros firsts pre. split; [|split].
  - intros Hn. apply not_Ok_raises. intros [s Hs]. apply Hn.
    apply to_pandas_series_Ok_inv in Hs as [Hk Hq]. split; [|done].
    intros sv qid shortname a mv Hsv Hin Hm.
    specialize (Hq sv qid shortname a Hsv Hin). by rewrite Hm in Hq.
  - intros [Hms Hk].
    assert (∀ e, _to_pandas_series HUMAN_SITE_INVARIANTS md mm = Raise e →
                 e = AttributeError) as Hattr.
    { intros e He.
      apply to_pandas_series_Raise_inv in He
        as [[_ Hn]|(sv & qid & sn & a & Hsv & Hin & Hcase)]; [done|].
      destruct (mm !! (template sv, qid)) as [mv|] eqn:Hm; [|by destruct Hcase].
      destruct (Hms _ _ _ _ _ Hsv Hin Hm) as (sel & -> & Hsel).
      destruct Hcase as [[_ [text ?]]|(_ & sel' & x & [= <-] & Hx & Hnone)];
        [done|].
      destruct (Hsel x Hx) as [? ?]. congruence. }
    split; intros He; by apply Hattr in He.
  - intros [Hms Hk] Hft. by apply to_pandas_series_is_Ok.
Qed.

End Flatten_facts.

(** ** Frames *)

Lemma prod_map_id_rows (l : list (string * gmap string string)) :
  prod_map id (λ r : gmap string string, r) <$> l = l.
Proof.
  induction l as [|[n r] l IH]; [done|]. rewrite fmap_cons, IH. done.
Qed.

Lemma prod_map_rows_compose (f g : gmap string string → gmap string string)
    (l : list (string * gmap string string)) :
  prod_map id g <$> (prod_map id f <$> l) = prod_map id (g ∘ f) <$> l.
Proof.
  induction l as [|[n r] l IH]; [done|]. rewrite !fmap_cons, IH. done.
Qed.

Lemma fill_cell_lookup c v (row : gmap string string) c' :
  pd.fill_cell c v row !! c'
  = match row !! c' with
    | Some x => Some x
    | None => if decide (c' = c) then Some v else None
    end.
Proof.
  unfold pd.fill_cell. destruct (decide (c' = c)) as [->|Hne].
  - destruct (row !! c) eqn:H; rewrite ?H; [done|].
    by rewrite lookup_insert_eq.
  - destruct (row !! c) eqn:H; [by destruct (row !! c')|].
    rewrite lookup_insert_ne by done. by destruct (row !! c').
Qed.

Lemma fill_cells_lookup cs v (row : gmap string string) c' :
  foldl (λ r c, pd.fill_cell c v r) row cs !! c'
  = match row !! c' with
    | Some x => Some x
    | None => if decide (c' ∈ cs) then Some v else None
    end.
Proof.
  revert row. induction cs as [|c cs IH]; intros row; cbn [foldl].
  - destruct (row !! c'); [done|]. by rewrite decide_False by apply not_elem_of_nil.
  - rewrite IH, fill_cell_lookup. destruct (row !! c') as [x|]; [done|].
    destruct (decide (c' = c)) as [->|Hne].
    + by rewrite decide_True by (by left).
    + destruct (decide (c' ∈ cs)) as [Hin|Hnin].
      * by rewrite decide_True by (by right).
      * by rewrite decide_False by (by rewrite elem_of_cons; intros [?|?]).
Qed.

Lemma fill_row_lookup cols v (row : gmap string string) c' :
  pd.fill_row cols v row !! c'
  = match row !! c' with
    | Some x => Some x
    | None => if decide (c' ∈ cols) then Some v else None
    end.
Proof.
  unfold pd.fill_row. induction cols as [|c cs IH]; cbn [foldr].
  - destruct (row !! c'); [done|]. by rewrite decide_False by apply not_elem_of_nil.
  - rewrite fill_cell_lookup, IH. destruct (row !! c') as [x|]; [done|].
    destruct (decide (c' ∈ cs)) as [Hin|Hnin].
    + by rewrite decide_True by (by right).
    + destruct (decide (c' = c)) as [->|Hne].
      * by rewrite decide_True by (by left).
      * by rewrite decide_False by (by rewrite elem_of_cons; intros [?|?]).
Qed.

Lemma inserts_lookup cs v (row : gmap string string) c' :
  foldl (λ r c, <[c := v]> r) row cs !! c'
  = if decide (c' ∈ cs) then Some v else row !! c'.
Proof.
  revert row. induction cs as [|c cs IH]; intros row; cbn [foldl].
  - by rewrite decide_False by apply not_elem_of_nil.
  - rewrite IH. destruct (decide (c' ∈ cs)) as [Hin|Hnin].
    + by rewrite decide_True by (by right).
    + destruct (decide (c' = c)) as [->|Hne].
      * rewrite decide_True by (by left). by rewrite lookup_insert_eq.
      * rewrite decide_False by (by rewrite elem_of_cons; intros [?|?]).
        by rewrite lookup_insert_ne.
Qed.

Lemma loc_isnull_assigns cs v df :
  let df' := foldl (λ df column, pd.loc_isnull_assign column v df) df cs in
  pd.columns df' = pd.columns df ∧
  pd.index_name df' = pd.index_name df ∧
  pd.rows df'
  = prod_map id (λ r, foldl (λ r c, pd.fill_cell c v r) r cs) <$> pd.rows df.
Proof.
  revert df. induction cs as [|c cs IH]; intros df; cbn [foldl].
  - cbv zeta. by rewrite prod_map_id_rows.
  - destruct (IH (pd.loc_isnull_assign c v df)) as (H1 & H2 & H3).
    cbv zeta. rewrite H1, H2, H3. split; [done|]. split; [done|].
    unfold pd.loc_isnull_assign, pd.map_rows. cbn [pd.rows].
    by rewrite prod_map_rows_compose.
Qed.

Lemma setitems cs v df :
  let df' := foldl (λ df column, pd.setitem column v df) df cs in
  (∀ c, c ∈ pd.columns df' ↔ c ∈ pd.columns df ∨ c ∈ cs) ∧
  pd.index_name df' = pd.index_name df ∧
  pd.rows df'
  = prod_map id (λ r, foldl (λ r c, <[c := v]> r) r cs) <$> pd.rows df.
Proof.
  revert df. induction cs as [|c cs IH]; intros df; cbn [foldl].
  - cbv zeta. rewrite prod_map_id_rows. split; [|done].
    intros c. rewrite elem_of_nil. tauto.
  - destruct (IH (pd.setitem c v df)) as (H1 & H2 & H3).
    cbv zeta. rewrite H2, H3. split; [|split; [done|]].
    + intros c'. rewrite H1, elem_of_cons. unfold pd.setitem. cbn [pd.columns].
      case_decide as Hc.
      * split; [tauto|]. intros [?|[->|?]]; tauto.
      * rewrite elem_of_app, list_elem_of_singleton. tauto.
    + unfold pd.setitem. cbn [pd.rows]. by rewrite prod_map_rows_compose.
Qed.

Lemma elem_of_first_occurrences (l : list string) c :
  c ∈ pd.first_occurrences l ↔ c ∈ l.
Proof.
  unfold pd.first_occurrences.
  by rewrite elem_of_reverse, elem_of_remove_dups, elem_of_reverse.
Qed.

(** ** Assembling the table *)

Section Assemble_facts.

Variable HUMAN_SITE_INVARIANTS : gmap string (list (string * string)).

Lemma raw_cell_labels (s : pd.Series) c :
  is_Some (raw_cell s c) → c ∈ pd.labels s.
Proof.
  unfold raw_cell, pd.labels. intros [v Hv].
  apply elem_of_list_to_map_2 in Hv.
  apply list_elem_of_fmap. by exists (c, v).
Qed.

Lemma replace_expected (ms : gset string) c v :
  (if decide (v = "") then "Missing: not provided" else v)
  = expected_cell ms c (Some v).
Proof. done. Qed.

Lemma assembled_cell (ms : gset string) (cols0 cols2 : list string)
    (s : pd.Series) c :
  (∀ c, c ∈ cols2 ↔ c ∈ cols0 ∨ c ∈ ms ∖ list_to_set cols0) →
  (∀ c, c ∈ pd.labels s → c ∈ cols0) →
  c ∈ cols2 →
  ((λ v, if decide (v = "") then "Missing: not provided" else v) <$>
     pd.fill_row cols2 "Missing: not provided"
       (foldl (λ r c, <[c := "false"]> r)
          (foldl (λ r c, pd.fill_cell c "false" r)
             (list_to_map (pd.items s))
             (elements (ms ∩ list_to_set cols0)))
          (elements (ms ∖ list_to_set cols0)))) !! c
  = Some (expected_cell ms c (raw_cell s c)).
Proof.
  intros Hcols Hlab Hc.
  rewrite lookup_fmap, fill_row_lookup, inserts_lookup, fill_cells_lookup.
  fold (raw_cell s c).
  destruct (raw_cell s c) as [v|] eqn:Hraw.
  - assert (c ∈ cols0) as Hc0 by (apply Hlab, raw_cell_labels; by rewrite Hraw).
    rewrite decide_False; [done|].
    rewrite elem_of_elements, elem_of_difference, elem_of_list_to_set. tauto.
  - unfold expected_cell.
    destruct (decide (c ∈ ms)) as [Hms|Hms].
    + destruct (decide (c ∈ cols0)) as [Hc0|Hc0].
      * rewrite decide_False
          by (rewrite elem_of_elements, elem_of_difference,
                elem_of_list_to_set; tauto).
        rewrite decide_True; [done|].
        by rewrite elem_of_elements, elem_of_intersection, elem_of_list_to_set.
      * rewrite decide_True; [done|].
        by rewrite elem_of_elements, elem_of_difference, elem_of_list_to_set.
    + rewrite decide_False
        by (rewrite elem_of_elements, elem_of_difference; tauto).
      rewrite decide_False
        by (rewrite elem_of_elements, elem_of_intersection; tauto).
      by rewrite decide_True.
Qed.

Lemma to_pandas_dataframe_Ok mds st df :
  _to_pandas_dataframe HUMAN_SITE_INVARIANTS mds st = Ok df →
  let mm := _construct_multiselect_map st in
  let ms := all_multiselect_columns mm in
  ∃ transformed,
    mapM (λ md, _to_pandas_series HUMAN_SITE_INVARIANTS md mm) mds
    = Ok transformed ∧
    Forall (λ s, NoDup (pd.labels s)) transformed ∧
    (∀ c, c ∈ pd.columns df ↔
          c ∈ ms ∨ ∃ s, s ∈ transformed ∧ c ∈ pd.labels s) ∧
    pd.index_name df = Some "sample_name" ∧
    Forall2 (λ s r,
               r.1 = pd.name s ∧
               ∀ c, c ∈ pd.columns df →
                    pd.cell r.2 c = Some (expected_cell ms c (raw_cell s c)))
            transformed (pd.rows df).
Proof.
  intros H mm ms. unfold _to_pandas_dataframe in H. fold mm in H.
  destruct (mapM (λ md, _to_pandas_series HUMAN_SITE_INVARIANTS md mm) mds)
    as [transformed|e] eqn:Hmap; [|done].
  cbn [mbind result_bind] in H. unfold pd.of_series in H.
  destruct (decide (Forall (λ s, NoDup (pd.labels s)) transformed))
    as [Hnd|Hnd]; [|done].
  cbn [mbind result_bind] in H. cbv zeta in H. fold ms in H.
  set (cols0 := pd.first_occurrences (transformed ≫= pd.labels)) in *.
  set (df0 := pd.set_index_name "sample_name" _) in H.
  assert (pd.columns df0 = cols0) as Hc0 by done.
  destruct (loc_isnull_assigns (elements (ms ∩ list_to_set (pd.columns df0)))
              "false" df0) as (Hc1 & Hi1 & Hr1).
  cbv zeta in Hc1, Hi1, Hr1.
  set (df1 := foldl (λ df column, pd.loc_isnull_assign column "false" df)
                df0 _) in *.
  destruct (setitems (elements (ms ∖ list_to_set (pd.columns df1)))
              "false" df1) as (Hc2 & Hi2 & Hr2).
  cbv zeta in Hc2, Hi2, Hr2.
  set (df2 := foldl (λ df column, pd.setitem column "false" df) df1 _) in *.
  injection H as <-. exists transformed. split; [done|]. split; [done|].
  assert (∀ c, c ∈ cols0 ↔ ∃ s, s ∈ transformed ∧ c ∈ pd.labels s) as Hcols0.
  { intros c. unfold cols0.
    rewrite elem_of_first_occurrences, list_elem_of_bind. naive_solver. }
  assert (∀ c, c ∈ pd.columns df2 ↔ c ∈ cols0 ∨ c ∈ ms ∖ list_to_set cols0)
    as Hcols2.
  { intros c. rewrite Hc2, Hc1, Hc0, elem_of_elements. done. }
  split; [|split].
  - intros c. cbn [pd.columns pd.replace pd.fillna pd.map_rows].
    rewrite Hcols2, <- Hcols0, elem_of_difference, elem_of_list_to_set.
    destruct (decide (c ∈ cols0)); tauto.
  - cbn [pd.index_name pd.replace pd.fillna pd.map_rows].
    by rewrite Hi2, Hi1.
  - cbn [pd.rows pd.columns pd.replace pd.fillna pd.map_rows].
    rewrite Hr2, Hr1, Hc1, Hc0. subst df0. cbn [pd.rows pd.set_index_name].
    rewrite !prod_map_rows_compose, <- list_fmap_compose.
    apply Forall2_fmap_r, Forall_Forall2_diag, Forall_forall.
    intros s Hs. cbn. split; [done|]. intros c Hc. unfold pd.cell.
    apply (assembled_cell ms cols0 (pd.columns df2)); [done| |done].
    intros c' Hc'. apply Hcols0. eauto.
Qed.

Lemma to_pandas_dataframe_is_Ok mds st transformed :
  mapM (λ md, _to_pandas_series HUMAN_SITE_INVARIANTS md
                (_construct_multiselect_map st)) mds = Ok transformed →
  Forall (λ s, NoDup (pd.labels s)) transformed →
  is_Ok (_to_pandas_dataframe HUMAN_SITE_INVARIANTS mds st).
Proof.
  intros Hmap Hnd. unfold _to_pandas_dataframe. rewrite Hmap.
  cbn [mbind result_bind]. unfold pd.of_series.
  rewrite decide_True by done. cbn [mbind result_bind]. by eexists.
Qed.

End Assemble_facts.

Lemma sample_1_multiselect_ok :
  multiselect_answers_ok Ex.map_1
    (first_submissions ∅ (survey_answers Ex.sample_1)).
Proof.
  intros s qid sn a mv Hs Hq Hm.
  change (s ∈ [mk_survey 1 [("q1", ("BLOOD_TYPE", Selections ["A+"]));
                            ("q2", ("AGE", Text (Ex.listed "12")))]]) in Hs.
  apply list_elem_of_singleton in Hs as ->. cbn [response template] in *.
  apply elem_of_cons in Hq as [[= -> -> ->]|Hq].
  - exists ["A+"]. split; [done|]. intros x ->%list_elem_of_singleton.
    vm_compute in Hm. injection Hm as <-. by eexists.
  - apply list_elem_of_singleton in Hq as [= -> -> ->].
    vm_compute in Hm. discriminate.
Qed.

Lemma sample_1_free_text_ok :
  free_text_answers_ok Ex.map_1
    (first_submissions ∅ (survey_answers Ex.sample_1)).
Proof.
  intros s qid sn a Hs Hq Hm.
  change (s ∈ [mk_survey 1 [("q1", ("BLOOD_TYPE", Selections ["A+"]));
                            ("q2", ("AGE", Text (Ex.listed "12")))]]) in Hs.
  apply list_elem_of_singleton in Hs as ->. cbn [response template] in *.
  apply elem_of_cons in Hq as [[= -> -> ->]|Hq].
  - vm_compute in Hm. discriminate.
  - apply list_elem_of_singleton in Hq as [= -> -> ->]. by eexists.
Qed.

Lemma flattener_precondition_witness :
  raises (_to_pandas_series ∅ Ex.human_sample Ex.map_1) ∧
  is_Ok (_to_pandas_series ∅ Ex.sample_1 Ex.map_1).
Proof.
  split.
  - apply (proj1 (flattener_precondition ∅ Ex.human_sample Ex.map_1)).
    intros [_ Hk]. destruct (Hk eq_refl) as [x Hx].
    vm_compute in Hx. discriminate.
  - apply (proj2 (proj2 (flattener_precondition ∅ Ex.sample_1 Ex.map_1))).
    + split; [exact sample_1_multiselect_ok|].
      intros Hh. vm_compute in Hh. discriminate.
    + exact sample_1_free_text_ok.
Defined.

(** C10, the statement of the specification fails: the second submission of
    template 1 answers a multiselect question with a text, and flattening
    still returns a series, since a later submission of a template is
    skipped. *)
Lemma later_submission_is_not_checked :
  ¬ (multiselect_answers_ok Ex.map_1 (survey_answers Ex.sample_dup) ∧
     site_known ∅ Ex.sample_dup) ∧
  _to_pandas_series ∅ Ex.sample_dup Ex.map_1
  = Ok (pd.mk_Series "b3" [("HOST_SUBJECT_ID", "host3");
                           ("COLLECTION_TIMESTAMP", "2020-03-03");
                           ("BLOOD_TYPE_B", "true")]).
Proof.
  split; [|vm_compute; reflexivity].
  intros [Hms _].
  destruct (Hms Ex.second_submission "q1" "BLOOD_TYPE" (Text "A+")
              (multi_values "BLOOD_TYPE" ["A+"; "A"; "B"]))
    as (sel & Hsel & _).
  - right. by left.
  - by left.
  - vm_compute. reflexivity.
  - discriminate.
Qed.

(** ** Redaction *)

Lemma filter_ext_elem {A} (P Q : A → Prop) `{∀ x, Decision (P x)}
    `{∀ x, Decision (Q x)} (l : list A) :
  (∀ x, x ∈ l → (P x ↔ Q x)) → filter P l = filter Q l.
Proof.
  induction l as [|x l IH]; intros Hext; [done|].
  rewrite !filter_cons.
  assert (filter P l = filter Q l) as ->
    by (apply IH; intros y Hy; apply Hext; by right).
  destruct (decide (P x)) as [HP|HP], (decide (Q x)) as [HQ|HQ];
    try done; exfalso; apply (Hext x (list_elem_of_here x l)) in HP || apply HP;
    tauto || (apply (Hext x (list_elem_of_here x l)); tauto).
Qed.

Lemma to_drop_private (columns : list string) c :
  c ∈ columns →
  let pm_remove : gset string :=
    list_to_set
      (Str.lower <$>
         filter (λ c, Str.startswith (Str.lower c) "pm_") columns) in
  (Str.lower c ∈ pm_remove ∪ list_to_set (Str.lower <$> EBI_REMOVE)) ↔
  private_column c = true.
Proof.
  intros Hc pm_remove. unfold private_column, pm_remove.
  rewrite elem_of_union, !elem_of_list_to_set, orb_true_iff,
    bool_decide_eq_true, list_elem_of_fmap.
  setoid_rewrite list_elem_of_filter.
  split; intros [H|H]; try tauto.
  - destruct H as (c' & Heq & Hpm & _). left. rewrite Heq.
    by apply Is_true_true.
  - left. exists c. split; [done|]. split; [by apply Is_true_true | done].
Qed.

Lemma drop_private_to_drop df :
  drop_private_columns df
  = pd.drop (filter (λ c, private_column c = true) (pd.columns df)) df.
Proof.
  unfold drop_private_columns. cbv zeta. f_equal.
  apply filter_ext_elem. intros c Hc. by apply to_drop_private.
Qed.

(** C8: redaction removes exactly the private columns: a column whose
    lower-cased name starts with "pm_" or is, lower-cased, a name of the
    denylist is not a column of the redacted table, whatever its cells; the
    other columns stay, in their order and with their cells; the rows and
    the name of the index stay. *)
Theorem private_columns_are_dropped (df : pd.DataFrame) :
  pd.columns (drop_private_columns df)
  = filter (λ c, private_column c = false) (pd.columns df) ∧
  (∀ c, private_column c = true → c ∉ pd.columns (drop_private_columns df)) ∧
  (∀ c, private_column c = false →
        (c ∈ pd.columns (drop_private_columns df) ↔ c ∈ pd.columns df)) ∧
  pd.index (drop_private_columns df) = pd.index df ∧
  pd.index_name (drop_private_columns df) = pd.index_name df ∧
  Forall2 (λ r r',
             r'.1 = r.1 ∧
             (∀ c, private_column c = false → pd.cell r'.2 c = pd.cell r.2 c) ∧
             (∀ c, c ∈ pd.columns df → private_column c = true →
                   pd.cell r'.2 c = None))
          (pd.rows df) (pd.rows (drop_private_columns df)) ∧
  private_column "ZIP_CODE" = true ∧
  private_column "zip_code" = true ∧
  private_column "pm_diet" = true ∧
  private_column "PM_Diet" = true.
Proof.
  rewrite drop_private_to_drop.
  set (to_drop := filter (λ c, private_column c = true) (pd.columns df)).
  assert (∀ c, c ∈ to_drop ↔ c ∈ pd.columns df ∧ private_column c = true)
    as Hdrop by (intros c; unfold to_drop; rewrite list_elem_of_filter; tauto).
  assert (pd.columns (pd.drop to_drop df)
          = filter (λ c, private_column c = false) (pd.columns df)) as Hcols.
  { unfold pd.drop. cbn [pd.columns]. apply filter_ext_elem.
    intros c Hc. rewrite Hdrop. destruct (private_column c); split; try done.
    - intros H. exfalso. by apply H.
    - intros _ [_ ?]. done. }
  split; [done|]. rewrite Hcols.
  split; [|split; [|split; [|split; [|split]]]].
  - intros c Hp. rewrite list_elem_of_filter, Hp. by intros [? _].
  - intros c Hp. rewrite list_elem_of_filter. tauto.
  - unfold pd.index, pd.drop. cbn [pd.rows].
    rewrite <- list_fmap_compose. apply list_fmap_ext. by intros i [n r].
  - done.
  - unfold pd.drop. cbn [pd.rows].
    apply Forall2_fmap_r, Forall_Forall2_diag, Forall_forall.
    intros [n r] _. cbn. split; [done|]. unfold pd.cell. split.
    + intros c Hp. apply option_eq. intros v.
      rewrite map_lookup_filter_Some. cbn. rewrite Hdrop.
      split; [by intros [? _]|]. intros Hv. split; [done|].
      intros [_ Hp']. congruence.
    + intros c Hc Hp. apply map_lookup_filter_None. right.
      intros v _. cbn. intros Hn. apply Hn, Hdrop. done.
  - repeat split; vm_compute; reflexivity.
Qed.

Lemma private_columns_are_dropped_witness :
  "ZIP_CODE" ∈ pd.columns Ex.private_table ∧
  ("ZIP_CODE" ∉ pd.columns (drop_private_columns Ex.private_table)) ∧
  ("HOST_SUBJECT_ID" ∈ pd.columns (drop_private_columns Ex.private_table) ↔
   "HOST_SUBJECT_ID" ∈ pd.columns Ex.private_table).
Proof.
  split; [|split].
  - apply (bool_decide_eq_true_1 _). vm_compute. reflexivity.
  - apply (proj1 (proj2 (private_columns_are_dropped Ex.private_table))).
    vm_compute. reflexivity.
  - apply (proj1 (proj2 (proj2
             (private_columns_are_dropped Ex.private_table)))).
    vm_compute. reflexivity.
Defined.

(** ** Repeated submissions of a template *)

Lemma first_submissions_templates (seen : gset Z) l t :
  (∃ s, s ∈ first_submissions seen l ∧ template s = t) ↔
  ((t ∉ seen) ∧ ∃ s, s ∈ l ∧ template s = t).
Proof.
  revert seen. induction l as [|s l IH]; intros seen; cbn [first_submissions].
  - split; [intros (x & Hx & _) | intros (_ & x & Hx & _)];
      by apply elem_of_nil in Hx.
  - destruct (decide (template s ∈ seen)) as [Hin|Hnin].
    + rewrite IH. split.
      * intros (Ht & x & Hx & Hxt). split; [done|]. exists x.
        split; [by right | done].
      * intros (Ht & x & Hx & Hxt). split; [done|].
        apply elem_of_cons in Hx as [->|Hx]; [congruence | eauto].
    + split.
      * intros (x & Hx & Hxt). apply elem_of_cons in Hx as [->|Hx].
        -- split; [congruence|]. exists s. split; [by left | done].
        -- destruct (proj1 (IH _) (ex_intro _ x (conj Hx Hxt)))
             as (Ht & y & Hy & Hyt).
           split; [set_solver|]. exists y. split; [by right | done].
      * intros (Ht & x & Hx & Hxt).
        destruct (decide (template s = t)) as [Hst|Hst].
        -- exists s. split; [by left | done].
        -- apply elem_of_cons in Hx as [->|Hx]; [done|].
           destruct (proj2 (IH (seen ∪ {[template s]})))
             as (y & Hy & Hyt).
           { split; [set_solver | eauto]. }
           exists y. split; [by right | done].
Qed.

Lemma observed_templates_keep_first md :
  observed_templates (keep_first md) = observed_templates md.
Proof.
  apply set_eq. intros t. rewrite !elem_of_observed_templates.
  unfold keep_first, with_survey_answers. cbn [survey_answers].
  rewrite first_submissions_templates. set_solver.
Qed.

Lemma templates_to_fetch_keep_first (mds : list metadata) :
  templates_to_fetch (keep_first <$> mds) = templates_to_fetch mds.
Proof.
  unfold templates_to_fetch. generalize (∅ : gmap Z template_ids).
  induction mds as [|md mds IH]; intros templates; [done|].
  rewrite fmap_cons. cbn [foldl]. rewrite IH. cbv zeta.
  by rewrite observed_templates_keep_first.
Qed.

Lemma fetch_observed_keep_first gst (mds : list metadata) :
  _fetch_observed_survey_templates gst (keep_first <$> mds)
  = _fetch_observed_survey_templates gst mds.
Proof.
  unfold _fetch_observed_survey_templates.
  by rewrite templates_to_fetch_keep_first.
Qed.

Section Repeated_facts.

Variable HUMAN_SITE_INVARIANTS : gmap string (list (string * string)).

Lemma to_pandas_series_keep_first md mm :
  _to_pandas_series HUMAN_SITE_INVARIANTS (keep_first md) mm
  = _to_pandas_series HUMAN_SITE_INVARIANTS md mm.
Proof.
  unfold _to_pandas_series, keep_first, with_survey_answers.
  cbn [sample_barcode host_subject_id md_source md_sample survey_answers].
  by rewrite <- survey_steps_first.
Qed.

Lemma to_pandas_dataframe_keep_first mds st :
  _to_pandas_dataframe HUMAN_SITE_INVARIANTS (keep_first <$> mds) st
  = _to_pandas_dataframe HUMAN_SITE_INVARIANTS mds st.
Proof.
  unfold _to_pandas_dataframe. cbv zeta.
  assert (mapM (λ md, _to_pandas_series HUMAN_SITE_INVARIANTS md
                        (_construct_multiselect_map st)) (keep_first <$> mds)
          = mapM (λ md, _to_pandas_series HUMAN_SITE_INVARIANTS md
                          (_construct_multiselect_map st)) mds) as ->; [|done].
  induction mds as [|md mds IH]; [done|].
  rewrite fmap_cons. cbn [mapM]. cbn [mapM] in IH.
  by rewrite to_pandas_series_keep_first, IH.
Qed.

End Repeated_facts.

(** ** Ignored templates *)

(** C3, the statement of the specification fails: the answers of a
    submission of the ignored template 10001 are flattened, and their column
    is a column of the table of the run. *)
Lemma ignored_template_adds_a_column :
  10001 ∈ TEMPLATES_TO_IGNORE ∧
  _to_pandas_series ∅ Ex.ignored_sample ∅
  = Ok (pd.mk_Series "b5" [("HOST_SUBJECT_ID", "host5");
                           ("COLLECTION_TIMESTAMP", "2020-05-05");
                           ("VIOSCREEN_FIBER", "12")]) ∧
  ∃ df,
    retrieve_metadata ∅ Ex.samples_b5 Ex.templates_500 ["b5"] = Ok (df, []) ∧
    pd.columns df
    = ["HOST_SUBJECT_ID"; "COLLECTION_TIMESTAMP"; "VIOSCREEN_FIBER"].
Proof.
  split; [|split].
  - apply (bool_decide_eq_true_1 _). vm_compute. reflexivity.
  - vm_compute. reflexivity.
  - eexists. split; [vm_compute; reflexivity|]. reflexivity.
Qed.

(** ** Duplicates and the run *)

Lemma mapM_Ok_Forall2 {A B} (f : A → result B) (l : list A) (k : list B) :
  mapM f l = Ok k → Forall2 (λ x y, f x = Ok y) l k.
Proof.
  revert k. induction l as [|x l IH]; intros k; cbn [mapM].
  - intros [= <-]. constructor.
  - destruct (f x) as [y|] eqn:Hx; [|done]. cbn.
    destruct (mapM f l) as [k'|]; [|done]. cbn. intros [= <-].
    constructor; [done | by apply IH].
Qed.

Lemma filter_duplicate_entries gss (barcodes l : list string) :
  filter (λ e, is_duplicate_entry e = true)
    (duplicate_entries barcodes ++ (sample_error gss <$> l))
  = duplicate_entries barcodes.
Proof.
  rewrite filter_app.
  assert (filter (λ e, is_duplicate_entry e = true) (sample_error gss <$> l)
          = []) as ->.
  { induction l as [|b l IH]; [done|]. rewrite fmap_cons, filter_cons.
    by rewrite decide_False by done. }
  rewrite app_nil_r. unfold duplicate_entries.
  destruct (_find_duplicates barcodes).2 as [e|] eqn:He; [|done].
  rewrite find_duplicates_error in He. case_decide; [done|].
  injection He as <-. rewrite filter_cons. by rewrite decide_True by done.
Qed.

Section Detector_facts.

Variable HUMAN_SITE_INVARIANTS : gmap string (list (string * string)).
Variable get_sample_surveys : string → Z * metadata.
Variable get_survey_template : string → string → Z → Z * survey_template.

Lemma to_pandas_series_name md mm s :
  _to_pandas_series HUMAN_SITE_INVARIANTS md mm = Ok s →
  pd.name s = sample_barcode md.
Proof.
  intros H.
  destruct (to_pandas_series_cases HUMAN_SITE_INVARIANTS md mm)
    as [(_ & _ & Hr)|(_ & inv & Hr)]; rewrite Hr in H; [done|].
  destruct (for_each _ _ _) as [st|]; [|done]. by injection H as <-.
Qed.

Lemma to_pandas_dataframe_index mds st df :
  _to_pandas_dataframe HUMAN_SITE_INVARIANTS mds st = Ok df →
  pd.index df = sample_barcode <$> mds.
Proof.
  intros H. apply to_pandas_dataframe_Ok in H
    as (transformed & Hmap & _ & _ & _ & Hrows).
  apply mapM_Ok_Forall2 in Hmap. unfold pd.index.
  assert (Forall2 (λ (s : pd.Series) (r : string * gmap string string),
                     r.1 = pd.name s) transformed (pd.rows df)) as Hnames
    by (eapply Forall2_impl; [exact Hrows | by intros s r [? _]]).
  clear Hrows. revert Hnames. generalize (pd.rows df).
  induction Hmap as [|md s mds ts Hs _ IH]; intros rows Hrows.
  - by apply Forall2_nil_inv_l in Hrows as ->.
  - apply Forall2_cons_inv_l in Hrows as (r & rows' & Hn & Hrows & ->).
    rewrite !fmap_cons, Hn, (to_pandas_series_name _ _ _ Hs).
    f_equal. by apply IH.
Qed.

End Detector_facts.

(** * Further properties of the code *)

(** ** The layout of a flattened record *)

Lemma selection_steps_items mv sel items items' :
  for_each (selection_step mv) items sel = Ok items' →
  items' = items ++ omap (λ x, (λ n, (n, "true")) <$> mv !! x) sel.
Proof.
  revert items. induction sel as [|x sel IH]; intros items; cbn [for_each].
  - intros [= <-]. by rewrite app_nil_r.
  - destruct (mv !! x) as [n|] eqn:Hx.
    + assert (selection_step mv items x = Ok (items ++ [(n, "true")])) as ->
        by (unfold selection_step; by rewrite Hx).
      cbn [mbind result_bind]. intros H. apply IH in H. rewrite H.
      cbn [omap list_omap]. rewrite Hx. cbn. by rewrite <- app_assoc.
    + assert (selection_step mv items x = Raise KeyError) as ->
        by (unfold selection_step; by rewrite Hx).
      done.
Qed.

Lemma question_step_items mm t items q items1 :
  question_step mm t items q = Ok items1 →
  items1 = items ++ question_items mm t q.
Proof.
  destruct q as [qid [sn a]]. unfold question_step, question_items.
  cbn [fst snd].
  destruct (mm !! (t, qid)) as [mv|]; destruct a as [text|sel]; try done.
  - apply selection_steps_items.
  - by intros [= <-].
Qed.

Lemma question_steps_items mm t qs items items' :
  for_each (question_step mm t) items qs = Ok items' →
  items' = items ++ (qs ≫= question_items mm t).
Proof.
  revert items. induction qs as [|q qs IH]; intros items; cbn [for_each].
  - intros [= <-]. by rewrite app_nil_r.
  - rewrite bind_cons.
    destruct (question_step mm t items q) as [items1|] eqn:Hq; [|done].
    cbn [mbind result_bind]. intros H. apply IH in H.
    apply question_step_items in Hq. by rewrite H, Hq, <- app_assoc.
Qed.

Lemma survey_steps_items mm l items (collected : gset Z) st :
  for_each (survey_step mm) (items, collected) l = Ok st →
  st.1 = items ++
         (first_submissions collected l ≫=
            λ s, response s ≫= question_items mm (template s)).
Proof.
  revert items collected. induction l as [|s l IH]; intros items collected;
    cbn [for_each first_submissions].
  - intros [= <-]. by rewrite app_nil_r.
  - destruct (decide (template s ∈ collected)) as [Hin|Hnin].
    + rewrite survey_step_seen by done. cbn. apply IH.
    + rewrite survey_step_new by done. rewrite bind_cons.
      destruct (for_each (question_step mm (template s)) items (response s))
        as [items1|] eqn:Hq; [|done].
      cbn. intros H. apply IH in H. apply question_steps_items in Hq.
      by rewrite H, Hq, <- app_assoc.
Qed.

Section Layout_facts.

Variable HUMAN_SITE_INVARIANTS : gmap string (list (string * string)).

Lemma to_pandas_series_items md mm s :
  _to_pandas_series HUMAN_SITE_INVARIANTS md mm = Ok s →
  s = pd.mk_Series (sample_barcode md)
        (base_items md ++ answer_items mm (survey_answers md) ++
         invariants_of HUMAN_SITE_INVARIANTS md).
Proof.
  unfold _to_pandas_series, invariants_of, answer_items, base_items.
  cbv zeta.
  destruct (decide (source_type (md_source md) = "human")) as [Hh|Hh].
  - destruct (HUMAN_SITE_INVARIANTS !! site (md_sample md)) as [inv|];
      [|done].
    cbn [mbind result_bind default].
    destruct (for_each _ _ _) as [[items c]|] eqn:Hl; [|done].
    apply survey_steps_items in Hl. cbn [fst] in Hl. cbn.
    intros [= <-]. by rewrite Hl, <- app_assoc.
  - assert ((st ← for_each (survey_step mm)
                      ([("HOST_SUBJECT_ID", host_subject_id md);
                        ("COLLECTION_TIMESTAMP",
                         datetime_collected (md_sample md))], ∅)
                      (survey_answers md);
               let '(items, _) := st in
               Ok (pd.mk_Series (sample_barcode md) (items ++ [])))
              = Ok s →
              s = pd.mk_Series (sample_barcode md)
                    ([("HOST_SUBJECT_ID", host_subject_id md);
                      ("COLLECTION_TIMESTAMP",
                       datetime_collected (md_sample md))] ++
                     (first_submissions ∅ (survey_answers md) ≫=
                        λ s, response s ≫= question_items mm (template s))
                     ++ [])) as Hgoal.
    { destruct (for_each _ _ _) as [[items c]|] eqn:Hl; [|done].
      apply survey_steps_items in Hl. cbn [fst] in Hl. cbn.
      intros [= <-]. by rewrite Hl, <- app_assoc. }
    destruct (decide (source_type (md_source md) = "animal"));
      cbn [mbind result_bind]; apply Hgoal.
Qed.

(** X1: a record that is produced is named by the barcode of the sample and
    holds, in this order, the host subject id and the collection timestamp,
    then the items of the first submission of each template in the order of
    the submissions and of their answers, then the invariants of the site. *)
Theorem flattened_record_layout md mm s :
  _to_pandas_series HUMAN_SITE_INVARIANTS md mm = Ok s →
  s = pd.mk_Series (sample_barcode md)
        (base_items md ++ answer_items mm (survey_answers md) ++
         invariants_of HUMAN_SITE_INVARIANTS md).
Proof. apply to_pandas_series_items. Qed.

End Layout_facts.

Lemma flattened_record_layout_witness :
  pd.mk_Series "b1" [("HOST_SUBJECT_ID", "host1");
                     ("COLLECTION_TIMESTAMP", "2020-01-01");
                     ("BLOOD_TYPE_A", "true"); ("AGE", "12")]
  = pd.mk_Series (sample_barcode Ex.sample_1)
      (base_items Ex.sample_1 ++
       answer_items Ex.map_1 (survey_answers Ex.sample_1) ++
       invariants_of ∅ Ex.sample_1).
Proof.
  apply (flattened_record_layout ∅ Ex.sample_1 Ex.map_1).
  vm_compute. reflexivity.
Defined.

(** ** Stripping a free-text answer *)

Lemma append_cons c (s t : string) :
  String c s +:+ t = String c (s +:+ t).
Proof. reflexivity. Qed.

Lemma append_nil_l (t : string) : "" +:+ t = t.
Proof. reflexivity. Qed.

Lemma append_assoc (s t u : string) : (s +:+ t) +:+ u = s +:+ (t +:+ u).
Proof.
  induction s as [|c s IH]; [done|]. by rewrite !append_cons, IH.
Qed.

Lemma lstrip_all p s : string_forall p s = true → Str.lstrip p s = "".
Proof.
  induction s as [|c s IH]; [done|]. cbn.
  intros [Hc Hs]%andb_true_iff. rewrite Hc. by apply IH.
Qed.

Lemma lstrip_prefix p pre r :
  string_forall p pre = true → Str.lstrip p (pre +:+ r) = Str.lstrip p r.
Proof.
  induction pre as [|c pre IH]; [done|]. cbn.
  intros [Hc Hs]%andb_true_iff. rewrite append_cons. cbn. rewrite Hc.
  by apply IH.
Qed.

Lemma rstrip_all p s : string_forall p s = true → Str.rstrip p s = "".
Proof.
  induction s as [|c s IH]; [done|]. cbn.
  intros [Hc Hs]%andb_true_iff. by rewrite IH, Hc.
Qed.

Lemma rstrip_suffix p s suf :
  string_forall p suf = true → Str.rstrip p (s +:+ suf) = Str.rstrip p s.
Proof.
  intros Hsuf. induction s as [|c s IH]; [by apply rstrip_all|].
  rewrite append_cons. cbn. by rewrite IH.
Qed.

Lemma lstrip_length p s : (String.length (Str.lstrip p s) ≤ String.length s)%nat.
Proof.
  induction s as [|c s IH]; [done|]. cbn. destruct (p c); cbn; lia.
Qed.

Lemma rstrip_length p s : (String.length (Str.rstrip p s) ≤ String.length s)%nat.
Proof.
  induction s as [|c s IH]; [done|]. cbn.
  destruct (Str.rstrip p s); [destruct (p c)|]; cbn in *; lia.
Qed.

Lemma strip_fixed p s :
  Str.strip p s = s → Str.lstrip p s = s ∧ Str.rstrip p s = s.
Proof.
  unfold Str.strip. intros H.
  assert (Str.lstrip p s = s) as Hl.
  { pose proof (rstrip_length p (Str.lstrip p s)) as H1.
    rewrite H in H1. destruct s as [|c s]; [done|]. cbn in *.
    destruct (p c); [|done].
    pose proof (lstrip_length p s). lia. }
  split; [done|]. by rewrite Hl in H.
Qed.

Lemma strip_wrapper p pre s suf :
  string_forall p pre = true → string_forall p suf = true →
  Str.strip p s = s →
  Str.strip p (pre +:+ s +:+ suf) = s.
Proof.
  intros Hpre Hsuf [Hl Hr]%strip_fixed. unfold Str.strip.
  rewrite lstrip_prefix by done.
  destruct s as [|c s].
  - rewrite append_nil_l, lstrip_all by done. done.
  - cbn in Hl. rewrite append_cons. cbn. destruct (p c) eqn:Hc.
    + pose proof (lstrip_length p s) as Hlen. rewrite Hl in Hlen.
      cbn in Hlen. lia.
    + rewrite <- append_cons, rstrip_suffix by done. done.
Qed.

(** X2: a free-text answer (one whose question is not in the column map) is
    recorded under the short name of its question with the brackets and
    double quotes around it removed: a text that neither starts nor ends
    with such a character comes out unchanged, wrapped or not. *)
Theorem free_text_wrapper_is_stripped
    (mm : gmap (Z * string) (gmap string string)) t items qid shortname
    pre text suf :
  mm !! (t, qid) = None →
  string_forall strip_chars pre = true →
  string_forall strip_chars suf = true →
  Str.strip strip_chars text = text →
  question_step mm t items (qid, (shortname, Text (pre +:+ text +:+ suf)))
  = Ok (items ++ [(shortname, text)]).
Proof.
  intros Hm Hpre Hsuf Htext. unfold question_step. rewrite Hm.
  by rewrite strip_wrapper.
Qed.

Lemma free_text_wrapper_is_stripped_witness :
  question_step Ex.map_1 1 []
    ("q2", ("AGE", Text (String "[" (String dquote "") +:+
                         "12" +:+ String dquote "]")))
  = Ok ([] ++ [("AGE", "12")]).
Proof.
  apply (free_text_wrapper_is_stripped Ex.map_1 1 [] "q2" "AGE"
           (String "[" (String dquote "")) "12" (String dquote "]")).
  - vm_compute. reflexivity.
  - vm_compute. reflexivity.
  - vm_compute. reflexivity.
  - vm_compute. reflexivity.
Defined.

(** ** The alphabet and the collisions of column names *)

Lemma replace_append old new (s t : string) :
  Str.replace old new (s +:+ t)
  = Str.replace old new s +:+ Str.replace old new t.
Proof.
  induction s as [|c s IH]; [done|].
  rewrite append_cons. cbn. by rewrite IH.
Qed.

Lemma re_sub_append (s t : string) :
  Str.re_sub_non_word (s +:+ t)
  = Str.re_sub_non_word s +:+ Str.re_sub_non_word t.
Proof.
  induction s as [|c s IH]; [done|].
  rewrite append_cons. cbn. rewrite IH. by destruct (Str.word_char c).
Qed.

Lemma reduced_append (s t : string) :
  reduced (s +:+ t) = reduced s +:+ reduced t.
Proof. unfold reduced. by rewrite !replace_append, re_sub_append. Qed.

Lemma word_char_not_replaced c :
  Str.word_char c = true →
  Ascii.eqb c " " = false ∧ Ascii.eqb c "-" = false.
Proof.
  intros Hc. split.
  - destruct (Ascii.eqb_spec c " ") as [->|]; [by vm_compute in Hc | done].
  - destruct (Ascii.eqb_spec c "-") as [->|]; [by vm_compute in Hc | done].
Qed.

Lemma reduced_word_string s :
  string_forall Str.word_char s = true → reduced s = s.
Proof.
  unfold reduced. induction s as [|c s IH]; [done|]. cbn.
  intros [Hc Hs]%andb_true_iff.
  destruct (word_char_not_replaced c Hc) as [-> ->]. rewrite Hc.
  by rewrite IH.
Qed.

Lemma re_sub_word_string s :
  string_forall Str.word_char (Str.re_sub_non_word s) = true.
Proof.
  induction s as [|c s IH]; [done|]. cbn.
  destruct (Str.word_char c) eqn:Hc; [|done]. cbn. by rewrite Hc.
Qed.

Lemma re_sub_length s :
  (String.length (Str.re_sub_non_word s) ≤ String.length s)%nat.
Proof.
  induction s as [|c s IH]; [done|]. cbn.
  destruct (Str.word_char c); cbn; lia.
Qed.

Lemma replace_length old new s :
  String.length (Str.replace old new s) = String.length s.
Proof. induction s as [|c s IH]; [done|]. cbn. by rewrite IH. Qed.

(** X3: the part of a column name that comes from the choice is made of
    characters of [0-9a-zA-Z_] only, is no longer than the choice, is left
    unchanged by a second reduction, and is the choice itself when the
    choice is made of such characters. *)
Theorem column_name_alphabet (base choice : string) :
  _build_col_name base choice = base +:+ "_" +:+ reduced choice ∧
  string_forall Str.word_char (reduced choice) = true ∧
  (String.length (reduced choice) ≤ String.length choice)%nat ∧
  reduced (reduced choice) = reduced choice ∧
  (string_forall Str.word_char choice = true → reduced choice = choice).
Proof.
  split; [done|]. split; [apply re_sub_word_string|].
  split; [|split].
  - unfold reduced. etrans; [apply re_sub_length|].
    by rewrite !replace_length.
  - apply reduced_word_string, re_sub_word_string.
  - apply reduced_word_string.
Qed.

Lemma column_name_alphabet_witness : reduced "red_wine" = "red_wine".
Proof.
  apply (proj2 (proj2 (proj2 (proj2
           (column_name_alphabet "ALCOHOL" "red_wine"))))).
  vm_compute. reflexivity.
Defined.

(** X4: two choices of a question get the same column name exactly when
    their reductions are equal, so choices made of characters of
    [0-9a-zA-Z_] never collide; and names are not unique across questions:
    the name of a choice x_c under the base b is the name of the choice c
    under the base b_x. *)
Theorem column_names_collide_iff :
  (∀ base c1 c2,
     _build_col_name base c1 = _build_col_name base c2 ↔
     reduced c1 = reduced c2) ∧
  (∀ base c1 c2,
     string_forall Str.word_char c1 = true →
     string_forall Str.word_char c2 = true →
     _build_col_name base c1 = _build_col_name base c2 → c1 = c2) ∧
  (∀ base x c,
     _build_col_name base (x +:+ "_" +:+ c)
     = _build_col_name (base +:+ "_" +:+ reduced x) c).
Proof.
  assert (∀ base c1 c2,
            _build_col_name base c1 = _build_col_name base c2 ↔
            reduced c1 = reduced c2) as Hiff.
  { intros base c1 c2. unfold _build_col_name. cbv zeta. fold (reduced c1).
    fold (reduced c2). split; [|by intros ->].
    intros H. apply (inj (String.append base)) in H.
    by apply (inj (String.append "_")) in H. }
  split; [done|]. split.
  - intros base c1 c2 H1 H2 H. apply Hiff in H.
    by rewrite !reduced_word_string in H.
  - intros base x c. unfold _build_col_name. cbv zeta.
    fold (reduced (x +:+ "_" +:+ c)). fold (reduced c).
    rewrite !reduced_append. by rewrite !append_assoc.
Qed.

Lemma column_names_collide_iff_witness :
  _build_col_name "BLOOD_TYPE" "A+" = _build_col_name "BLOOD_TYPE" "A".
Proof.
  apply (proj2 (proj1 column_names_collide_iff "BLOOD_TYPE" "A+" "A")).
  vm_compute. reflexivity.
Defined.

(** ** The entries of the column map *)

Lemma defining_field_None q fs :
  defining_field q fs = None ↔
  ∀ f, f ∈ fs → ¬ (field_multi f = true ∧ field_id f = q).
Proof.
  induction fs as [|g fs IH]; cbn [defining_field].
  - split; [|done]. intros _ f Hf. by apply elem_of_nil in Hf.
  - destruct (defining_field q fs) as [h|] eqn:Hd.
    + split; [done|]. intros H.
      apply defining_field_Some in Hd as (Hin & Hm & Hi).
      exfalso. apply (H h); [by right | done].
    + case_decide as Hg.
      * split; [done|]. intros H. exfalso. apply (H g); [by left | done].
      * split; [|done]. intros _ f Hf.
        apply elem_of_cons in Hf as [->|Hf]; [done|].
        by apply (proj1 IH).
Qed.

Lemma multi_values_dom base choices :
  dom (multi_values base choices) = list_to_set choices.
Proof.
  apply set_eq. intros c.
  rewrite elem_of_dom, multi_values_lookup, elem_of_list_to_set.
  case_decide as H.
  - split; [done | intros _; by eexists].
  - split; [by intros [? ?] | done].
Qed.

Lemma construct_lookup_Some (survey_templates : gmap Z survey_template)
    t q mv :
  _construct_multiselect_map survey_templates !! (t, q) = Some mv →
  ∃ tpl f,
    survey_templates !! t = Some tpl ∧
    defining_field q (all_fields tpl) = Some f ∧
    dom mv = list_to_set (field_values f) ∧
    ∀ c, c ∈ field_values f →
         mv !! c = Some (_build_col_name (field_shortname f) c).
Proof.
  rewrite construct_lookup. intros H.
  destruct (survey_templates !! t) as [tpl|] eqn:Ht; [|done]. cbn in H.
  unfold entry_of in H.
  destruct (defining_field q (all_fields tpl)) as [f|] eqn:Hd; [|done].
  injection H as <-. exists tpl, f. split; [done|]. split; [done|].
  split; [apply multi_values_dom|].
  intros c Hc. by rewrite multi_values_lookup, decide_True.
Qed.

(** X5: the column map has an entry for a template and a question exactly
    when the fetched template has a multiselect field with the id of the
    question; the keys of the entry are the enumerated values of the last
    such field, each sent to its column name. *)
Theorem column_map_entries (survey_templates : gmap Z survey_template) t q :
  (is_Some (_construct_multiselect_map survey_templates !! (t, q)) ↔
   ∃ tpl f, survey_templates !! t = Some tpl ∧ f ∈ all_fields tpl ∧
            field_multi f = true ∧ field_id f = q) ∧
  (∀ mv,
     _construct_multiselect_map survey_templates !! (t, q) = Some mv →
     ∃ tpl f,
       survey_templates !! t = Some tpl ∧
       defining_field q (all_fields tpl) = Some f ∧
       dom mv = list_to_set (field_values f) ∧
       ∀ c, c ∈ field_values f →
            mv !! c = Some (_build_col_name (field_shortname f) c)).
Proof.
  split; [|apply construct_lookup_Some]. rewrite construct_lookup.
  destruct (survey_templates !! t) as [tpl|] eqn:Ht; cbn.
  - unfold entry_of.
    destruct (defining_field q (all_fields tpl)) as [f|] eqn:Hd; cbn.
    + split; [|by eexists]. intros _.
      apply defining_field_Some in Hd as (? & ? & ?). by exists tpl, f.
    + split; [by intros [? ?]|]. intros (tpl' & f & [= <-] & Hf & Hm & Hi).
      exfalso. by apply (proj1 (defining_field_None q (all_fields tpl)) Hd f).
  - split; [by intros [? ?] | by intros (? & ? & ? & _)].
Qed.

Lemma column_map_entries_witness :
  ∃ tpl f,
    ({[ 1 := Ex.template_1 ]} : gmap Z survey_template) !! 1 = Some tpl ∧
    defining_field "q1" (all_fields tpl) = Some f ∧
    dom (multi_values "BLOOD_TYPE" ["A+"; "A"; "B"])
    = list_to_set (field_values f) ∧
    ∀ c, c ∈ field_values f →
         multi_values "BLOOD_TYPE" ["A+"; "A"; "B"] !! c
         = Some (_build_col_name (field_shortname f) c).
Proof.
  apply (proj2 (column_map_entries {[ 1 := Ex.template_1 ]} 1 "q1")).
  vm_compute. reflexivity.
Defined.

Lemma elem_of_all_multiselect_columns
    (mm : gmap (Z * string) (gmap string string)) c :
  c ∈ all_multiselect_columns mm ↔
  ∃ k mv choice, mm !! k = Some mv ∧ mv !! choice = Some c.
Proof.
  unfold all_multiselect_columns. rewrite elem_of_union_list. split.
  - intros (X & HX & Hc).
    apply list_elem_of_fmap in HX as (mv & -> & Hmv).
    apply list_elem_of_fmap in Hmv as ([k mv'] & -> & Hk).
    apply elem_of_map_to_list in Hk. cbn in Hc.
    apply elem_of_map_img in Hc as [choice Hc]. by exists k, mv', choice.
  - intros (k & mv & choice & Hk & Hc). exists (map_img mv). split.
    + apply list_elem_of_fmap. exists mv. split; [done|].
      apply list_elem_of_fmap. exists (k, mv). split; [done|].
      by apply elem_of_map_to_list.
    + apply elem_of_map_img. by exists choice.
Qed.

(** X6: the multiselect columns that the assembler back-fills are exactly
    the column names of the enumerated values of the multiselect fields that
    define an entry of the map. *)
Theorem multiselect_columns_are_the_choice_names
    (survey_templates : gmap Z survey_template) c :
  c ∈ all_multiselect_columns (_construct_multiselect_map survey_templates) ↔
  ∃ t tpl q f choice,
    survey_templates !! t = Some tpl ∧
    defining_field q (all_fields tpl) = Some f ∧
    choice ∈ field_values f ∧
    c = _build_col_name (field_shortname f) choice.
Proof.
  rewrite elem_of_all_multiselect_columns. split.
  - intros ([t q] & mv & choice & Hk & Hc).
    destruct (construct_lookup_Some survey_templates t q mv Hk)
      as (tpl & f & Ht & Hd & Hdom & Hval).
    assert (choice ∈ field_values f) as Hin.
    { apply (elem_of_list_to_set (C := gset string)). rewrite <- Hdom.
      apply elem_of_dom. by eexists. }
    exists t, tpl, q, f, choice. split; [done|]. split; [done|].
    split; [done|]. rewrite (Hval choice Hin) in Hc. by injection Hc.
  - intros (t & tpl & q & f & choice & Ht & Hd & Hin & ->).
    exists (t, q), (multi_values (field_shortname f) (field_values f)), choice.
    split.
    + rewrite construct_lookup, Ht. cbn. unfold entry_of. by rewrite Hd.
    + by rewrite multi_values_lookup, decide_True.
Qed.

(** ** The credentials and the outcome of the template fetch *)

Lemma observe_steps_lookup a src (l : list Z)
    (templates : gmap Z template_ids) t :
  foldl (observe_step a src) templates l !! t
  = match templates !! t with
    | Some ids => Some ids
    | None =>
        if decide (t ∈ l)
        then Some {| ids_account_id := a; ids_source_id := src;
                     ids_template_id := None |}
        else None
    end.
Proof.
  revert templates. induction l as [|x l IH]; intros templates; cbn [foldl].
  - destruct (templates !! t); [done|].
    by rewrite decide_False by apply not_elem_of_nil.
  - rewrite IH. unfold observe_step.
    destruct (decide (t = x)) as [->|Hne].
    + destruct (templates !! x) as [ids|] eqn:Hx; rewrite ?Hx; [done|].
      rewrite lookup_insert_eq. by rewrite decide_True by (by left).
    + assert ((t ∈ x :: l) ↔ t ∈ l) as Hiff
        by (rewrite elem_of_cons; tauto).
      destruct (templates !! x) as [ids|] eqn:Hx.
      * destruct (templates !! t); [done|].
        destruct (decide (t ∈ l)).
        -- by rewrite decide_True by (by apply Hiff).
        -- by rewrite decide_False by (by rewrite Hiff).
      * rewrite lookup_insert_ne by done.
        destruct (templates !! t); [done|].
        destruct (decide (t ∈ l)).
        -- by rewrite decide_True by (by apply Hiff).
        -- by rewrite decide_False by (by rewrite Hiff).
Qed.

Lemma templates_fold_lookup (mds : list metadata)
    (templates : gmap Z template_ids) t :
  foldl (λ templates bc_md,
     let account_id := account_id (md_account bc_md) in
     let source_id := source_id (md_source bc_md) in
     foldl (observe_step account_id source_id)
       templates (elements (observed_templates bc_md)))
    templates mds !! t
  = match templates !! t with
    | Some ids => Some ids
    | None => first_credentials mds t
    end.
Proof.
  revert templates. induction mds as [|md mds IH]; intros templates;
    cbn [foldl first_credentials].
  - by destruct (templates !! t).
  - rewrite IH. cbv zeta. rewrite observe_steps_lookup.
    destruct (templates !! t); [done|].
    destruct (decide (t ∈ observed_templates md)) as [Hin|Hnin].
    + by rewrite decide_True by (by apply elem_of_elements).
    + by rewrite decide_False by (by rewrite elem_of_elements).
Qed.

Lemma first_credentials_Some mds t ids :
  first_credentials mds t = Some ids →
  ∃ md, md ∈ mds ∧ t ∈ observed_templates md ∧
        ids = {| ids_account_id := account_id (md_account md);
                 ids_source_id := source_id (md_source md);
                 ids_template_id := None |}.
Proof.
  induction mds as [|md mds IH]; cbn [first_credentials]; [done|].
  case_decide as Hin.
  - intros [= <-]. exists md. split; [by left | done].
  - intros (md' & Hmd & H)%IH. exists md'. split; [by right | done].
Qed.

(** X7: the credentials with which a template is requested are the account
    and the source of the first fetched sample that has a submission of it;
    in particular they belong to a sample that references the template, and
    a template no sample references, or an ignored one, is not requested. *)
Theorem template_credentials (mds : list metadata) t :
  templates_to_fetch mds !! t = first_credentials mds t ∧
  (∀ ids, templates_to_fetch mds !! t = Some ids →
     ∃ md s, md ∈ mds ∧ s ∈ survey_answers md ∧ template s = t ∧
             (t ∉ TEMPLATES_TO_IGNORE) ∧
             ids_account_id ids = account_id (md_account md) ∧
             ids_source_id ids = source_id (md_source md)) ∧
  ((∀ md s, md ∈ mds → s ∈ survey_answers md → template s ≠ t) →
   templates_to_fetch mds !! t = None).
Proof.
  assert (templates_to_fetch mds !! t = first_credentials mds t) as Heq.
  { unfold templates_to_fetch. by rewrite templates_fold_lookup, lookup_empty. }
  split; [done|]. rewrite Heq. split.
  - intros ids (md & Hmd & Hobs & ->)%first_credentials_Some.
    apply elem_of_observed_templates in Hobs as (Hign & s & Hs & Ht).
    by exists md, s.
  - intros Hnone. destruct (first_credentials mds t) as [ids|] eqn:Hf; [|done].
    apply first_credentials_Some in Hf as (md & Hmd & Hobs & _).
    apply elem_of_observed_templates in Hobs as (_ & s & Hs & Ht).
    by destruct (Hnone md s Hmd Hs).
Qed.

Lemma template_credentials_witness :
  ∃ md s, md ∈ [Ex.sample_1] ∧ s ∈ survey_answers md ∧ template s = 1 ∧
          (1 ∉ TEMPLATES_TO_IGNORE) ∧
          ids_account_id (mk_ids "acc1" "src1" None)
          = account_id (md_account md) ∧
          ids_source_id (mk_ids "acc1" "src1" None)
          = source_id (md_source md).
Proof.
  apply (proj1 (proj2 (template_credentials [Ex.sample_1] 1))).
  vm_compute. reflexivity.
Defined.

Section Template_outcome.

Variable get_survey_template : string → string → Z → Z * survey_template.

(** X8: the template fetch reports no error exactly when every requested
    template is answered with status 200; the fetched templates are then the
    bodies of the answers, one for each template some sample references
    outside the ignored set. *)
Theorem templates_all_fetched (mds : list metadata) :
  ((_fetch_observed_survey_templates get_survey_template mds).2 = None ↔
   ∀ t ids, templates_to_fetch mds !! t = Some ids →
            template_status get_survey_template t ids = 200) ∧
  ((_fetch_observed_survey_templates get_survey_template mds).2 = None →
   (∀ t,
      (_fetch_observed_survey_templates get_survey_template mds).1 !! t
      = (λ ids, (get_survey_template (ids_account_id ids)
                   (ids_source_id ids) t).2) <$>
          templates_to_fetch mds !! t) ∧
   dom (_fetch_observed_survey_templates get_survey_template mds).1
   = ⋃ (observed_templates <$> mds)).
Proof.
  destruct (_fetch_observed_survey_templates get_survey_template mds)
    as [surveys st_errors] eqn:Hobs. cbn [fst snd].
  apply fetch_observed_spec in Hobs as (errors & -> & Hs & He).
  assert (errors = ∅ ↔
          ∀ t ids, templates_to_fetch mds !! t = Some ids →
                   template_status get_survey_template t ids = 200) as Hiff.
  { split.
    - intros -> t ids Ht. specialize (He t).
      rewrite lookup_empty, Ht in He. cbn in He.
      rewrite fetch_failure_spec in He.
      destruct (decide (template_status get_survey_template t ids = 200));
        [done|].
      by rewrite decide_True in He.
    - intros Hall. apply map_eq. intros t. rewrite He, lookup_empty.
      destruct (templates_to_fetch mds !! t) as [ids|] eqn:Ht; [|done].
      cbn. rewrite fetch_failure_spec.
      rewrite decide_False; [done|]. intros Hn. by apply Hn, Hall. }
  split.
  - rewrite <- Hiff. by case_decide.
  - intros Hnone.
    assert (errors = ∅) as Hempty by (by case_decide).
    pose proof (proj1 Hiff Hempty) as Hall.
    assert (∀ t, surveys !! t
                 = (λ ids, (get_survey_template (ids_account_id ids)
                              (ids_source_id ids) t).2) <$>
                     templates_to_fetch mds !! t) as Hlook.
    { intros t. rewrite Hs.
      destruct (templates_to_fetch mds !! t) as [ids|] eqn:Ht; [|done].
      cbn. rewrite fetched_survey_spec. by rewrite decide_True by eauto. }
    split; [done|]. rewrite <- templates_to_fetch_dom.
    apply set_eq. intros t. rewrite !elem_of_dom, Hlook.
    by rewrite fmap_is_Some.
Qed.

End Template_outcome.

Lemma templates_all_fetched_witness :
  (∀ t,
     (_fetch_observed_survey_templates Ex.templates_1 [Ex.sample_1]).1 !! t
     = (λ ids, (Ex.templates_1 (ids_account_id ids) (ids_source_id ids) t).2)
         <$> templates_to_fetch [Ex.sample_1] !! t) ∧
  dom (_fetch_observed_survey_templates Ex.templates_1 [Ex.sample_1]).1
  = ⋃ (observed_templates <$> [Ex.sample_1]).
Proof.
  apply (proj2 (templates_all_fetched Ex.templates_1 [Ex.sample_1])).
  vm_compute. reflexivity.
Defined.

(** ** The shape of the assembled table *)

Lemma expected_cell_nonempty (ms : gset string) c raw :
  expected_cell ms c raw ≠ "".
Proof.
  unfold expected_cell. destruct raw as [v|].
  - by case_decide.
  - by case_decide.
Qed.

Lemma setitems_NoDup cs v df :
  NoDup (pd.columns df) →
  NoDup (pd.columns (foldl (λ df column, pd.setitem column v df) df cs)).
Proof.
  revert df. induction cs as [|c cs IH]; intros df Hnd; cbn [foldl]; [done|].
  apply IH. unfold pd.setitem. cbn [pd.columns]. case_decide as Hc; [done|].
  apply NoDup_app. split; [done|]. split; [|apply NoDup_singleton].
  intros x Hx ->%list_elem_of_singleton. done.
Qed.

Lemma first_occurrences_NoDup (l : list string) :
  NoDup (pd.first_occurrences l).
Proof.
  unfold pd.first_occurrences. rewrite reverse_Permutation.
  apply NoDup_remove_dups.
Qed.

Lemma loc_isnull_assigns_columns cs v df :
  pd.columns (foldl (λ df column, pd.loc_isnull_assign column v df) df cs)
  = pd.columns df.
Proof. by destruct (loc_isnull_assigns cs v df) as (H & _). Qed.

Section Table_facts.

Variable HUMAN_SITE_INVARIANTS : gmap string (list (string * string)).

Lemma to_pandas_dataframe_columns_NoDup mds st df :
  _to_pandas_dataframe HUMAN_SITE_INVARIANTS mds st = Ok df →
  NoDup (pd.columns df).
Proof.
  unfold _to_pandas_dataframe.
  destruct (mapM _ mds) as [transformed|]; [|done].
  cbn [mbind result_bind]. unfold pd.of_series.
  case_decide; [|done]. cbn [mbind result_bind]. cbv zeta.
  intros [= <-]. cbn [pd.columns pd.replace pd.fillna pd.map_rows].
  apply setitems_NoDup. rewrite loc_isnull_assigns_columns.
  apply first_occurrences_NoDup.
Qed.

Lemma assembled_cells mds st df r c :
  _to_pandas_dataframe HUMAN_SITE_INVARIANTS mds st = Ok df →
  r ∈ pd.rows df → c ∈ pd.columns df →
  ∃ v, pd.cell r.2 c = Some v ∧ v ≠ "".
Proof.
  intros (transformed & _ & _ & _ & _ & Hrows)%to_pandas_dataframe_Ok Hr Hc.
  apply list_elem_of_lookup in Hr as [i Hi].
  destruct (Forall2_lookup_r _ _ _ _ _ Hrows Hi) as (s & _ & _ & Hcell).
  eexists. split; [by apply Hcell | apply expected_cell_nonempty].
Qed.

Lemma base_columns_present mds st df :
  _to_pandas_dataframe HUMAN_SITE_INVARIANTS mds st = Ok df →
  mds ≠ [] →
  "HOST_SUBJECT_ID" ∈ pd.columns df ∧ "COLLECTION_TIMESTAMP" ∈ pd.columns df.
Proof.
  intros (transformed & Hmap & _ & Hcols & _ & _)%to_pandas_dataframe_Ok Hne.
  apply mapM_Ok_Forall2 in Hmap.
  destruct Hmap as [|md s mds' ts Hs _]; [done|].
  apply to_pandas_series_items in Hs.
  assert (s ∈ s :: ts) as Hin by (by left).
  split; apply Hcols; right; exists s; (split; [done|]);
    rewrite Hs; unfold pd.labels, base_items; cbn [pd.items];
    rewrite fmap_app; apply elem_of_app; left;
    rewrite !fmap_cons; cbn [fst].
  - by left.
  - right. by left.
Qed.

(** X9: the assembled table has one row per sample, in the order of the
    samples and labelled with their barcodes; its index is named
    sample_name; no column label is repeated; with at least one sample the
    two base columns are columns of the table. *)
Theorem assembled_table_shape mds st df :
  _to_pandas_dataframe HUMAN_SITE_INVARIANTS mds st = Ok df →
  pd.index df = sample_barcode <$> mds ∧
  length (pd.rows df) = length mds ∧
  pd.index_name df = Some "sample_name" ∧
  NoDup (pd.columns df) ∧
  (mds ≠ [] →
   "HOST_SUBJECT_ID" ∈ pd.columns df ∧
   "COLLECTION_TIMESTAMP" ∈ pd.columns df).
Proof.
  intros Hdf.
  pose proof (to_pandas_dataframe_index _ _ _ _ Hdf) as Hidx.
  split; [done|]. split.
  - unfold pd.index in Hidx.
    by rewrite <- (length_fmap fst), Hidx, length_fmap.
  - split.
    + by apply to_pandas_dataframe_Ok in Hdf as (? & _ & _ & _ & ? & _).
    + split; [by eapply to_pandas_dataframe_columns_NoDup|].
      by apply (base_columns_present mds st).
Qed.

End Table_facts.

Lemma assembled_table_shape_witness :
  pd.index Ex.table_1 = sample_barcode <$> [Ex.sample_1] ∧
  length (pd.rows Ex.table_1) = length [Ex.sample_1] ∧
  pd.index_name Ex.table_1 = Some "sample_name" ∧
  NoDup (pd.columns Ex.table_1) ∧
  ([Ex.sample_1] ≠ [] →
   "HOST_SUBJECT_ID" ∈ pd.columns Ex.table_1 ∧
   "COLLECTION_TIMESTAMP" ∈ pd.columns Ex.table_1).
Proof.
  apply (assembled_table_shape ∅ [Ex.sample_1] {[ 1 := Ex.template_1 ]}).
  vm_compute. reflexivity.
Defined.

(** ** Redaction, again *)

Lemma filter_not_elem_of_nil (l : list string) :
  filter (λ c, c ∉ ([] : list string)) l = l.
Proof.
  induction l as [|x l IH]; [done|].
  rewrite filter_cons, decide_True by apply not_elem_of_nil. by rewrite IH.
Qed.

Lemma drop_nil df : pd.drop [] df = df.
Proof.
  destruct df as [cols iname rows]. unfold pd.drop.
  cbn [pd.columns pd.index_name pd.rows]. f_equal.
  - apply filter_not_elem_of_nil.
  - induction rows as [|[n r] rows IH]; [done|].
    rewrite fmap_cons, IH. cbn. f_equal. f_equal.
    apply map_filter_id. intros i x _. apply not_elem_of_nil.
Qed.

Lemma drop_rows (to_drop : list string) df r' :
  r' ∈ pd.rows (pd.drop to_drop df) →
  ∃ r, r ∈ pd.rows df ∧ r'.1 = r.1 ∧
       ∀ c, c ∉ to_drop → pd.cell r'.2 c = pd.cell r.2 c.
Proof.
  unfold pd.drop. cbn [pd.rows]. intros ([n r] & -> & Hr)%list_elem_of_fmap.
  exists (n, r). split; [done|]. split; [done|]. cbn. unfold pd.cell.
  intros c Hc. apply option_eq. intros v.
  rewrite map_lookup_filter_Some. cbn. tauto.
Qed.

(** X10: redaction is idempotent: redacting a redacted table changes
    nothing. *)
Theorem redaction_is_idempotent (df : pd.DataFrame) :
  drop_private_columns (drop_private_columns df) = drop_private_columns df.
Proof.
  rewrite (drop_private_to_drop (drop_private_columns df)).
  assert (filter (λ c, private_column c = true)
            (pd.columns (drop_private_columns df)) = []) as ->.
  { apply elem_of_nil_inv. intros c.
    rewrite list_elem_of_filter, drop_private_to_drop.
    unfold pd.drop. cbn [pd.columns].
    rewrite !list_elem_of_filter. tauto. }
  apply drop_nil.
Qed.

Section Redacted_table.

Variable HUMAN_SITE_INVARIANTS : gmap string (list (string * string)).

(** X11: redaction after assembly leaves a complete table: no column of
    the redacted table is private, and every cell of it holds a value that
    is not the empty string. *)
Theorem redacted_table_is_complete mds st df :
  _to_pandas_dataframe HUMAN_SITE_INVARIANTS mds st = Ok df →
  ∀ r c,
    r ∈ pd.rows (drop_private_columns df) →
    c ∈ pd.columns (drop_private_columns df) →
    private_column c = false ∧
    ∃ v, pd.cell r.2 c = Some v ∧ v ≠ "".
Proof.
  intros Hdf r' c. rewrite drop_private_to_drop.
  intros (r & Hr & _ & Hcell)%drop_rows Hc.
  unfold pd.drop in Hc. cbn [pd.columns] in Hc.
  apply list_elem_of_filter in Hc as [Hnot Hc].
  rewrite list_elem_of_filter in Hnot.
  assert (private_column c = false) as Hp
    by (destruct (private_column c); [exfalso; by apply Hnot | done]).
  split; [done|].
  rewrite Hcell by (rewrite list_elem_of_filter; intros [? _]; congruence).
  by eapply assembled_cells.
Qed.

End Redacted_table.

Lemma redacted_table_is_complete_witness :
  private_column "HOST_SUBJECT_ID" = false ∧
  ∃ v, pd.cell Ex.private_row.2 "HOST_SUBJECT_ID" = Some v ∧ v ≠ "".
Proof.
  apply (redacted_table_is_complete ∅ [Ex.private_sample] ∅
           Ex.private_table).
  - vm_compute. reflexivity.
  - apply list_elem_of_here.
  - apply list_elem_of_here.
Defined.

(** ** The batch as a multiset and as a set *)

Lemma multiplicity_perm b (l l' : list string) :
  l ≡ₚ l' → multiplicity b l = multiplicity b l'.
Proof. intros H. unfold multiplicity. by rewrite H. Qed.

(** X12: the duplicate check does not depend on the order of the batch:
    batches that are permutations of each other have the same set of
    duplicates, and both have no error or both have an entry that lists the
    same identifiers, possibly in another order; and the check reports only
    identifiers of the batch. *)
Theorem duplicate_check_ignores_order :
  (∀ l l' : list string,
     l ≡ₚ l' →
     (_find_duplicates l).1 = (_find_duplicates l').1 ∧
     match (_find_duplicates l).2, (_find_duplicates l').2 with
     | None, None => True
     | Some (BarcodesError x m), Some (BarcodesError y m') => x ≡ₚ y ∧ m = m'
     | _, _ => False
     end) ∧
  (∀ (l : list string) b, b ∈ (_find_duplicates l).1 → b ∈ l).
Proof.
  split.
  - intros l l' H.
    assert ((_find_duplicates l).1 = (_find_duplicates l').1) as Hd.
    { apply set_eq. intros b.
      by rewrite !elem_of_duplicates, (multiplicity_perm b l l' H). }
    split; [done|]. rewrite !find_duplicates_error, Hd.
    destruct (decide (NoDup l)) as [Hn|Hn], (decide (NoDup l')) as [Hn'|Hn'];
      try done.
    + apply Hn'. by rewrite <- H.
    + apply Hn. by rewrite H.
  - intros l b Hb%elem_of_duplicates.
    destruct (decide (b ∈ l)) as [|Hn]; [done|].
    apply multiplicity_0 in Hn. lia.
Qed.

Lemma duplicate_check_ignores_order_witness :
  (_find_duplicates ["b1"; "b2"; "b1"]).1
  = (_find_duplicates ["b1"; "b1"; "b2"]).1 ∧
  match (_find_duplicates ["b1"; "b2"; "b1"]).2,
        (_find_duplicates ["b1"; "b1"; "b2"]).2 with
  | None, None => True
  | Some (BarcodesError x m), Some (BarcodesError y m') => x ≡ₚ y ∧ m = m'
  | _, _ => False
  end.
Proof.
  apply (proj1 duplicate_check_ignores_order).
  apply perm_skip, perm_swap.
Defined.

Section Batch_facts.

Variable HUMAN_SITE_INVARIANTS : gmap string (list (string * string)).
Variable get_sample_surveys : string → Z * metadata.
Variable get_survey_template : string → string → Z → Z * survey_template.

(** X14: the report of a run is ordered: the duplicate entry, if any, then
    one entry per failed sample fetch, then at most one closing entry.  A
    run that closes its report with the terminal entry or with the template
    errors returns the empty table; a run without closing entry returns the
    table whose rows are the fetched samples. *)
Theorem report_shape barcodes df report :
  let l := elements (list_to_set barcodes : gset string) in
  retrieve_metadata HUMAN_SITE_INVARIANTS get_sample_surveys
    get_survey_template barcodes = Ok (df, report) →
  ∃ closing,
    report = duplicate_entries barcodes ++
             (sample_error get_sample_surveys <$>
                failed_barcodes get_sample_surveys l) ++ closing ∧
    ((closing = [] ∧ fetched_barcodes get_sample_surveys l ≠ [] ∧
      pd.index df
      = (λ b, sample_barcode (sample_payload get_sample_surveys b)) <$>
          fetched_barcodes get_sample_surveys l) ∨
     (closing = [PlainError "No metadata was obtained"] ∧ df = pd.empty ∧
      fetched_barcodes get_sample_surveys l = []) ∨
     (∃ errors, closing = [TemplateErrors errors] ∧ errors ≠ ∅ ∧
                df = pd.empty ∧
                fetched_barcodes get_sample_surveys l ≠ [])).
Proof.
  intros l. rewrite retrieve_metadata_unfold. fold l.
  destruct (decide (fetched_barcodes get_sample_surveys l = [])) as [He|Hne].
  - intros [= <- <-]. exists [PlainError "No metadata was obtained"].
    split; [by rewrite <- app_assoc|]. right. by left.
  - destruct (_fetch_observed_survey_templates _ _) as [st [e|]] eqn:Hobs.
    + intros [= <- <-]. exists [TemplateErrors e].
      split; [by rewrite <- app_assoc|]. right. right. exists e.
      split; [done|]. split; [|done].
      apply fetch_observed_spec in Hobs as (errors & Hst & _).
      case_decide; [done|]. by injection Hst as ->.
    + destruct (_to_pandas_dataframe _ _ _) as [df'|] eqn:Hdf; [|done].
      intros [= <- <-]. exists []. split; [by rewrite app_nil_r|].
      left. split; [done|]. split; [done|].
      rewrite (to_pandas_dataframe_index _ _ _ _ Hdf).
      by rewrite <- list_fmap_compose.
Qed.

Lemma mapM_Raise {A B} (f : A → result B) pre x post e :
  Forall (λ y, is_Ok (f y)) pre → f x = Raise e →
  mapM f (pre ++ x :: post) = Raise e.
Proof.
  intros Hpre Hx. induction Hpre as [|y pre [b Hy] _ IH]; cbn [mapM app].
  - by rewrite Hx.
  - cbn [mapM] in IH. by rewrite Hy, IH.
Qed.

(** X15: an exception raised while a sample is flattened is not recorded in
    the report: the assembly raises the exception of the first sample that
    fails, and the run raises it too, returning neither table nor report. *)
Theorem flattening_exception_aborts_the_run :
  (∀ st pre md post e,
     Forall (λ m, is_Ok (_to_pandas_series HUMAN_SITE_INVARIANTS m
                           (_construct_multiselect_map st))) pre →
     _to_pandas_series HUMAN_SITE_INVARIANTS md
       (_construct_multiselect_map st) = Raise e →
     _to_pandas_dataframe HUMAN_SITE_INVARIANTS (pre ++ md :: post) st
     = Raise e) ∧
  (∀ barcodes st e,
     let fetched :=
       sample_payload get_sample_surveys <$>
         fetched_barcodes get_sample_surveys
           (elements (list_to_set barcodes : gset string)) in
     _fetch_observed_survey_templates get_survey_template fetched
     = (st, None) →
     _to_pandas_dataframe HUMAN_SITE_INVARIANTS fetched st = Raise e →
     retrieve_metadata HUMAN_SITE_INVARIANTS get_sample_surveys
       get_survey_template barcodes = Raise e).
Proof.
  split.
  - intros st pre md post e Hpre Hmd. unfold _to_pandas_dataframe.
    by rewrite (mapM_Raise _ pre md post e Hpre Hmd).
  - intros barcodes st e fetched Hobs Hdf.
    rewrite retrieve_metadata_unfold. fold fetched.
    case_decide as Hnil.
    + exfalso. unfold fetched in Hdf. rewrite Hnil, fmap_nil in Hdf.
      destruct (to_pandas_dataframe_is_Ok HUMAN_SITE_INVARIANTS [] st []
                  eq_refl (Forall_nil_2 _)) as [df' Hok].
      congruence.
    + by rewrite Hobs, Hdf.
Qed.

End Batch_facts.

Lemma report_shape_witness :
  ∃ closing,
    [BarcodeError "b9" "404 from api";
     PlainError "No metadata was obtained"]
    = duplicate_entries ["b9"] ++
      (sample_error Ex.samples_b1 <$>
         failed_barcodes Ex.samples_b1
           (elements (list_to_set ["b9"] : gset string))) ++ closing ∧
    ((closing = [] ∧
      fetched_barcodes Ex.samples_b1
        (elements (list_to_set ["b9"] : gset string)) ≠ [] ∧
      pd.index pd.empty
      = (λ b, sample_barcode (sample_payload Ex.samples_b1 b)) <$>
          fetched_barcodes Ex.samples_b1
            (elements (list_to_set ["b9"] : gset string))) ∨
     (closing = [PlainError "No metadata was obtained"] ∧
      pd.empty = pd.empty ∧
      fetched_barcodes Ex.samples_b1
        (elements (list_to_set ["b9"] : gset string)) = []) ∨
     (∃ errors, closing = [TemplateErrors errors] ∧ errors ≠ ∅ ∧
                pd.empty = pd.empty ∧
                fetched_barcodes Ex.samples_b1
                  (elements (list_to_set ["b9"] : gset string)) ≠ [])).
Proof.
  apply (report_shape ∅ Ex.samples_b1 Ex.templates_1 ["b9"] pd.empty).
  vm_compute. reflexivity.
Defined.

Lemma flattening_exception_aborts_the_run_witness :
  _to_pandas_dataframe ∅ ([] ++ Ex.human_sample :: [Ex.sample_1])
    {[ 1 := Ex.template_1 ]}
  = Raise KeyError.
Proof.
  apply (proj1 (flattening_exception_aborts_the_run ∅ Ex.samples_b1
                  Ex.templates_1)).
  - constructor.
  - vm_compute. reflexivity.
Defined.

(** ** The column of an uploaded file *)

Section Upload_facts.

Variable read_csv : FileStorage → option pd.DataFrame.

Lemma parse_request_csv_col_cases (files : gmap string FileStorage)
    file_name col_name :
  match files !! file_name with
  | None =>
      parse_request_csv_col read_csv files file_name col_name
      = Ok (None, Some "Must specify a valid file")
  | Some request_file =>
      match files !! "file" with
      | None =>
          parse_request_csv_col read_csv files file_name col_name
          = Raise KeyError
      | Some f =>
          if decide (filename f = Some "") then
            parse_request_csv_col read_csv files file_name col_name
            = Ok (None, Some "Must specify a valid file")
          else
            match read_csv request_file with
            | None =>
                parse_request_csv_col read_csv files file_name col_name
                = Ok (None, Some "Could not parse csv file")
            | Some df =>
                if decide (col_name ∈ pd.columns df) then
                  parse_request_csv_col read_csv files file_name col_name
                  = Ok (Some ((λ r, pd.cell r.2 col_name) <$> pd.rows df),
                        None)
                else
                  parse_request_csv_col read_csv files file_name col_name
                  = Ok (None, Some "Could not parse csv file")
            end
      end
  end.
Proof.
  unfold parse_request_csv_col.
  destruct (files !! file_name) as [rf|]; [|done].
  destruct (files !! "file") as [f|]; [|done].
  cbn [mbind result_bind].
  destruct (decide (filename f = Some "")) as [Hf|Hf].
  - by rewrite bool_decide_eq_true_2.
  - rewrite bool_decide_eq_false_2 by done.
    destruct (read_csv rf) as [df|]; [|done]. cbn.
    unfold column_tolist. by case_decide.
Qed.

(** X16: parsing an upload returns a column or an error message, never
    both and never neither.  A column is returned only when the named file
    is in the request, the file of the field "file" has a non-empty name,
    the csv is read and has the column; the column then has one cell per
    row.  The two messages tell a missing or unnamed file from a file that
    cannot be read or lacks the column. *)
Theorem upload_outcomes (files : gmap string FileStorage)
    file_name col_name col err :
  parse_request_csv_col read_csv files file_name col_name = Ok (col, err) →
  (err = None ∧
   ∃ request_file f df,
     files !! file_name = Some request_file ∧ files !! "file" = Some f ∧
     filename f ≠ Some "" ∧ read_csv request_file = Some df ∧
     col_name ∈ pd.columns df ∧
     col = Some ((λ r, pd.cell r.2 col_name) <$> pd.rows df) ∧
     length ((λ r, pd.cell r.2 col_name) <$> pd.rows df)
     = length (pd.rows df)) ∨
  (col = None ∧ err = Some "Must specify a valid file" ∧
   (files !! file_name = None ∨
    ∃ f, files !! "file" = Some f ∧ filename f = Some "")) ∨
  (col = None ∧ err = Some "Could not parse csv file" ∧
   ∃ request_file,
     files !! file_name = Some request_file ∧
     (read_csv request_file = None ∨
      ∃ df, read_csv request_file = Some df ∧ col_name ∉ pd.columns df)).
Proof.
  pose proof (parse_request_csv_col_cases files file_name col_name) as H.
  destruct (files !! file_name) as [rf|] eqn:Hrf.
  - destruct (files !! "file") as [f|] eqn:Hf; [|by rewrite H].
    destruct (decide (filename f = Some "")) as [Hn|Hn].
    + rewrite H. intros [= <- <-]. right. left.
      split; [done|]. split; [done|]. right. by exists f.
    + destruct (read_csv rf) as [df|] eqn:Hdf.
      * destruct (decide (col_name ∈ pd.columns df)) as [Hc|Hc].
        -- rewrite H. intros [= <- <-]. left. split; [done|].
           exists rf, f, df. by rewrite length_fmap.
        -- rewrite H. intros [= <- <-]. right. right.
           split; [done|]. split; [done|]. exists rf. split; [done|].
           right. by exists df.
      * rewrite H. intros [= <- <-]. right. right.
        split; [done|]. split; [done|]. exists rf. split; [done|]. by left.
  - rewrite H. intros [= <- <-]. right. left.
    split; [done|]. split; [done|]. by left.
Qed.

(** X17: the test on the file name reads the form field "file", whatever
    field is asked for.  Asked for the field "file" the function never
    raises; asked for another field that the request has, it raises a key
    error when the request has no field "file", and it rejects the upload
    when the file of the field "file" has an empty name, even though the
    file asked for is there. *)
Theorem upload_reads_the_field_named_file (files : gmap string FileStorage)
    file_name col_name :
  (file_name = "file" →
   is_Ok (parse_request_csv_col read_csv files file_name col_name)) ∧
  (is_Some (files !! file_name) → files !! "file" = None →
   parse_request_csv_col read_csv files file_name col_name
   = Raise KeyError) ∧
  (∀ f, is_Some (files !! file_name) → files !! "file" = Some f →
        filename f = Some "" →
        parse_request_csv_col read_csv files file_name col_name
        = Ok (None, Some "Must specify a valid file")).
Proof.
  pose proof (parse_request_csv_col_cases files file_name col_name) as H.
  split; [|split].
  - intros ->. destruct (files !! "file") as [f|]; [|by eexists].
    destruct (decide (filename f = Some "")); [by eexists|].
    destruct (read_csv f) as [df|]; [|by eexists].
    destruct (decide (col_name ∈ pd.columns df)); by eexists.
  - intros [rf Hrf] Hf. by rewrite Hrf, Hf in H.
  - intros f [rf Hrf] Hf Hn. rewrite Hrf, Hf in H.
    by rewrite decide_True in H.
Qed.

End Upload_facts.

Lemma upload_outcomes_witness :
  ((None : option string) = None ∧
   ∃ request_file f df,
     ({[ "file" := Up.barcodes_csv ]} : gmap string FileStorage) !! "file"
     = Some request_file ∧
     ({[ "file" := Up.barcodes_csv ]} : gmap string FileStorage) !! "file"
     = Some f ∧
     filename f ≠ Some "" ∧ Up.read_csv request_file = Some df ∧
     "sample_name" ∈ pd.columns df ∧
     Some [Some "b1"; Some "b2"]
     = Some ((λ r, pd.cell r.2 "sample_name") <$> pd.rows df) ∧
     length ((λ r, pd.cell r.2 "sample_name") <$> pd.rows df)
     = length (pd.rows df)) ∨
  (Some [Some "b1"; Some "b2"] = None ∧
   (None : option string) = Some "Must specify a valid file" ∧
   (({[ "file" := Up.barcodes_csv ]} : gmap string FileStorage) !! "file"
    = None ∨
    ∃ f, ({[ "file" := Up.barcodes_csv ]} : gmap string FileStorage) !! "file"
         = Some f ∧ filename f = Some "")) ∨
  (Some [Some "b1"; Some "b2"] = None ∧
   (None : option string) = Some "Could not parse csv file" ∧
   ∃ request_file,
     ({[ "file" := Up.barcodes_csv ]} : gmap string FileStorage) !! "file"
     = Some request_file ∧
     (Up.read_csv request_file = None ∨
      ∃ df, Up.read_csv request_file = Some df ∧
            "sample_name" ∉ pd.columns df)).
Proof.
  apply (upload_outcomes Up.read_csv {[ "file" := Up.barcodes_csv ]}
           "file" "sample_name" (Some [Some "b1"; Some "b2"]) None).
  vm_compute. reflexivity.
Defined.

Lemma upload_reads_the_field_named_file_witness :
  parse_request_csv_col Up.read_csv {[ "upload" := Up.barcodes_csv ]}
    "upload" "sample_name"
  = Raise KeyError.
Proof.
  apply (proj1 (proj2 (upload_reads_the_field_named_file Up.read_csv
                         {[ "upload" := Up.barcodes_csv ]}
                         "upload" "sample_name"))).
  - eexists. vm_compute. reflexivity.
  - vm_compute. reflexivity.
Defined.

(** ** Exceptions of flattening *)

Section Flatten_errors.

Variable HUMAN_SITE_INVARIANTS : gmap string (list (string * string)).

Lemma to_pandas_series_not_human md mm
    (other : gmap string (list (string * string))) :
  source_type (md_source md) ≠ "human" →
  _to_pandas_series HUMAN_SITE_INVARIANTS md mm = _to_pandas_series other md mm.
Proof.
  intros Hh. unfold _to_pandas_series. cbv zeta.
  by rewrite !(decide_False (P := source_type (md_source md) = "human")).
Qed.

Lemma list_answer_outside_map_raises md mm sv qid shortname selections :
  sv ∈ first_submissions ∅ (survey_answers md) →
  (qid, (shortname, Selections selections)) ∈ response sv →
  mm !! (template sv, qid) = None →
  raises (_to_pandas_series HUMAN_SITE_INVARIANTS md mm).
Proof.
  intros Hsv Hq Hm. apply not_Ok_raises. intros [s Hs].
  apply to_pandas_series_Ok_inv in Hs as [_ Hall].
  specialize (Hall sv qid shortname (Selections selections) Hsv Hq).
  rewrite Hm in Hall. by destruct Hall.
Qed.

(** X18: the exceptions of flattening.  A human sample whose site is not in
    the table of invariants raises a key error whatever its answers; the
    table is not consulted for the other samples; and a list answer to a
    question outside the column map raises, so that a multiselect answer in
    the first submission of an ignored template makes the sample
    unflattenable with the column map of any run. *)
Theorem flattening_exceptions :
  (∀ md mm,
     source_type (md_source md) = "human" →
     HUMAN_SITE_INVARIANTS !! site (md_sample md) = None →
     _to_pandas_series HUMAN_SITE_INVARIANTS md mm = Raise KeyError) ∧
  (∀ md mm (other : gmap string (list (string * string))),
     source_type (md_source md) ≠ "human" →
     _to_pandas_series HUMAN_SITE_INVARIANTS md mm
     = _to_pandas_series other md mm) ∧
  (∀ (get_survey_template : string → string → Z → Z * survey_template)
     mds surveys st_errors md sv qid shortname selections,
     _fetch_observed_survey_templates get_survey_template mds
     = (surveys, st_errors) →
     sv ∈ first_submissions ∅ (survey_answers md) →
     template sv ∈ TEMPLATES_TO_IGNORE →
     (qid, (shortname, Selections selections)) ∈ response sv →
     raises (_to_pandas_series HUMAN_SITE_INVARIANTS md
               (_construct_multiselect_map surveys))).
Proof.
  split; [|split].
  - intros md mm Hh Hs.
    destruct (to_pandas_series_cases HUMAN_SITE_INVARIANTS md mm)
      as [(_ & _ & Hr)|(Hk & _)]; [done|].
    destruct (Hk Hh) as [? ?]. congruence.
  - apply to_pandas_series_not_human.
  - intros gst mds surveys st_errors md sv qid sn sel Hobs Hsv Hign Hq.
    apply (list_answer_outside_map_raises md _ sv qid sn sel Hsv Hq).
    apply fetch_observed_spec in Hobs as (errors & _ & Hs & _).
    rewrite construct_lookup, Hs, (ignored_not_to_fetch mds _ Hign). done.
Qed.

End Flatten_errors.

Lemma flattening_exceptions_witness :
  _to_pandas_series ∅ Ex.human_sample Ex.map_1 = Raise KeyError.
Proof.
  apply (proj1 (flattening_exceptions ∅) Ex.human_sample Ex.map_1).
  - vm_compute. reflexivity.
  - vm_compute. reflexivity.
Defined.

(** * The table, the repeated submissions, the ignored templates and the
      duplicates, from the layout of the records *)

Lemma all_multiselect_columns_spec
    (survey_templates : gmap Z survey_template) c :
  c ∈ all_multiselect_columns (_construct_multiselect_map survey_templates) ↔
  multiselect_column survey_templates c.
Proof.
  unfold multiselect_column. rewrite elem_of_all_multiselect_columns. split.
  - intros ([t q] & mv & choice & Hk & Hc).
    destruct (construct_lookup_Some survey_templates t q mv Hk)
      as (tpl & f & Ht & Hd & Hdom & Hval).
    assert (choice ∈ field_values f) as Hin.
    { apply (elem_of_list_to_set (C := gset string)). rewrite <- Hdom.
      apply elem_of_dom. by eexists. }
    exists t, tpl, q, f, choice. split; [done|]. split; [done|].
    split; [done|]. rewrite (Hval choice Hin) in Hc. by injection Hc.
  - intros (t & tpl & q & f & choice & Ht & Hd & Hin & ->).
    exists (t, q), (multi_values (field_shortname f) (field_values f)), choice.
    split.
    + rewrite construct_lookup, Ht. cbn. unfold entry_of. by rewrite Hd.
    + by rewrite multi_values_lookup, decide_True.
Qed.

Section Assembled_cells.

Variable HUMAN_SITE_INVARIANTS : gmap string (list (string * string)).

(** C4: the assembled table has no null cell.  A cell that the flattened
    record of its row holds keeps its value, the empty string excepted, which
    becomes "Missing: not provided"; a cell that the record lacks is "false"
    in a multiselect column, that is in the column of an enumerated value of
    a multi-select field of a fetched template, and "Missing: not provided"
    in any other column; every multiselect column is a column of the table.
    The table is built whenever the samples flatten into records without a
    repeated label. *)
Theorem assembled_table_has_no_null mds st :
  let mm := _construct_multiselect_map st in
  (∀ transformed,
     mapM (λ md, _to_pandas_series HUMAN_SITE_INVARIANTS md mm) mds
     = Ok transformed →
     Forall (λ s, NoDup (pd.labels s)) transformed →
     is_Ok (_to_pandas_dataframe HUMAN_SITE_INVARIANTS mds st)) ∧
  (∀ df,
     _to_pandas_dataframe HUMAN_SITE_INVARIANTS mds st = Ok df →
     (∀ r c, r ∈ pd.rows df → c ∈ pd.columns df → is_Some (pd.cell r.2 c)) ∧
     (∀ c, multiselect_column st c → c ∈ pd.columns df) ∧
     ∃ transformed,
       mapM (λ md, _to_pandas_series HUMAN_SITE_INVARIANTS md mm) mds
       = Ok transformed ∧
       Forall2 (λ s r,
                  r.1 = pd.name s ∧
                  ∀ c, c ∈ pd.columns df →
                       match raw_cell s c with
                       | Some v =>
                           pd.cell r.2 c
                           = Some (if decide (v = "")
                                   then "Missing: not provided" else v)
                       | None =>
                           (multiselect_column st c →
                            pd.cell r.2 c = Some "false") ∧
                           (¬ multiselect_column st c →
                            pd.cell r.2 c = Some "Missing: not provided")
                       end)
               transformed (pd.rows df)).
Proof.
  intros mm. split.
  - intros transformed. apply to_pandas_dataframe_is_Ok.
  - intros df Hdf.
    apply to_pandas_dataframe_Ok in Hdf
      as (transformed & Hmap & Hnd & Hcols & Hname & Hrows).
    fold mm in Hmap. split; [|split].
    + intros r c Hr Hc.
      apply list_elem_of_lookup in Hr as [i Hi].
      destruct (Forall2_lookup_r _ _ _ _ _ Hrows Hi) as (s & _ & _ & Hcell).
      rewrite (Hcell c Hc). by eexists.
    + intros c Hc. apply Hcols. left. by apply all_multiselect_columns_spec.
    + exists transformed. split; [done|].
      eapply Forall2_impl; [exact Hrows|].
      intros s r [Hn Hcell]. split; [done|]. intros c Hc.
      specialize (Hcell c Hc). unfold expected_cell in Hcell.
      destruct (raw_cell s c) as [v|]; [done|].
      split; intros Hm.
      * rewrite decide_True in Hcell; [done|].
        by apply all_multiselect_columns_spec.
      * rewrite decide_False in Hcell; [done|].
        by rewrite all_multiselect_columns_spec.
Qed.

End Assembled_cells.

Lemma assembled_table_has_no_null_witness :
  (∀ r c, r ∈ pd.rows Ex.table_1 → c ∈ pd.columns Ex.table_1 →
          is_Some (pd.cell r.2 c)) ∧
  (∀ c, multiselect_column {[ 1 := Ex.template_1 ]} c →
        c ∈ pd.columns Ex.table_1) ∧
  ∃ transformed,
    mapM (λ md, _to_pandas_series ∅ md
                  (_construct_multiselect_map {[ 1 := Ex.template_1 ]}))
         [Ex.sample_1]
    = Ok transformed ∧
    Forall2 (λ s r,
               r.1 = pd.name s ∧
               ∀ c, c ∈ pd.columns Ex.table_1 →
                    match raw_cell s c with
                    | Some v =>
                        pd.cell r.2 c
                        = Some (if decide (v = "")
                                then "Missing: not provided" else v)
                    | None =>
                        (multiselect_column {[ 1 := Ex.template_1 ]} c →
                         pd.cell r.2 c = Some "false") ∧
                        (¬ multiselect_column {[ 1 := Ex.template_1 ]} c →
                         pd.cell r.2 c = Some "Missing: not provided")
                    end)
            transformed (pd.rows Ex.table_1).
Proof.
  apply (proj2 (assembled_table_has_no_null ∅ [Ex.sample_1]
                  {[ 1 := Ex.template_1 ]}) Ex.table_1).
  vm_compute. reflexivity.
Defined.

Lemma answer_items_two mm (s1 s2 : survey) :
  template s1 = template s2 →
  answer_items mm [s1; s2] = response s1 ≫= question_items mm (template s1).
Proof.
  intros Ht. unfold answer_items. cbn [first_submissions].
  rewrite decide_False by set_solver.
  rewrite decide_True by set_solver.
  rewrite bind_cons. cbn [mbind list_bind]. by rewrite app_nil_r.
Qed.

Section First_submission.

Variable HUMAN_SITE_INVARIANTS : gmap string (list (string * string)).

(** C6: the record of a sample holds, between the two base items and the
    invariants, the items of the answers of the first submission of each
    template, in order, and nothing of a later submission of a template;
    with two submissions of one template it holds the items of the answers
    of the first one only.  Flattening a sample is flattening it without its
    later submissions, and a run over samples that repeat submissions
    returns the table and the report of the run over the same samples
    without the repeats. *)
Theorem first_submission_wins :
  (∀ md mm s,
     _to_pandas_series HUMAN_SITE_INVARIANTS md mm = Ok s →
     s = pd.mk_Series (sample_barcode md)
           (base_items md ++
            (first_submissions ∅ (survey_answers md) ≫=
               λ sv, response sv ≫= question_items mm (template sv)) ++
            invariants_of HUMAN_SITE_INVARIANTS md)) ∧
  (∀ md mm s1 s2 s,
     survey_answers md = [s1; s2] → template s1 = template s2 →
     _to_pandas_series HUMAN_SITE_INVARIANTS md mm = Ok s →
     s = pd.mk_Series (sample_barcode md)
           (base_items md ++
            (response s1 ≫= question_items mm (template s1)) ++
            invariants_of HUMAN_SITE_INVARIANTS md)) ∧
  (∀ md mm,
     _to_pandas_series HUMAN_SITE_INVARIANTS md mm
     = _to_pandas_series HUMAN_SITE_INVARIANTS (keep_first md) mm) ∧
  (∀ md mm s1 s2,
     survey_answers md = [s1; s2] → template s1 = template s2 →
     _to_pandas_series HUMAN_SITE_INVARIANTS md mm
     = _to_pandas_series HUMAN_SITE_INVARIANTS
         (with_survey_answers md [s1]) mm) ∧
  (∀ get_sample_surveys get_survey_template barcodes,
     retrieve_metadata HUMAN_SITE_INVARIANTS get_sample_surveys
       get_survey_template barcodes
     = retrieve_metadata HUMAN_SITE_INVARIANTS
         (λ b, ((get_sample_surveys b).1, keep_first (get_sample_surveys b).2))
         get_survey_template barcodes).
Proof.
  split; [|split; [|split; [|split]]].
  - intros md mm s Hs. by apply to_pandas_series_items in Hs.
  - intros md mm s1 s2 s Hl Ht Hs. apply to_pandas_series_items in Hs.
    by rewrite Hl, answer_items_two in Hs.
  - intros md mm. by rewrite to_pandas_series_keep_first.
  - intros md mm s1 s2 Hl Ht.
    rewrite <- (to_pandas_series_keep_first _ md).
    unfold keep_first. rewrite Hl. cbn [first_submissions].
    rewrite decide_False by set_solver.
    rewrite decide_True by set_solver. done.
  - intros gss gst barcodes. rewrite !retrieve_metadata_unfold.
    set (gss' := λ b, ((gss b).1, keep_first (gss b).2)).
    set (l := elements (list_to_set barcodes : gset string)).
    change (fetched_barcodes gss' l) with (fetched_barcodes gss l).
    change (failed_barcodes gss' l) with (failed_barcodes gss l).
    change (sample_error gss') with (sample_error gss).
    change (sample_payload gss')
      with (keep_first ∘ sample_payload gss).
    rewrite (list_fmap_compose (sample_payload gss) keep_first).
    rewrite fetch_observed_keep_first.
    case_decide; [done|].
    destruct (_fetch_observed_survey_templates gst _) as [st [e|]]; [done|].
    by rewrite to_pandas_dataframe_keep_first.
Qed.

End First_submission.

Lemma first_submission_wins_witness :
  pd.mk_Series "b3" [("HOST_SUBJECT_ID", "host3");
                     ("COLLECTION_TIMESTAMP", "2020-03-03");
                     ("BLOOD_TYPE_B", "true")]
  = pd.mk_Series (sample_barcode Ex.sample_dup)
      (base_items Ex.sample_dup ++
       (response Ex.first_submission ≫=
          question_items Ex.map_1 (template Ex.first_submission)) ++
       invariants_of ∅ Ex.sample_dup).
Proof.
  apply (proj1 (proj2 (first_submission_wins ∅)) Ex.sample_dup Ex.map_1
           Ex.first_submission Ex.second_submission).
  - reflexivity.
  - reflexivity.
  - vm_compute. reflexivity.
Defined.

Section Ignored_templates.

Variable HUMAN_SITE_INVARIANTS : gmap string (list (string * string)).

(** C3: a template of the ignored set is never requested: it is not among
    the templates to fetch, so it is neither a fetched template nor a key of
    the template errors, and no question of it is a key of the column map;
    but the first submission of it that a sample carries is flattened like
    any other: each of its text answers is an item of the record of the
    sample, under the short name of its question. *)
Theorem ignored_templates_are_not_fetched
    (get_survey_template : string → string → Z → Z * survey_template)
    (mds : list metadata) surveys st_errors t :
  t ∈ TEMPLATES_TO_IGNORE →
  _fetch_observed_survey_templates get_survey_template mds
  = (surveys, st_errors) →
  templates_to_fetch mds !! t = None ∧
  surveys !! t = None ∧
  (∀ errors, st_errors = Some errors → errors !! t = None) ∧
  (∀ q, _construct_multiselect_map surveys !! (t, q) = None) ∧
  (∀ md sv qid shortname text s,
     sv ∈ first_submissions ∅ (survey_answers md) →
     template sv = t →
     (qid, (shortname, Text text)) ∈ response sv →
     _to_pandas_series HUMAN_SITE_INVARIANTS md
       (_construct_multiselect_map surveys) = Ok s →
     (shortname, Str.strip strip_chars text) ∈ pd.items s).
Proof.
  intros Hign Hobs.
  pose proof (ignored_not_to_fetch mds t Hign) as Hnone.
  apply fetch_observed_spec in Hobs as (errors & Hst & Hs & He).
  assert (surveys !! t = None) as Hst' by (by rewrite Hs, Hnone).
  assert (∀ q, _construct_multiselect_map surveys !! (t, q) = None) as Hmap
    by (intros q; by rewrite construct_lookup, Hst').
  split; [done|]. split; [done|]. split; [|split; [exact Hmap|]].
  - intros errors' Heq. rewrite Hst in Heq. case_decide; [done|].
    injection Heq as <-. by rewrite He, Hnone.
  - intros md sv qid shortname text s Hsv Ht Hq Hser.
    apply to_pandas_series_items in Hser. rewrite Hser. cbn [pd.items].
    apply elem_of_app. right. apply elem_of_app. left.
    unfold answer_items. apply list_elem_of_bind. exists sv.
    split; [|done]. apply list_elem_of_bind.
    exists (qid, (shortname, Text text)). split; [|done].
    unfold question_items. cbn [fst snd]. rewrite Ht, Hmap.
    by apply list_elem_of_singleton.
Qed.

End Ignored_templates.

Lemma ignored_templates_are_not_fetched_witness :
  ("VIOSCREEN_FIBER", Str.strip strip_chars (Ex.listed "12"))
  ∈ pd.items (pd.mk_Series "b5" [("HOST_SUBJECT_ID", "host5");
                                 ("COLLECTION_TIMESTAMP", "2020-05-05");
                                 ("VIOSCREEN_FIBER", "12")]).
Proof.
  assert (10001 ∈ TEMPLATES_TO_IGNORE) as Hign
    by (apply (bool_decide_eq_true_1 _); vm_compute; reflexivity).
  assert (_fetch_observed_survey_templates Ex.templates_500
            [Ex.ignored_sample] = (∅, None)) as Hobs
    by (vm_compute; reflexivity).
  apply (proj2 (proj2 (proj2 (proj2
           (ignored_templates_are_not_fetched ∅ Ex.templates_500
              [Ex.ignored_sample] ∅ None 10001 Hign Hobs))))
           Ex.ignored_sample
           (mk_survey 10001
              [("q7", ("VIOSCREEN_FIBER", Text (Ex.listed "12")))])
           "q7" "VIOSCREEN_FIBER" (Ex.listed "12")).
  - apply list_elem_of_here.
  - reflexivity.
  - apply list_elem_of_here.
  - vm_compute. reflexivity.
Defined.

Section Distinct_identifiers.

Variable HUMAN_SITE_INVARIANTS : gmap string (list (string * string)).
Variable get_sample_surveys : string → Z * metadata.
Variable get_survey_template : string → string → Z → Z * survey_template.

(** C7: without a repeated identifier the duplicate check reports nothing;
    with one it reports exactly the identifiers that occur more than once, in
    one entry; and the run fetches each distinct identifier of the batch
    once, repeated or not: after the entry of the duplicate check its report
    has one entry for each distinct identifier whose fetch fails, and the
    table, when it is built, has one row for each distinct identifier whose
    fetch succeeds. *)
Theorem duplicates_are_reported_not_removed :
  (∀ barcodes, NoDup barcodes → (_find_duplicates barcodes).2 = None) ∧
  (∀ barcodes, ¬ NoDup barcodes →
     ∃ l, (_find_duplicates barcodes).2
          = Some (BarcodesError l "Duplicated barcodes in input") ∧
          NoDup l ∧
          ∀ b, b ∈ l ↔ (1 < multiplicity b barcodes)%nat) ∧
  (∀ barcodes b,
     b ∈ (_find_duplicates barcodes).1 ↔ (1 < multiplicity b barcodes)%nat) ∧
  (∀ barcodes df report,
     retrieve_metadata HUMAN_SITE_INVARIANTS get_sample_surveys
       get_survey_template barcodes = Ok (df, report) →
     ∃ l closing,
       NoDup l ∧ (∀ b, b ∈ l ↔ b ∈ barcodes) ∧
       report = duplicate_entries barcodes ++
                (sample_error get_sample_surveys <$>
                   failed_barcodes get_sample_surveys l) ++ closing ∧
       (closing = [] ∨
        closing = [PlainError "No metadata was obtained"] ∨
        ∃ errors, closing = [TemplateErrors errors]) ∧
       (closing = [] →
        pd.index df
        = (λ b, sample_barcode (sample_payload get_sample_surveys b)) <$>
            fetched_barcodes get_sample_surveys l)) ∧
  (∀ barcodes df report,
     retrieve_metadata HUMAN_SITE_INVARIANTS get_sample_surveys
       get_survey_template barcodes = Ok (df, report) →
     filter (λ e, is_duplicate_entry e = true) report
     = duplicate_entries barcodes ∧
     length (duplicate_entries barcodes)
     = (if decide (NoDup barcodes) then 0 else 1)%nat ∧
     ∀ b, b ∈ barcodes →
       (sample_status get_sample_surveys b ≠ 200 →
        sample_error get_sample_surveys b ∈ report) ∧
       (sample_status get_sample_surveys b = 200 →
        (∃ errors, TemplateErrors errors ∈ report) ∨
        sample_barcode (sample_payload get_sample_surveys b) ∈ pd.index df)).
Proof.
  split; [|split; [|split; [|split]]].
  - intros barcodes Hnd. rewrite find_duplicates_error.
    by rewrite decide_True.
  - intros barcodes Hnd. rewrite find_duplicates_error.
    rewrite decide_False by done. eexists. split; [done|].
    split; [apply NoDup_elements|]. intros b.
    by rewrite elem_of_elements, elem_of_duplicates.
  - apply elem_of_duplicates.
  - intros barcodes df report. rewrite retrieve_metadata_unfold.
    set (l := elements (list_to_set barcodes : gset string)).
    intros H. exists l.
    assert (NoDup l ∧ ∀ b, b ∈ l ↔ b ∈ barcodes) as [Hnd Hmem].
    { split; [apply NoDup_elements|]. intros b. unfold l.
      by rewrite elem_of_elements, elem_of_list_to_set. }
    destruct (decide (fetched_barcodes get_sample_surveys l = [])) as [He|Hne].
    + injection H as <- <-. exists [PlainError "No metadata was obtained"].
      split; [done|]. split; [done|]. split; [by rewrite <- app_assoc|].
      split; [right; by left | done].
    + destruct (_fetch_observed_survey_templates _ _) as [st [e|]].
      * injection H as <- <-. exists [TemplateErrors e].
        split; [done|]. split; [done|]. split; [by rewrite <- app_assoc|].
        split; [right; right; by exists e | done].
      * destruct (_to_pandas_dataframe _ _ _) as [df'|] eqn:Hdf; [|done].
        injection H as <- <-. exists [].
        split; [done|]. split; [done|]. split; [by rewrite app_nil_r|].
        split; [by left|]. intros _.
        rewrite (to_pandas_dataframe_index _ _ _ _ Hdf).
        by rewrite <- list_fmap_compose.
  - intros barcodes df report. rewrite retrieve_metadata_unfold.
    set (l := elements (list_to_set barcodes : gset string)).
    intros H.
    assert (length (duplicate_entries barcodes)
            = (if decide (NoDup barcodes) then 0 else 1)%nat) as Hlen.
    { unfold duplicate_entries. rewrite find_duplicates_error.
      by destruct (decide (NoDup barcodes)). }
    assert (∀ b, b ∈ barcodes → sample_status get_sample_surveys b ≠ 200 →
                 sample_error get_sample_surveys b
                 ∈ duplicate_entries barcodes ++
                   (sample_error get_sample_surveys <$>
                      failed_barcodes get_sample_surveys l)) as Herr.
    { intros b Hb Hs. apply elem_of_app. right. apply list_elem_of_fmap.
      exists b. split; [done|]. unfold failed_barcodes.
      apply list_elem_of_filter. split; [done|]. unfold l.
      by rewrite elem_of_elements, elem_of_list_to_set. }
    destruct (decide (fetched_barcodes get_sample_surveys l = [])) as [He|Hne].
    + injection H as <- <-. split; [|split; [done|]].
      * rewrite filter_app, filter_duplicate_entries, filter_cons.
        rewrite decide_False by done. by rewrite filter_nil, app_nil_r.
      * intros b Hb. split.
        -- intros Hs. apply elem_of_app. left. by apply Herr.
        -- intros Hs. exfalso.
           apply (proj1 (no_sample_fetched get_sample_surveys l) He b);
             [|done].
           unfold l. by rewrite elem_of_elements, elem_of_list_to_set.
    + destruct (_fetch_observed_survey_templates _ _) as [st [e|]].
      * injection H as <- <-. split; [|split; [done|]].
        -- rewrite filter_app, filter_duplicate_entries, filter_cons.
           rewrite decide_False by done. by rewrite filter_nil, app_nil_r.
        -- intros b Hb. split.
           ++ intros Hs. apply elem_of_app. left. by apply Herr.
           ++ intros _. left. exists e. apply elem_of_app. right.
              by apply list_elem_of_singleton.
      * destruct (_to_pandas_dataframe _ _ _) as [df'|] eqn:Hdf; [|done].
        injection H as <- <-. split; [|split; [done|]].
        -- apply filter_duplicate_entries.
        -- intros b Hb. split; [by apply Herr|].
           intros Hs. right.
           rewrite (to_pandas_dataframe_index _ _ _ _ Hdf).
           rewrite <- list_fmap_compose. apply list_elem_of_fmap.
           exists b. split; [done|]. unfold fetched_barcodes.
           apply list_elem_of_filter. split; [done|]. unfold l.
           by rewrite elem_of_elements, elem_of_list_to_set.
Qed.

End Distinct_identifiers.

Lemma duplicates_are_reported_not_removed_witness :
  ((_find_duplicates ["b1"; "b2"]).2 = None) ∧
  (∃ l, (_find_duplicates ["b1"; "b2"; "b1"]).2
        = Some (BarcodesError l "Duplicated barcodes in input") ∧
        NoDup l ∧
        ∀ b, b ∈ l ↔ (1 < multiplicity b ["b1"; "b2"; "b1"])%nat) ∧
  (∃ l closing,
     NoDup l ∧ (∀ b, b ∈ l ↔ b ∈ ["b9"; "b9"]) ∧
     [BarcodesError ["b9"] "Duplicated barcodes in input";
      BarcodeError "b9" "404 from api";
      PlainError "No metadata was obtained"]
     = duplicate_entries ["b9"; "b9"] ++
       (sample_error Ex.samples_404 <$> failed_barcodes Ex.samples_404 l) ++
       closing ∧
     (closing = [] ∨
      closing = [PlainError "No metadata was obtained"] ∨
      ∃ errors, closing = [TemplateErrors errors]) ∧
     (closing = [] →
      pd.index pd.empty
      = (λ b, sample_barcode (sample_payload Ex.samples_404 b)) <$>
          fetched_barcodes Ex.samples_404 l)).
Proof.
  split; [|split].
  - apply (proj1 (duplicates_are_reported_not_removed ∅ Ex.samples_404
                    Ex.templates_1)).
    apply (bool_decide_eq_true_1 _). vm_compute. reflexivity.
  - apply (proj1 (proj2 (duplicates_are_reported_not_removed ∅
                           Ex.samples_404 Ex.templates_1))).
    apply (bool_decide_eq_false_1 _). vm_compute. reflexivity.
  - apply (proj1 (proj2 (proj2 (proj2
             (duplicates_are_reported_not_removed ∅ Ex.samples_404
                Ex.templates_1)))) ["b9"; "b9"] pd.empty).
    vm_compute. reflexivity.
Defined.
